(** * Host-controller console: session registry, polling loops, dispatch

    A shallow embedding of [harnesses/host_controller/console.py] and of
    [vti_interface/vti_endpoint_client.py].  Python dictionaries are
    [gmap]s, attributes that may be absent are [option]s, a method that
    can raise returns an [outcome], and everything a method does to the
    outside (printing, logging, starting a thread, calling a remote
    service) is recorded in an event list. *)

From Stdlib Require Import ZArith QArith Lia Ascii String.
From stdpp Require Import base tactics option list relations gmap strings pretty.

Local Open Scope Z_scope.

(** ** Exceptions and outcomes *)

(** The exception classes that the modelled code raises or catches.  The
    first four are the ones named in the [except] clauses of the polling
    loops; [SocketError] is [socket.error]. *)
Inductive exn_class :=
  | SocketError
  | RemoteOperationException
  | HttpLib2Error
  | HttpError
  | ConsoleArgumentError
  | TypeError
  | ValueError
  | KeyError
  | AttributeError
  | IOError
  | IndexError.

#[global] Instance exn_class_eq_dec : EqDecision exn_class.
Proof. solve_decision. Defined.

(** [type(e).__name__] *)
Definition class_name (c : exn_class) : string :=
  match c with
  | SocketError => "error"
  | RemoteOperationException => "RemoteOperationException"
  | HttpLib2Error => "HttpLib2Error"
  | HttpError => "HttpError"
  | ConsoleArgumentError => "ConsoleArgumentError"
  | TypeError => "TypeError"
  | ValueError => "ValueError"
  | KeyError => "KeyError"
  | AttributeError => "AttributeError"
  | IOError => "IOError"
  | IndexError => "IndexError"
  end.

Record exception := Exc { exc_class : exn_class; exc_message : string }.

#[global] Instance exception_eq_dec : EqDecision exception.
Proof. solve_decision. Defined.

Inductive outcome (A : Type) :=
  | Return (a : A)
  | Raise (e : exception).
Arguments Return {A} a.
Arguments Raise {A} e.

(** ** String helpers (the Python [str] methods the code calls) *)

(** The line feed. *)
Definition newline : string := String (ascii_of_nat 10) EmptyString.

(** [s.split(c)] for a one-character separator. *)
Fixpoint split_on (c : ascii) (s : string) : list string :=
  match s with
  | EmptyString => [EmptyString]
  | String a s' =>
      if Ascii.eqb a c then EmptyString :: split_on c s'
      else match split_on c s' with
           | piece :: rest => String a piece :: rest
           | [] => [String a EmptyString]
           end
  end.

(** [c in s] for a one-character needle. *)
Fixpoint has_char (c : ascii) (s : string) : bool :=
  match s with
  | EmptyString => false
  | String a s' => Ascii.eqb a c || has_char c s'
  end.

(** [s.split(c)[0]] *)
Definition split_head (c : ascii) (s : string) : string :=
  match split_on c s with
  | piece :: _ => piece
  | [] => s
  end.

(** [s.rsplit(sep, 1)[0]]: the part of [s] before the last occurrence of
    [sep], or [s] itself when [sep] does not occur. *)
Fixpoint before_last (sep s : string) : option string :=
  match s with
  | EmptyString => None
  | String a s' =>
      match before_last sep s' with
      | Some h => Some (String a h)
      | None => if String.prefix sep s then Some EmptyString else None
      end
  end.

Definition rsplit1_head (sep s : string) : string :=
  match before_last sep s with
  | Some h => h
  | None => s
  end.

(** [needle in s] for strings. *)
Fixpoint contains (needle s : string) : bool :=
  String.prefix needle s ||
  match s with
  | EmptyString => false
  | String _ s' => contains needle s'
  end.

(** ** Threads and the session tables *)

(** What a background thread was created to run, with its arguments. *)
Inductive thread_target :=
  | UpdateBuildLoop_target
      (account_id branch target artifact_type : string) (interval : Z)
  | UpdateConfigLoop_target
      (account_id branch target config_type method : string) (interval : Z)
  | UpdateDeviceRepeat_target
      (server_type : string) (host : Z) (interval : Z).

(** A [threading.Thread] object.  [keep_running] is not an attribute of
    a fresh thread; a stop command adds it. *)
Record Thread := {
  thread_target_of : thread_target;
  daemon : bool;
  keep_running : option bool;
}.

(** [hasattr(t, 'keep_running')] *)
Definition hasattr_keep_running (t : Thread) : bool :=
  match keep_running t with Some _ => true | None => false end.

(** [getattr(t, 'keep_running', True)] *)
Definition getattr_keep_running (t : Thread) : bool :=
  default true (keep_running t).

(** [t.keep_running = False] *)
Definition set_keep_running_False (t : Thread) : Thread :=
  {| thread_target_of := thread_target_of t;
     daemon := daemon t;
     keep_running := Some false |}.

(** A session is flagged running while its thread object carries no
    [keep_running] attribute. *)
Definition flagged_running (tbl : gmap Z Thread) (id : Z) : Prop :=
  ∃ t, tbl !! id = Some t ∧ keep_running t = None.

(** [max(d)] over the keys of a dictionary; [None] stands for the
    [ValueError] of an empty argument. *)
Definition py_max (ks : list Z) : option Z :=
  foldr (λ k acc, Some (match acc with Some a => Z.max k a | None => k end))
        None ks.

Definition max_key {A} (tbl : gmap Z A) : option Z :=
  py_max (elements (dom tbl)).

(** ** Console state *)

Record Console := {
  device_image_info : gmap string string;
  test_suite_info : gmap string string;
  tools_info : option (gmap string string);
  build_thread : gmap Z Thread;
  schedule_thread : gmap Z Thread;
  update_thread : option Thread;
  fetch_info : gmap string (option string);
  _serials : list string;
}.

(** [Console.__init__] *)
Definition Console_init : Console := {|
  device_image_info := ∅;
  test_suite_info := ∅;
  tools_info := Some ∅;
  build_thread := ∅;
  schedule_thread := ∅;
  update_thread := None;
  fetch_info := ∅;
  _serials := [];
|}.

Definition with_build_thread (c : Console) (tbl : gmap Z Thread) : Console :=
  {| device_image_info := device_image_info c;
     test_suite_info := test_suite_info c;
     tools_info := tools_info c;
     build_thread := tbl;
     schedule_thread := schedule_thread c;
     update_thread := update_thread c;
     fetch_info := fetch_info c;
     _serials := _serials c |}.

Definition with_schedule_thread (c : Console) (tbl : gmap Z Thread) : Console :=
  {| device_image_info := device_image_info c;
     test_suite_info := test_suite_info c;
     tools_info := tools_info c;
     build_thread := build_thread c;
     schedule_thread := tbl;
     update_thread := update_thread c;
     fetch_info := fetch_info c;
     _serials := _serials c |}.

Definition with_update_thread (c : Console) (t : option Thread) : Console :=
  {| device_image_info := device_image_info c;
     test_suite_info := test_suite_info c;
     tools_info := tools_info c;
     build_thread := build_thread c;
     schedule_thread := schedule_thread c;
     update_thread := t;
     fetch_info := fetch_info c;
     _serials := _serials c |}.

Definition with_serials (c : Console) (l : list string) : Console :=
  {| device_image_info := device_image_info c;
     test_suite_info := test_suite_info c;
     tools_info := tools_info c;
     build_thread := build_thread c;
     schedule_thread := schedule_thread c;
     update_thread := update_thread c;
     fetch_info := fetch_info c;
     _serials := l |}.

(** ** Events *)

(** A build dictionary as [UpdateBuild] fills it in. *)
Record build_info := {
  manifest_branch : string;
  bi_build_id : string;
  build_target : string;
  build_type : string;
  artifact_type_of : string;
  artifacts : list string;
}.

Inductive event :=
  | Print (s : string)                 (* print to standard output *)
  | OutWrite (s : string)              (* self._out_file.write *)
  | LogException (e : exception)       (* logging.exception *)
  | LogInfo (s : string)               (* logging.info *)
  | ThreadStart (t : Thread)           (* Thread.start() *)
  | Sleep (seconds : Z)                (* time.sleep *)
  | PabAuthenticate
  | PabGetBuildList (account_id branch target : string) (max_results : Z)
  | VtiUploadBuildInfo (builds : list build_info)
  | ShellCommand (cmd : string)        (* cmd_utils.ExecuteOneShellCommand *)
  | BuildFlasher (serial : string) (flasher_path : option string)
  | Flash (serial : string) (partition_image : gmap string string)
  | Flashall (serial build_dir : string)
  | FlashGSI (serial gsi : string) (vbmeta : option string)
  | RepackageArtifacts (serial : string) (images : gmap string string)
      (repackage : string)
  | FlashUsingCustomBinary (serial : string) (images : gmap string string)
      (reboot_mode : string) (arg_flasher : option string) (timeout : Z)
  | WaitForDevice (serial : string).

(** ** The console monad: state, events, exceptions *)

Definition M (A : Type) : Type := Console → outcome A * Console * list event.

Definition ret {A} (a : A) : M A := λ c, (Return a, c, []).
Definition raise {A} (k : exn_class) (msg : string) : M A :=
  λ c, (Raise (Exc k msg), c, []).
Definition bind {A B} (m : M A) (f : A → M B) : M B :=
  λ c, match m c with
       | (Return a, c', ev) =>
           let '(r, c'', ev') := f a c' in (r, c'', ev ++ ev')
       | (Raise e, c', ev) => (Raise e, c', ev)
       end.
Definition get : M Console := λ c, (Return c, c, []).
Definition put (c : Console) : M unit := λ _, (Return tt, c, []).
Definition emit (e : event) : M unit := λ c, (Return tt, c, [e]).
Definition lift {A} (o : outcome A) : M A := λ c, (o, c, []).

Notation "'let*' x ':=' m 'in' k" := (bind m (λ x, k))
  (at level 10, x name, m at level 100, k at level 200, only parsing).
Notation "m ';;;' k" := (bind m (λ _, k))
  (at level 100, k at level 200, right associativity, only parsing).

Fixpoint for_each {A} (l : list A) (body : A → M unit) : M unit :=
  match l with
  | [] => ret tt
  | x :: l' => body x ;;; for_each l' body
  end.

(** ** Python values passed positionally to a method *)

Inductive pyval :=
  | PStr (s : string)
  | PHost (index : Z).

(** ** External collaborators *)

(** One entry of the list [GetBuildList] returns. *)
Record listed_build := {
  successful : bool;
  build_id : string;
}.

(** What the build provider and the endpoint client answer during one
    unit of work.  Each call may raise. *)
Record World := {
  pab_Authenticate : outcome unit;
  pab_GetBuildList :
    string (* account_id *) → string (* branch *) → string (* target *) →
    outcome (list listed_build);
  vti_UploadBuildInfo : list build_info → outcome bool;
}.

(** ** Effects without console state: events and exceptions *)

Definition E (A : Type) : Type := (outcome A * list event)%type.

Definition eret {A} (a : A) : E A := (Return a, []).
Definition ebind {A B} (m : E A) (f : A → E B) : E B :=
  match m with
  | (Return a, ev) => let '(r, ev') := f a in (r, ev ++ ev')
  | (Raise e, ev) => (Raise e, ev)
  end.
Definition eemit (e : event) : E unit := (Return tt, [e]).
Definition elift {A} (o : outcome A) : E A := (o, []).
Definition liftE {A} (m : E A) : M A := λ c, (m.1, c, m.2).

Notation "'let!' x ':=' m 'in' k" := (ebind m (λ x, k))
  (at level 10, x name, m at level 100, k at level 200, only parsing).

(** ** [UpdateBuild] *)

(** The body of the inner loop of [UpdateBuild] for one successful
    listed build: fills in the build dictionary.  The tuple assignment
    from [target.split("-")] needs exactly two pieces. *)
Definition make_build (branch target artifact_type : string)
    (lb : listed_build) : outcome build_info :=
  if has_char "-" target then
    match split_on "-" target with
    | [bt; ty] =>
        Return {| manifest_branch := branch; bi_build_id := build_id lb;
                  build_target := bt; build_type := ty;
                  artifact_type_of := artifact_type; artifacts := [] |}
    | _ => Raise (Exc ValueError "too many values to unpack")
    end
  else
    Return {| manifest_branch := branch; bi_build_id := build_id lb;
              build_target := target; build_type := "";
              artifact_type_of := artifact_type; artifacts := [] |}.

(** [for listed_build in listed_builds: ...], appending to [builds]. *)
Fixpoint add_listed_builds (branch target artifact_type : string)
    (listed : list listed_build) (builds : list build_info)
    : outcome (list build_info) :=
  match listed with
  | [] => Return builds
  | lb :: rest =>
      if successful lb then
        match make_build branch target artifact_type lb with
        | Return b =>
            add_listed_builds branch target artifact_type rest (builds ++ [b])
        | Raise e => Raise e
        end
      else add_listed_builds branch target artifact_type rest builds
  end.

(** [for target in targets.split(","): ...] *)
Fixpoint list_targets (w : World) (account_id branch artifact_type : string)
    (targets : list string) (builds : list build_info)
    : E (list build_info) :=
  match targets with
  | [] => eret builds
  | target :: rest =>
      let! _ := eemit (PabGetBuildList account_id branch target 100) in
      let! listed := elift (pab_GetBuildList w account_id branch target) in
      let! builds' :=
        elift (add_listed_builds branch target artifact_type listed builds) in
      list_targets w account_id branch artifact_type rest builds'
  end.

Definition UpdateBuild (w : World)
    (account_id branch targets artifact_type : string) : E unit :=
  let! _ := eemit PabAuthenticate in
  let! _ := elift (pab_Authenticate w) in
  let! builds :=
    list_targets w account_id branch artifact_type (split_on "," targets) [] in
  let! _ := eemit (VtiUploadBuildInfo builds) in
  let! _ := elift (vti_UploadBuildInfo w builds) in
  eret tt.

(** ** The polling loops *)

(** [time.sleep]: a negative argument is an [IOError] (errno 22). *)
Definition py_sleep (seconds : Z) : E unit :=
  if seconds <? 0 then (Raise (Exc IOError "[Errno 22] Invalid argument"), [])
  else eemit (Sleep seconds).

(** The classes listed in the loops' [except] clause. *)
Definition caught (e : exception) : bool :=
  match exc_class e with
  | SocketError | RemoteOperationException | HttpLib2Error | HttpError => true
  | _ => false
  end.

Inductive loop_state :=
  | Looping              (* the thread is still inside the while loop *)
  | Exited               (* the while condition was false: normal return *)
  | Died (e : exception) (* an exception left the loop and the thread *).

#[global] Instance loop_state_eq_dec : EqDecision loop_state.
Proof. solve_decision. Defined.

(** One pass through the loop body: the [try]/[except] around the unit
    of work, then the sleep. *)
Definition loop_body (work : E unit) (update_interval : Z) : E unit :=
  let! _ :=
    match work with
    | (Return _, ev) => (Return tt, ev)
    | (Raise e, ev) =>
        if caught e then (Return tt, ev ++ [LogException e])
        else (Raise e, ev)
    end in
  py_sleep update_interval.

(** The [while getattr(thread, 'keep_running', True)] loop, unrolled
    [fuel] times from iteration [i].  [thread_at i] is the thread object
    as it is when the condition is evaluated for the [i]-th time (a stop
    command on the main thread may have changed it meanwhile), and
    [work i] is what the unit of work does the [i]-th time it is called. *)
Fixpoint poll (thread_at : nat → Thread) (work : nat → E unit)
    (update_interval : Z) (fuel : nat) (i : nat) : loop_state * list event :=
  match fuel with
  | O => (Looping, [])
  | S fuel' =>
      if getattr_keep_running (thread_at i) then
        match loop_body (work i) update_interval with
        | (Return _, ev) =>
            let '(s, ev') :=
              poll thread_at work update_interval fuel' (S i) in
            (s, ev ++ ev')
        | (Raise e, ev) => (Died e, ev)
        end
      else (Exited, [])
  end.

Definition UpdateBuildLoop (thread_at : nat → Thread) (world_at : nat → World)
    (account_id branch target artifact_type : string) (update_interval : Z)
    (fuel : nat) : loop_state * list event :=
  poll thread_at
       (λ i, UpdateBuild (world_at i) account_id branch target artifact_type)
       update_interval fuel 0.

(** [UpdateConfig] and [UpdateDevice] work on the file system, on
    protocol buffers and on shell commands; the loops around them only
    look at whether the call returns or raises, so the two loops take
    what the call does in iteration [i] as [UpdateConfig_at i] and
    [UpdateDevice_at i]. *)
Definition UpdateConfigLoop (thread_at : nat → Thread)
    (UpdateConfig_at : nat → E unit) (update_interval : Z) (fuel : nat)
    : loop_state * list event :=
  poll thread_at UpdateConfig_at update_interval fuel 0.

Definition UpdateDeviceRepeat (thread_at : nat → Thread)
    (UpdateDevice_at : nat → E unit) (update_interval : Z) (fuel : nat)
    : loop_state * list event :=
  poll thread_at UpdateDevice_at update_interval fuel 0.

(** ** The [build] and [config] commands *)

Inductive update_verb := Single | Start | Stop | List.

(** The namespace [_build_parser] produces.  [--id] stays the string the
    user typed until the handler converts it. *)
Record build_args := {
  ba_update : update_verb;
  ba_id : option string;
  ba_interval : Z;
  ba_artifact_type : string;
  ba_branch : string;
  ba_target : string;
  ba_account_id : string;
}.

Record config_args := {
  ca_update : update_verb;
  ca_id : option string;
  ca_interval : Z;
  ca_config_type : string;
  ca_branch : string;
  ca_target : string;
  ca_account_id : string;
  ca_method : string;
}.

(** [threading.Thread(target=..., args=...)] *)
Definition new_thread (tg : thread_target) : Thread :=
  {| thread_target_of := tg; daemon := false; keep_running := None |}.

(** [t.daemon = True] *)
Definition set_daemon_True (t : Thread) : Thread :=
  {| thread_target_of := thread_target_of t;
     daemon := true;
     keep_running := keep_running t |}.

(** [id in table and not hasattr(table[id], 'keep_running')] *)
Definition already_running (tbl : gmap Z Thread) (id : Z) : bool :=
  match tbl !! id with
  | Some t => negb (hasattr_keep_running t)
  | None => false
  end.

(** The id given to a start command without [--id]:
    [1 if not table else max(table) + 1]. *)
Definition next_id (tbl : gmap Z Thread) : outcome Z :=
  if decide (tbl = ∅) then Return 1
  else match max_key tbl with
       | Some m => Return (m + 1)
       | None => Raise (Exc ValueError "max() arg is an empty sequence")
       end.

(** [print("  ID %d", id)] prints the pair. *)
Definition list_line (id : Z) : string :=
  "('  ID %d', " +:+ pretty id +:+ ")".

Definition build_already_running_message (id : Z) : string :=
  "build update (session ID: " +:+ pretty id +:+
  ") already running. run build --update stop first.".

Definition config_already_running_message (id : Z) : string :=
  "config update already running. run config --update=stop --id=" +:+
  pretty id +:+ " first.".

Inductive device_update_verb := DevSingle | DevStart | DevStop.

Record device_args := {
  da_set_serial : string;
  da_update : device_update_verb;
  da_interval : Z;
  da_host : option Z;
  da_server_type : string;
}.

(** [str] of a list of strings, as [print] shows it. *)
Definition repr_list (l : list string) : string :=
  "[" +:+ String.concat ", " (map (λ s, "'" +:+ s +:+ "'") l) +:+ "]".

(** [l[i]] with Python's negative indices; [None] is the [IndexError]. *)
Definition py_index {A} (l : list A) (i : Z) : option (Z * A) :=
  let n := Z.of_nat (length l) in
  let j := if i <? 0 then i + n else i in
  if (0 <=? j) && (j <? n) then (λ x, (j, x)) <$> l !! Z.to_nat j else None.

Section Commands.

(** The builtin [int] on a string; [None] is its [ValueError]. *)
Variable py_int : string → option Z.

(** The bodies of [UpdateDevice(server_type, host)] and of
    [UpdateConfig(account_id, branch, targets, config_type, method)]. *)
Variable UpdateDevice_body : pyval → pyval → E unit.
Variable UpdateConfig_body : string → string → string → string → string → E unit.

(** The host names of the [HostController] objects in [self._hosts]. *)
Variable _hosts : list string.

Definition int (s : string) : M Z :=
  match py_int s with
  | Some n => ret n
  | None =>
      raise ValueError
        ("invalid literal for int() with base 10: '" +:+ s +:+ "'")
  end.

(** A call [self.UpdateDevice(a1, ..., an)]: the method takes [server_type]
    and [host]; any other number of arguments is a [TypeError]. *)
Definition UpdateDevice (args : list pyval) : E unit :=
  match args with
  | [server_type; host] => UpdateDevice_body server_type host
  | _ =>
      (Raise (Exc TypeError
                ("UpdateDevice() takes exactly 3 arguments (" +:+
                 pretty (S (length args)) +:+ " given)")), [])
  end.

Definition do_build (args : build_args) : M (option bool) :=
  match ba_update args with
  | Single =>
      liftE (UpdateDevice [PStr (ba_account_id args); PStr (ba_branch args);
                           PStr (ba_target args);
                           PStr (ba_artifact_type args)]) ;;;
      ret None
  | List =>
      emit (Print "Running build update sessions:") ;;;
      let* c := get in
      for_each (elements (dom (build_thread c)))
               (λ id, emit (Print (list_line id))) ;;;
      ret None
  | Start =>
      if ba_interval args <=? 0 then
        raise ConsoleArgumentError "update interval must be positive"
      else
        let* c := get in
        let* id :=
          match ba_id args with
          | None => lift (next_id (build_thread c))
          | Some s => int s
          end in
        if already_running (build_thread c) id then
          emit (Print (build_already_running_message id)) ;;;
          ret None
        else
          let t :=
            set_daemon_True
              (new_thread
                 (UpdateBuildLoop_target
                    (ba_account_id args) (ba_branch args) (ba_target args)
                    (ba_artifact_type args) (ba_interval args))) in
          put (with_build_thread c (<[id := t]> (build_thread c))) ;;;
          emit (ThreadStart t) ;;;
          ret None
  | Stop =>
      match ba_id args with
      | None => emit (Print "--id must be set for stop") ;;; ret None
      | Some s =>
          let* id := int s in
          let* c := get in
          match build_thread c !! id with
          | Some t =>
              put (with_build_thread c
                     (<[id := set_keep_running_False t]> (build_thread c))) ;;;
              ret None
          | None => raise KeyError (pretty id)
          end
      end
  end.

Definition do_config (args : config_args) : M (option bool) :=
  match ca_update args with
  | Single =>
      liftE (UpdateConfig_body (ca_account_id args) (ca_branch args)
               (ca_target args) (ca_config_type args) (ca_method args)) ;;;
      ret None
  | List =>
      emit (Print "Running config update sessions:") ;;;
      let* c := get in
      for_each (elements (dom (schedule_thread c)))
               (λ id, emit (Print (list_line id))) ;;;
      ret None
  | Start =>
      if ca_interval args <=? 0 then
        raise ConsoleArgumentError "update interval must be positive"
      else
        let* c := get in
        let* id :=
          match ca_id args with
          | None => lift (next_id (schedule_thread c))
          | Some s => int s
          end in
        if already_running (schedule_thread c) id then
          emit (Print (config_already_running_message id)) ;;;
          ret None
        else
          let t :=
            set_daemon_True
              (new_thread
                 (UpdateConfigLoop_target
                    (ca_account_id args) (ca_branch args) (ca_target args)
                    (ca_config_type args) (ca_method args)
                    (ca_interval args))) in
          put (with_schedule_thread c (<[id := t]> (schedule_thread c))) ;;;
          emit (ThreadStart t) ;;;
          ret None
  | Stop =>
      match ca_id args with
      | None => emit (Print "--id must be set for stop") ;;; ret None
      | Some s =>
          let* id := int s in
          let* c := get in
          match schedule_thread c !! id with
          | Some t =>
              put (with_schedule_thread c
                     (<[id := set_keep_running_False t]>
                        (schedule_thread c))) ;;;
              ret None
          | None => raise KeyError (pretty id)
          end
      end
  end.

Definition do_device (args : device_args) : M (option bool) :=
  match da_set_serial args with
  | EmptyString => ret tt
  | set_serial =>
      let* c := get in
      put (with_serials c (split_on "," set_serial)) ;;;
      emit (Print ("serials: " +:+ repr_list (split_on "," set_serial)))
  end ;;;
  let* host_index :=
    match da_host args with
    | None =>
        if (1 <? length _hosts)%nat then
          raise ConsoleArgumentError "More than one host."
        else ret 0
    | Some h => ret h
    end in
  let* host :=
    match py_index _hosts host_index with
    | Some (j, _) => ret j
    | None => raise IndexError "list index out of range"
    end in
  match da_update args with
  | DevSingle =>
      liftE (UpdateDevice [PStr (da_server_type args); PHost host]) ;;;
      ret None
  | DevStart =>
      if da_interval args <=? 0 then
        raise ConsoleArgumentError "update interval must be positive"
      else
        let* c := get in
        match update_thread c with
        | Some t0 =>
            if negb (hasattr_keep_running t0) then
              emit (Print ("device update already running. " +:+
                           "run device --update stop first.")) ;;;
              ret None
            else
              let t :=
                set_daemon_True
                  (new_thread
                     (UpdateDeviceRepeat_target
                        (da_server_type args) host (da_interval args))) in
              put (with_update_thread c (Some t)) ;;;
              emit (ThreadStart t) ;;;
              ret None
        | None =>
            let t :=
              set_daemon_True
                (new_thread
                   (UpdateDeviceRepeat_target
                      (da_server_type args) host (da_interval args))) in
            put (with_update_thread c (Some t)) ;;;
            emit (ThreadStart t) ;;;
            ret None
        end
  | DevStop =>
      let* c := get in
      match update_thread c with
      | Some t =>
          put (with_update_thread c (Some (set_keep_running_False t))) ;;;
          ret None
      | None =>
          raise AttributeError
                "'NoneType' object has no attribute 'keep_running'"
      end
  end.

End Commands.

(** ** Shared session state: [fetch], [flash], [gsispl] *)

Definition with_device_image_info (c : Console) (m : gmap string string)
    : Console :=
  {| device_image_info := m;
     test_suite_info := test_suite_info c;
     tools_info := tools_info c;
     build_thread := build_thread c;
     schedule_thread := schedule_thread c;
     update_thread := update_thread c;
     fetch_info := fetch_info c;
     _serials := _serials c |}.

Definition with_test_suite_info (c : Console) (m : gmap string string)
    : Console :=
  {| device_image_info := device_image_info c;
     test_suite_info := m;
     tools_info := tools_info c;
     build_thread := build_thread c;
     schedule_thread := schedule_thread c;
     update_thread := update_thread c;
     fetch_info := fetch_info c;
     _serials := _serials c |}.

Definition with_tools_info (c : Console) (m : option (gmap string string))
    : Console :=
  {| device_image_info := device_image_info c;
     test_suite_info := test_suite_info c;
     tools_info := m;
     build_thread := build_thread c;
     schedule_thread := schedule_thread c;
     update_thread := update_thread c;
     fetch_info := fetch_info c;
     _serials := _serials c |}.

Definition with_fetch_info (c : Console) (m : gmap string (option string))
    : Console :=
  {| device_image_info := device_image_info c;
     test_suite_info := test_suite_info c;
     tools_info := tools_info c;
     build_thread := build_thread c;
     schedule_thread := schedule_thread c;
     update_thread := update_thread c;
     fetch_info := m;
     _serials := _serials c |}.

(** [d.update(other)]: every key of [other] is set, the rest is kept. *)
Definition dict_update {V} (d other : gmap string V) : gmap string V :=
  other ∪ d.

(** [repr] of a dictionary key, as it appears in a [KeyError]. *)
Definition repr_key (k : option string) : string :=
  match k with
  | Some s => "'" +:+ s +:+ "'"
  | None => "None"
  end.

(** Truth value of an optional string argument. *)
Definition truthy (s : option string) : bool :=
  match s with
  | Some (String _ _) => true
  | _ => false
  end.

Inductive fetch_type := local_fs | gcs | pab | ab.

Record fetch_args := {
  fa_type : fetch_type;
  fa_method : string;
  fa_path : option string;
  fa_branch : option string;
  fa_target : option string;
  fa_account_id : string;
  fa_build_id : string;
  fa_artifact_name : option string;
  fa_userinfo_file : option string;
  fa_tool : option string;
}.

(** What a fetch provider hands back.  [tools] is only returned by the
    [gcs] provider and [fetch_environment] only by [pab] and [ab]. *)
Record fetch_result := {
  device_images : gmap string string;
  test_suites : gmap string string;
  tools : gmap string string;
  fetch_environment : gmap string string;
}.

(** ["\n".join(k + ": " + v for k, v in d.iteritems())] *)
Definition info_lines (d : gmap string string) : string :=
  foldr (λ kv acc,
           match acc with
           | EmptyString => kv.1 +:+ ": " +:+ kv.2
           | _ => kv.1 +:+ ": " +:+ kv.2 +:+ newline +:+ acc
           end) EmptyString (map_to_list d).

Inductive flasher_type := fastboot | custom.

Record flash_args := {
  fl_current : option (list (list string));
  fl_serial : string;
  fl_build_dir : option string;
  fl_gsi : option string;
  fl_vbmeta : option string;
  fl_flasher_type : flasher_type;
  fl_flasher_path : option string;
  fl_reboot_mode : string;
  fl_arg_flasher : option string;
  fl_repackage : option string;
}.

(** [dict((partition, device_image_info[image])
          for partition, image in current)] *)
Fixpoint current_partition_image (images : gmap string string)
    (current : list (list string)) (acc : gmap string string)
    : outcome (gmap string string) :=
  match current with
  | [] => Return acc
  | [partition; image] :: rest =>
      match images !! image with
      | Some path =>
          current_partition_image images rest (<[partition := path]> acc)
      | None => Raise (Exc KeyError (repr_key (Some image)))
      end
  | ([] | [_]) :: _ =>
      Raise (Exc ValueError "need more than 1 value to unpack")
  | _ :: _ => Raise (Exc ValueError "too many values to unpack")
  end.

(** [dict((image.rsplit(".img", 1)[0], device_image_info[image])
          for image in default_images if image in device_image_info)] *)
Definition add_default_image (images : gmap string string)
    (acc : gmap string string) (image : string) : gmap string string :=
  match images !! image with
  | Some path => <[rsplit1_head ".img" image := path]> acc
  | None => acc
  end.

Definition default_partition_image (default_images : list string)
    (images : gmap string string) : gmap string string :=
  foldl (add_default_image images) ∅ default_images.

Record gsispl_args := {
  gs_gsi : option string;
  gs_version : string;
}.

(** ["{:0Nd}".format(n)] for a non-negative [n]. *)
Definition format_0d (width : nat) (n : Z) : string :=
  let digits := pretty n in
  String.concat "" (replicate (width - String.length digits)%nat "0")
  +:+ digits.

Section SharedState.

(** [build_provider.FULL_ZIPFILE], defined in a module outside these
    two files. *)
Variable FULL_ZIPFILE : string.

(** The fetch provider selected by [--type], called with the command's
    arguments (for [pab], [Authenticate] followed by [GetArtifact]). *)
Variable build_provider : fetch_args → outcome fetch_result.

(** What a call into the flashing tool does. *)
Variable flasher_result : event → outcome unit.

(** [os.path], [datetime.datetime.strptime(_, "%Y-%m-%d")] (year,
    month, day, or [None] for its [ValueError]) and the shell. *)
Variable os_path_isfile : string → bool.
Variable os_path_abspath : string → string.
Variable os_path_dirname : string → string.
Variable os_path_join : string → string → string.
Variable strptime_Ymd : string → option (Z * Z * Z).
Variable ExecuteOneShellCommand : string → string * string * Z.

Definition _DEFAULT_FLASH_IMAGES : list string :=
  [FULL_ZIPFILE; "boot.img"; "cache.img"; "system.img"; "userdata.img";
   "vbmeta.img"; "vendor.img"].

Definition do_fetch (args : fetch_args) : M (option bool) :=
  let* r := lift (build_provider args) in
  let* build_id :=
    match fa_type args with
    | pab | ab =>
        match fetch_environment r !! "build_id" with
        | Some b => ret (Some b)
        | None => raise KeyError (repr_key (Some "build_id"))
        end
    | local_fs => ret None
    | gcs =>
        let* c := get in
        match tools_info c with
        | Some t =>
            put (with_tools_info c (Some (dict_update t (tools r)))) ;;;
            ret None
        | None =>
            raise AttributeError
                  "'NoneType' object has no attribute 'update'"
        end
    end in
  let* c := get in
  put (with_fetch_info c (<["build_id" := build_id]> (fetch_info c))) ;;;
  let* c := get in
  put (with_fetch_info c
         (<["target" := fa_target args]>
            (<["branch" := fa_branch args]> (fetch_info c)))) ;;;
  let* c := get in
  put (with_device_image_info c
         (dict_update (device_image_info c) (device_images r))) ;;;
  let* c := get in
  put (with_test_suite_info c
         (dict_update (test_suite_info c) (test_suites r))) ;;;
  let* c := get in
  (if decide (device_image_info c = ∅) then ret tt
   else emit (LogInfo ("device images:" +:+ newline +:+
                       info_lines (device_image_info c)))) ;;;
  (if decide (test_suite_info c = ∅) then ret tt
   else emit (LogInfo ("test suites:" +:+ newline +:+
                       info_lines (test_suite_info c)))) ;;;
  ret None.

Definition call_flasher (e : event) : M unit :=
  emit e ;;; lift (flasher_result e).

(** The body of [for flasher in flashers] in [do_flash]. *)
Definition flash_one (args : flash_args) (flasher_path : option string)
    (partition_image : gmap string string) (serial : string) : M unit :=
  match fl_current args with
  | Some _ => call_flasher (Flash serial partition_image)
  | None =>
      match fl_flasher_type args with
      | fastboot =>
          match fl_gsi args, fl_build_dir args with
          | None, None =>
              raise ConsoleArgumentError
                    "Nothing requested: specify --gsi or --build_dir"
          | _, _ =>
              match fl_build_dir args with
              | Some d => call_flasher (Flashall serial d)
              | None => ret tt
              end ;;;
              match fl_gsi args with
              | Some g => call_flasher (FlashGSI serial g (fl_vbmeta args))
              | None => ret tt
              end
          end
      | custom =>
          match flasher_path with
          | Some _ =>
              let* c := get in
              match fl_repackage args with
              | Some r =>
                  call_flasher
                    (RepackageArtifacts serial (device_image_info c) r)
              | None => ret tt
              end ;;;
              let* c := get in
              call_flasher
                (FlashUsingCustomBinary serial (device_image_info c)
                   (fl_reboot_mode args) (fl_arg_flasher args) 300)
          | None =>
              raise ConsoleArgumentError
                    "Please specify the path to custom flash tool."
          end
      end
  end.

(** The [if args.current: ... else: ...] that builds [partition_image]
    in [do_flash]. *)
Definition partition_image_of (args : flash_args)
    (images : gmap string string) : outcome (gmap string string) :=
  match fl_current args with
  | Some ((_ :: _) as current) => current_partition_image images current ∅
  | _ => Return (default_partition_image _DEFAULT_FLASH_IMAGES images)
  end.

Definition do_flash (args : flash_args) : M (option bool) :=
  let* c := get in
  let* flasher_path :=
    match tools_info c with
    | Some tools_map =>
        match fl_flasher_path args with
        | Some p =>
            match tools_map !! p with
            | Some path => ret (Some path)
            | None => raise KeyError (repr_key (Some p))
            end
        | None => raise KeyError (repr_key None)
        end
    | None => ret (fl_flasher_path args)
    end in
  let serials :=
    match fl_serial args, _serials c with
    | String _ _ as serial, _ => [serial]
    | EmptyString, _ :: _ => _serials c
    | EmptyString, [] => [EmptyString]
    end in
  for_each serials (λ serial, call_flasher (BuildFlasher serial flasher_path)) ;;;
  let* partition_image :=
    lift (partition_image_of args (device_image_info c)) in
  for_each serials (flash_one args flasher_path partition_image) ;;;
  for_each serials (λ serial, call_flasher (WaitForDevice serial)) ;;;
  ret None.

(** The part of [do_gsispl] after the image has been located. *)
Definition gsispl_at (args : gsispl_args) (gsi_path : string)
    : M (option bool) :=
  match gs_version args with
  | EmptyString => emit (Print "version ID must be given.") ;;; ret None
  | _ =>
      match strptime_Ymd (gs_version args) with
      | None =>
          emit (Print "version ID should be YYYY-mm-dd format.") ;;;
          ret None
      | Some (year, month, day) =>
          let version :=
            format_0d 4 year +:+ "-" +:+ format_0d 2 month +:+ "-" +:+
            format_0d 2 day in
          let output_path :=
            os_path_join (os_path_dirname (os_path_abspath gsi_path))
                         ("system-" +:+ version +:+ ".img") in
          let command :=
            "vts/harnesses/host_controller/gsi/change_spl.sh" +:+ " " +:+
            gsi_path +:+ " " +:+ output_path +:+ " " +:+ version in
          emit (ShellCommand command) ;;;
          let '(_, stderr, err_code) := ExecuteOneShellCommand command in
          if decide (err_code = 0) then
            if truthy (gs_gsi args) then ret None
            else
              let* c := get in
              put (with_device_image_info c
                     (<["system.img" := output_path]>
                        (device_image_info c))) ;;;
              ret None
          else emit (Print ("gsispl error: " +:+ stderr)) ;;; ret None
      end
  end.

Definition do_gsispl (args : gsispl_args) : M (option bool) :=
  let* c := get in
  match gs_gsi args with
  | Some (String _ _ as gsi) =>
      if os_path_isfile gsi then gsispl_at args gsi
      else
        emit (Print "Cannot find system image in given path") ;;; ret None
  | _ =>
      match device_image_info c !! "system.img" with
      | Some gsi_path => gsispl_at args gsi_path
      | None => emit (Print "Cannot find system image.") ;;; ret None
      end
  end.

End SharedState.

(** ** The dispatcher: [onecmd] *)

(** [try: m except Exception as e: handler e] *)
Definition try_except {A} (m : M A) (handler : exception → M A) : M A :=
  λ c, match m c with
       | (Return a, c', ev) => (Return a, c', ev)
       | (Raise e, c', ev) =>
           let '(r, c'', ev') := handler e c' in (r, c'', ev ++ ev')
       end.

(** [self._Print(string)] *)
Definition _Print (s : string) : M unit := emit (OutWrite (s +:+ newline)).

(** The line [onecmd] prints for an exception:
    ["%s: %s" % (type(e).__name__, e)]. *)
Definition error_line (e : exception) : string :=
  class_name (exc_class e) +:+ ": " +:+ exc_message e.

(** A process created by [multiprocessing.Process(target=self.onecmd,
    args=(sub_command,))]. *)
Inductive process :=
  | Running                       (* started, not yet finished *)
  | Terminated (output : list event).

(** Where the dispatcher is in the list branch of [onecmd]. *)
Inductive parent_pc :=
  | Spawning (i : nat)   (* in the first loop, about to start process i *)
  | Joining (i : nat)    (* in the second loop, about to join process i *)
  | Returned.

Record batch := {
  jobs : list process;
  pc : parent_pc;
}.

Definition batch_init : batch := {| jobs := []; pc := Spawning 0 |}.

Section Dispatch.

(** [cmd.Cmd.onecmd(self, line)], the library method that finds the
    verb of the line and calls its [do_] method (or [emptyline], or
    [default]). *)
Variable Cmd_onecmd : string → M (option bool).

(** [onecmd] on one command line (a string). *)
Definition onecmd (line : string) : M (option bool) :=
  match line with
  | EmptyString => ret tt
  | _ => emit (Print ("Command: " +:+ line))
  end ;;;
  try_except (Cmd_onecmd line)
             (λ e, _Print (error_line e) ;;; ret None).

(** What a child process started on [line] writes.  The child gets a
    copy of the console [c] and runs [self.onecmd(line)] in it. *)
Definition child_output (c : Console) (line : string) : list event :=
  (onecmd line c).2.

(** [onecmd] on a list of command lines.  The dispatcher creates and
    starts one process per line, then joins them in order; a started
    process finishes at any moment of its own. *)
Inductive batch_step (c : Console) (lines : list string)
  : batch → batch → Prop :=
  | step_start ps i line :
      lines !! i = Some line →
      batch_step c lines
        {| jobs := ps; pc := Spawning i |}
        {| jobs := ps ++ [Running]; pc := Spawning (S i) |}
  | step_started_all ps :
      batch_step c lines
        {| jobs := ps; pc := Spawning (length lines) |}
        {| jobs := ps; pc := Joining 0 |}
  | step_child ps p i line :
      ps !! i = Some Running →
      lines !! i = Some line →
      batch_step c lines
        {| jobs := ps; pc := p |}
        {| jobs := <[i := Terminated (child_output c line)]> ps; pc := p |}
  | step_join ps i out :
      ps !! i = Some (Terminated out) →
      batch_step c lines
        {| jobs := ps; pc := Joining i |}
        {| jobs := ps; pc := Joining (S i) |}
  | step_joined_all ps :
      batch_step c lines
        {| jobs := ps; pc := Joining (length ps) |}
        {| jobs := ps; pc := Returned |}.

(** [for command in commands: self.onecmd(command)] of
    [ProcessScript], for commands that are strings. *)
Definition replay (commands : list string) : M unit :=
  for_each commands (λ command, onecmd command ;;; ret tt).

End Dispatch.

(** ** The endpoint client: [VtiEndpointClient.LeaseJob] *)

Module VtiEndpointClient.

(** A value as [json.loads] returns it. *)
#[local] Unset Elimination Schemes.
Inductive json :=
  | JNull
  | JBool (b : bool)
  | JNumber (q : Q)
  | JStr (s : string)
  | JArr (l : list json)
  | JObj (m : gmap string json).
#[local] Set Elimination Schemes.

(** [requests.Response], as far as [LeaseJob] reads it. *)
Record Response := {
  status_code : Z;
  text : string;
}.

(** [requests.codes.ok] *)
Definition codes_ok : Z := 200.

Inductive client_event :=
  | Post (url data : string)
  | Printed (s : string).

(** Truth value of a JSON value in a condition. *)
Definition py_truthy (v : json) : bool :=
  match v with
  | JNull => false
  | JBool b => b
  | JNumber q => negb (Qeq_bool q 0)
  | JStr s => negb (String.eqb s "")
  | JArr l => match l with [] => false | _ => true end
  | JObj m => negb (bool_decide (m = ∅))
  end.

Definition type_name (v : json) : string :=
  match v with
  | JNull => "NoneType"
  | JBool _ => "bool"
  | JNumber _ => "int"
  | JStr _ => "unicode"
  | JArr _ => "list"
  | JObj _ => "dict"
  end.

Definition is_str (s : string) (v : json) : bool :=
  match v with
  | JStr s' => String.eqb s s'
  | _ => false
  end.

(** [key in v] *)
Definition py_in (key : string) (v : json) : outcome bool :=
  match v with
  | JObj m => Return (bool_decide (is_Some (m !! key)))
  | JArr l => Return (existsb (is_str key) l)
  | JStr s => Return (contains key s)
  | _ =>
      Raise (Exc TypeError
               ("argument of type '" +:+ type_name v +:+
                "' is not iterable"))
  end.

(** [v[key]] for a string key. *)
Definition py_getitem (v : json) (key : string) : outcome json :=
  match v with
  | JObj m =>
      match m !! key with
      | Some x => Return x
      | None => Raise (Exc KeyError (repr_key (Some key)))
      end
  | JArr _ => Raise (Exc TypeError "list indices must be integers, not str")
  | JStr _ => Raise (Exc TypeError "string indices must be integers")
  | _ =>
      Raise (Exc TypeError
               ("'" +:+ type_name v +:+
                "' object has no attribute '__getitem__'"))
  end.

(** [len(v)] *)
Definition py_len (v : json) : outcome Z :=
  match v with
  | JStr s => Return (Z.of_nat (String.length s))
  | JArr l => Return (Z.of_nat (length l))
  | JObj m => Return (Z.of_nat (size m))
  | _ =>
      Raise (Exc TypeError
               ("object of type '" +:+ type_name v +:+ "' has no len()"))
  end.

(** The first value a [for] loop over [v] binds, if there is one:
    the first element of a list, the first character of a string,
    some key of a dictionary. *)
Definition first_item (v : json) : option json :=
  match v with
  | JArr (x :: _) => Some x
  | JStr (String a _) => Some (JStr (String a EmptyString))
  | JObj m =>
      match map_to_list m with
      | (k, _) :: _ => Some (JStr k)
      | [] => None
      end
  | _ => None
  end.

(** [v.split("/")[0]] *)
Definition split_slash_head (v : json) : outcome string :=
  match v with
  | JStr s => Return (split_head "/" s)
  | _ =>
      Raise (Exc AttributeError
               ("'" +:+ type_name v +:+ "' object has no attribute 'split'"))
  end.

(** The pair [LeaseJob] returns: [None] or the test-suite name, and
    the job (or the empty dictionary). *)
Definition lease : Type := (option string * json)%type.

Definition no_job : lease := (None, JObj ∅).

Definition C (A : Type) : Type := (outcome A * list client_event)%type.

Definition cret {A} (a : A) : C A := (Return a, []).
Definition cbind {A B} (m : C A) (f : A → C B) : C B :=
  match m with
  | (Return a, ev) => let '(r, ev') := f a in (r, ev ++ ev')
  | (Raise e, ev) => (Raise e, ev)
  end.
Definition cemit (e : client_event) : C unit := (Return tt, [e]).
Definition clift {A} (o : outcome A) : C A := (o, []).

Notation "'let+' x ':=' m 'in' k" := (cbind m (λ x, k))
  (at level 10, x name, m at level 100, k at level 200, only parsing).

Section Client.

(** [self._url] *)
Variable _url : string.

(** [requests.post(url, data=..., headers=self._headers)]; the
    library raises when no response arrives. *)
Variable requests_post : string → string → outcome Response.

(** [json.dumps({"hostname": hostname})], [json.loads] ([None] is
    its [ValueError]) and [str] of a parsed value. *)
Variable dumps_hostname : string → string.
Variable json_loads : string → option json.
Variable py_str : json → string.

(** The part of [LeaseJob] after [jobs = response_json["jobs"]]. *)
Definition first_job (jobs : json) : C lease :=
  if py_truthy jobs then
    let+ n := clift (py_len jobs) in
    if 0 <? n then
      match first_item jobs with
      | Some job =>
          let+ test_name := clift (py_getitem job "test_name") in
          let+ name := clift (split_slash_head test_name) in
          cret (Some name, job)
      | None => cret no_job
      end
    else cret no_job
  else cret no_job.

Definition LeaseJob (hostname : string) : C lease :=
  match hostname with
  | EmptyString => cret no_job
  | _ =>
      let url := _url +:+ "job_queue/v1/get" in
      let+ _ := cemit (Post url (dumps_hostname hostname)) in
      let+ response :=
        clift (requests_post url (dumps_hostname hostname)) in
      if decide (status_code response ≠ codes_ok) then
        let+ _ :=
          cemit (Printed ("LeaseJob error: " +:+
                          pretty (status_code response))) in
        cret no_job
      else
        match json_loads (text response) with
        | None =>
            clift (Raise (Exc ValueError
                            "No JSON object could be decoded"))
        | Some response_json =>
            let+ has_code := clift (py_in "return_code" response_json) in
            let+ failed :=
              if has_code then
                let+ code :=
                  clift (py_getitem response_json "return_code") in
                cret (negb (is_str "SUCCESS" code))
              else cret false in
            if failed then
              let+ _ :=
                cemit (Printed ("LeaseJob error: " +:+
                                py_str response_json)) in
              cret no_job
            else
              let+ has_jobs := clift (py_in "jobs" response_json) in
              if negb has_jobs then
                let+ _ :=
                  cemit (Printed
                           ("LeaseJob jobs not found in response json " +:+
                            text response)) in
                cret no_job
              else
                let+ jobs := clift (py_getitem response_json "jobs") in
                first_job jobs
        end
  end.

(** The request was answered: the host name is not empty, the
    response has status [ok] and its text is the JSON object [m]. *)
Definition answered (hostname : string) (m : gmap string json) : Prop :=
  hostname ≠ EmptyString
  ∧ ∃ response,
      requests_post (_url +:+ "job_queue/v1/get")
                    (dumps_hostname hostname) = Return response
      ∧ status_code response = codes_ok
      ∧ json_loads (text response) = Some (JObj m).

End Client.

End VtiEndpointClient.

(** ** Commands as the parsers hand them to the handlers *)

(** Everything outside the two files that a handler consults. *)
Record Env := {
  env_int : string → option Z;
  env_UpdateDevice_body : pyval → pyval → E unit;
  env_UpdateConfig_body : string → string → string → string → string → E unit;
  env_hosts : list string;
  env_FULL_ZIPFILE : string;
  env_build_provider : fetch_args → outcome fetch_result;
  env_flasher_result : event → outcome unit;
  env_isfile : string → bool;
  env_abspath : string → string;
  env_dirname : string → string;
  env_join : string → string → string;
  env_strptime_Ymd : string → option (Z * Z * Z);
  env_shell : string → string * string * Z;
}.

Inductive command :=
  | Build (args : build_args)
  | Config (args : config_args)
  | Device (args : device_args)
  | Fetch (args : fetch_args)
  | FlashCmd (args : flash_args)
  | Gsispl (args : gsispl_args).

Definition handle (env : Env) (cmd : command) : M (option bool) :=
  match cmd with
  | Build args => do_build (env_int env) (env_UpdateDevice_body env) args
  | Config args => do_config (env_int env) (env_UpdateConfig_body env) args
  | Device args =>
      do_device (env_UpdateDevice_body env) (env_hosts env) args
  | Fetch args => do_fetch (env_build_provider env) args
  | FlashCmd args =>
      do_flash (env_FULL_ZIPFILE env) (env_flasher_result env) args
  | Gsispl args =>
      do_gsispl (env_isfile env) (env_abspath env) (env_dirname env)
                (env_join env) (env_strptime_Ymd env) (env_shell env) args
  end.

(** The console after a command, whether it returned or raised. *)
Definition state_after {A} (m : M A) (c : Console) : Console := (m c).1.2.

Definition events_of {A} (m : M A) (c : Console) : list event := (m c).2.

Definition result_of {A} (m : M A) (c : Console) : outcome A := (m c).1.1.

(** The consoles that a session of commands can produce.  The outside
    world may answer differently at every command. *)
Inductive reachable : Console → Prop :=
  | reachable_init : reachable Console_init
  | reachable_step c env cmd :
      reachable c → reachable (state_after (handle env cmd) c).

(** The console after a sequence of commands, each with the answers the
    outside world gives while it runs. *)
Definition after (script : list (Env * command)) (c : Console) : Console :=
  foldl (λ c ec, state_after (handle ec.1 ec.2) c) c script.

(** *** The session registry seen through the two commands *)

Inductive session_kind := BuildSession | ConfigSession.

#[global] Instance session_kind_eq_dec : EqDecision session_kind.
Proof. solve_decision. Defined.

Definition kind_of (cmd : command) : option session_kind :=
  match cmd with
  | Build _ => Some BuildSession
  | Config _ => Some ConfigSession
  | _ => None
  end.

(** The table of a kind: [build_thread] or [schedule_thread]. *)
Definition table (k : session_kind) (c : Console) : gmap Z Thread :=
  match k with
  | BuildSession => build_thread c
  | ConfigSession => schedule_thread c
  end.

Definition with_table (k : session_kind) (c : Console) (tbl : gmap Z Thread)
    : Console :=
  match k with
  | BuildSession => with_build_thread c tbl
  | ConfigSession => with_schedule_thread c tbl
  end.

(** [cmd] is [--update=start] of kind [k] with the given [--id] and
    [--interval]. *)
Definition is_start (k : session_kind) (cmd : command)
    (id : option string) (interval : Z) : Prop :=
  match k, cmd with
  | BuildSession, Build a =>
      ba_update a = Start ∧ ba_id a = id ∧ ba_interval a = interval
  | ConfigSession, Config a =>
      ca_update a = Start ∧ ca_id a = id ∧ ca_interval a = interval
  | _, _ => False
  end.

(** [cmd] is [--update=stop --id=id] of kind [k]. *)
Definition is_stop (k : session_kind) (cmd : command) (id : string) : Prop :=
  match k, cmd with
  | BuildSession, Build a => ba_update a = Stop ∧ ba_id a = Some id
  | ConfigSession, Config a => ca_update a = Stop ∧ ca_id a = Some id
  | _, _ => False
  end.

(** The thread object a start command creates and starts. *)
Definition started_thread (cmd : command) : option Thread :=
  match cmd with
  | Build a =>
      Some (set_daemon_True
              (new_thread
                 (UpdateBuildLoop_target
                    (ba_account_id a) (ba_branch a) (ba_target a)
                    (ba_artifact_type a) (ba_interval a))))
  | Config a =>
      Some (set_daemon_True
              (new_thread
                 (UpdateConfigLoop_target
                    (ca_account_id a) (ca_branch a) (ca_target a)
                    (ca_config_type a) (ca_method a) (ca_interval a))))
  | _ => None
  end.

(** How the two handlers report a start on a running session: the
    message is printed and the handler returns. *)
Definition AlreadyRunning (k : session_kind) (id : Z) : list event :=
  match k with
  | BuildSession => [Print (build_already_running_message id)]
  | ConfigSession => [Print (config_already_running_message id)]
  end.

(** ** Concrete collaborators for the examples *)

Definition digit_value (a : ascii) : option Z :=
  let n := Z.of_N (N_of_ascii a) in
  if (48 <=? n) && (n <=? 57) then Some (n - 48) else None.

Fixpoint read_digits (s : string) (acc : Z) : option Z :=
  match s with
  | EmptyString => Some acc
  | String a s' =>
      match digit_value a with
      | Some d => read_digits s' (10 * acc + d)
      | None => None
      end
  end.

(** Decimal numerals with an optional minus sign. *)
Definition decimal_int (s : string) : option Z :=
  match s with
  | EmptyString => None
  | String "-" (String _ _ as s') => Z.opp <$> read_digits s' 0
  | _ => read_digits s 0
  end.

Definition is_leap (year : Z) : bool :=
  ((year mod 4 =? 0) && negb (year mod 100 =? 0)) || (year mod 400 =? 0).

Definition days_in_month (year month : Z) : Z :=
  if month =? 2 then (if is_leap year then 29 else 28)
  else if (month =? 4) || (month =? 6) || (month =? 9) || (month =? 11)
       then 30 else 31.

(** A reading of [strptime(_, "%Y-%m-%d")]: four digits, one or two
    digits, one or two digits, and the three numbers form a date. *)
Definition ymd_date (s : string) : option (Z * Z * Z) :=
  match split_on "-" s with
  | [y; m; d] =>
      if (String.length y =? 4)%nat
         && (1 <=? String.length m)%nat && (String.length m <=? 2)%nat
         && (1 <=? String.length d)%nat && (String.length d <=? 2)%nat
      then
        match read_digits y 0, read_digits m 0, read_digits d 0 with
        | Some year, Some month, Some day =>
            if (1 <=? year) && (1 <=? month) && (month <=? 12)
               && (1 <=? day) && (day <=? days_in_month year month)
            then Some (year, month, day) else None
        | _, _, _ => None
        end
      else None
  | _ => None
  end.

(** A build provider that lists one successful build for every target
    and an endpoint that accepts every upload. *)
Definition one_build_world : World := {|
  pab_Authenticate := Return tt;
  pab_GetBuildList := λ _ _ _, Return [{| successful := true; build_id := "42" |}];
  vti_UploadBuildInfo := λ _, Return true;
|}.

(** A thread object that no stop command ever touches. *)
Definition untouched_thread (tg : thread_target) : nat → Thread :=
  λ _, set_daemon_True (new_thread tg).

(** Collaborators that always succeed. *)
Definition example_env : Env := {|
  env_int := decimal_int;
  env_UpdateDevice_body := λ _ _, (Return tt, []);
  env_UpdateConfig_body := λ _ _ _ _ _, (Return tt, []);
  env_hosts := ["host0"];
  env_FULL_ZIPFILE := "full-zipfile";
  env_build_provider :=
    λ _, Return {| device_images := ∅; test_suites := ∅; tools := ∅;
                   fetch_environment := ∅ |};
  env_flasher_result := λ _, Return tt;
  env_isfile := λ _, true;
  env_abspath := λ p, p;
  env_dirname := λ _, "/images";
  env_join := λ a b, a +:+ "/" +:+ b;
  env_strptime_Ymd := ymd_date;
  env_shell := λ _, ("", "", 0);
|}.

(** [build --update=U --id=ID --interval=30 --branch=b --target=t-userdebug] *)
Definition example_build (u : update_verb) (id : option string)
    : build_args := {|
  ba_update := u;
  ba_id := id;
  ba_interval := 30;
  ba_artifact_type := "device";
  ba_branch := "b";
  ba_target := "t-userdebug";
  ba_account_id := "543365459";
|}.

Definition example_start_1 : command :=
  Build (example_build Start (Some "1")).
Definition example_stop_1 : command :=
  Build (example_build Stop (Some "1")).
Definition example_start_auto : command :=
  Build (example_build Start None).

(** The three polling loops, each with what it is given to work on. *)
Inductive polling_loop :=
  | BuildLoop (world_at : nat → World)
      (account_id branch target artifact_type : string)
  | ConfigLoop (UpdateConfig_at : nat → E unit)
  | DeviceLoop (UpdateDevice_at : nat → E unit).

(** What the unit of work of a loop does the [i]-th time it is called. *)
Definition unit_of_work (l : polling_loop) : nat → E unit :=
  match l with
  | BuildLoop world_at account_id branch target artifact_type =>
      λ i, UpdateBuild (world_at i) account_id branch target artifact_type
  | ConfigLoop UpdateConfig_at => UpdateConfig_at
  | DeviceLoop UpdateDevice_at => UpdateDevice_at
  end.

Definition run_loop (l : polling_loop) (thread_at : nat → Thread)
    (update_interval : Z) (fuel : nat) : loop_state * list event :=
  match l with
  | BuildLoop world_at account_id branch target artifact_type =>
      UpdateBuildLoop thread_at world_at account_id branch target
                      artifact_type update_interval fuel
  | ConfigLoop UpdateConfig_at =>
      UpdateConfigLoop thread_at UpdateConfig_at update_interval fuel
  | DeviceLoop UpdateDevice_at =>
      UpdateDeviceRepeat thread_at UpdateDevice_at update_interval fuel
  end.

(** What one pass of a polling loop leaves in the event list when the
    pass completes: the events of the unit of work, the logged exception
    if it raised, and the sleep. *)
Definition pass_events (work : E unit) (update_interval : Z) : list event :=
  work.2
  ++ match work.1 with Raise e => [LogException e] | Return _ => [] end
  ++ [Sleep update_interval].

(** A unit of work that fails every time with a socket error. *)
Definition always_socket_error : nat → E unit :=
  λ _, (Raise (Exc SocketError "[Errno 111] Connection refused"), []).

Definition example_target : thread_target :=
  UpdateBuildLoop_target "543365459" "b" "a-b-c" "device" 30.

(** [fetch --type=local_fs --path=PATH] *)
Definition example_fetch (path : string) : fetch_args := {|
  fa_type := local_fs;
  fa_method := "GET";
  fa_path := Some path;
  fa_branch := None;
  fa_target := None;
  fa_account_id := "543365459";
  fa_build_id := "latest";
  fa_artifact_name := None;
  fa_userinfo_file := None;
  fa_tool := None;
|}.

(** A provider that finds image [a] under [/x] in directory [first],
    image [b] under [/y] in directory [second] and image [a] under [/z]
    in any other directory. *)
Definition example_provider (args : fetch_args) : outcome fetch_result :=
  Return {|
    device_images :=
      if decide (fa_path args = Some "first") then {["a" := "/x"]}
      else if decide (fa_path args = Some "second") then {["b" := "/y"]}
      else {["a" := "/z"]};
    test_suites := ∅;
    tools := ∅;
    fetch_environment := ∅;
  |}.

Definition fetch_env : Env := {|
  env_int := decimal_int;
  env_UpdateDevice_body := λ _ _, (Return tt, []);
  env_UpdateConfig_body := λ _ _ _ _ _, (Return tt, []);
  env_hosts := ["host0"];
  env_FULL_ZIPFILE := "full-zipfile";
  env_build_provider := example_provider;
  env_flasher_result := λ _, Return tt;
  env_isfile := λ _, true;
  env_abspath := λ p, p;
  env_dirname := λ _, "/images";
  env_join := λ a b, a +:+ "/" +:+ b;
  env_strptime_Ymd := ymd_date;
  env_shell := λ _, ("", "", 0);
|}.

(** [flash] with the given [--current] and [--flasher_path]. *)
Definition example_flash (current : option (list (list string)))
    (flasher_path : option string) : flash_args := {|
  fl_current := current;
  fl_serial := "";
  fl_build_dir := None;
  fl_gsi := None;
  fl_vbmeta := None;
  fl_flasher_type := fastboot;
  fl_flasher_path := flasher_path;
  fl_reboot_mode := "bootloader";
  fl_arg_flasher := None;
  fl_repackage := Some "tar.md5";
|}.

(** A console in which [system.img] has been fetched. *)
Definition console_with_system_img : Console :=
  with_device_image_info Console_init {["system.img" := "/images/system.img"]}.

(** What [onecmd] prints before it dispatches: [if line: print(...)]. *)
Definition command_echo (line : string) : list event :=
  match line with
  | EmptyString => []
  | _ => [Print ("Command: " +:+ line)]
  end.

(** What the batch invariant says for each position of the dispatcher. *)
Definition batch_inv (Cmd_onecmd : string → M (option bool)) (c : Console)
    (lines : list string) (b : batch) : Prop :=
  (length (jobs b) ≤ length lines)%nat
  ∧ (∀ i out, jobs b !! i = Some (Terminated out) →
       ∃ line, lines !! i = Some line
               ∧ out = child_output Cmd_onecmd c line)
  ∧ match pc b with
    | Spawning i => length (jobs b) = i
    | Joining i =>
        length (jobs b) = length lines
        ∧ (i ≤ length lines)%nat
        ∧ ∀ j, (j < i)%nat → ∃ out, jobs b !! j = Some (Terminated out)
    | Returned =>
        length (jobs b) = length lines
        ∧ ∀ j, (j < length lines)%nat →
               ∃ out, jobs b !! j = Some (Terminated out)
    end.

(** A dispatcher for the examples: [info] prints the state, [exit]
    returns [True], any other line is a [fetch] whose provider refuses
    the connection. *)
Definition example_Cmd_onecmd (line : string) : M (option bool) :=
  if String.eqb line "info" then
    emit (Print "device image: {}") ;;; ret None
  else if String.eqb line "exit" then ret (Some true)
  else raise SocketError "[Errno 111] Connection refused".

(** An endpoint that answers every lease request with one job. *)
Definition example_job : VtiEndpointClient.json :=
  VtiEndpointClient.JObj
    {["test_name" := VtiEndpointClient.JStr "vts/vts-serving-staging"]}.

Definition example_answer : gmap string VtiEndpointClient.json :=
  {["return_code" := VtiEndpointClient.JStr "SUCCESS";
    "jobs" := VtiEndpointClient.JArr [example_job]]}.

Definition example_post (url data : string)
    : outcome VtiEndpointClient.Response :=
  Return {| VtiEndpointClient.status_code := 200;
            VtiEndpointClient.text := "(one job)" |}.

Definition example_loads (text : string) : option VtiEndpointClient.json :=
  Some (VtiEndpointClient.JObj example_answer).

(** A property of the console that a computation keeps, whether it
    returns or raises. *)
Definition preserves {A} (P : Console → Prop) (m : M A) : Prop :=
  ∀ c, P c → P (state_after m c).

(** *** What every registered session looks like *)

(** A thread as the start commands of kind [k] create it: a daemon
    thread on the loop of that kind with a positive interval. *)
Definition session_ok (k : session_kind) (t : Thread) : Prop :=
  daemon t = true
  ∧ match k, thread_target_of t with
    | BuildSession, UpdateBuildLoop_target _ _ _ _ interval => 0 < interval
    | ConfigSession, UpdateConfigLoop_target _ _ _ _ _ interval => 0 < interval
    | _, _ => False
    end.

Definition device_session_ok (t : Thread) : Prop :=
  daemon t = true
  ∧ match thread_target_of t with
    | UpdateDeviceRepeat_target _ _ interval => 0 < interval
    | _ => False
    end.

Definition sessions_ok (c : Console) : Prop :=
  (∀ k id t, table k c !! id = Some t → session_ok k t)
  ∧ (∀ t, update_thread c = Some t → device_session_ok t).

(** [device --update=U --interval=I] on the only host, with the given
    [--set_serial]. *)
Definition example_device (set_serial : string) (u : device_update_verb)
    (interval : Z) : device_args := {|
  da_set_serial := set_serial;
  da_update := u;
  da_interval := interval;
  da_host := None;
  da_server_type := "vti";
|}.

(** The host that [do_device] works on: [--host] if given, else host 0
    when there is at most one host; [None] when the handler raises
    instead ([ConsoleArgumentError] or [IndexError]). *)
Definition resolved_host (hosts : list string) (arg : option Z) : option Z :=
  match arg with
  | None => if (1 <? length hosts)%nat then None else fst <$> py_index hosts 0
  | Some h => fst <$> py_index hosts h
  end.

(** What [do_device] prints for [--set_serial]. *)
Definition serials_echo (set_serial : string) : list event :=
  match set_serial with
  | EmptyString => []
  | _ => [Print ("serials: " +:+ repr_list (split_on "," set_serial))]
  end.

(** Two consoles with the same maps, serials and device session. *)
Definition same_shared_state (c c' : Console) : Prop :=
  device_image_info c' = device_image_info c
  ∧ test_suite_info c' = test_suite_info c
  ∧ tools_info c' = tools_info c
  ∧ fetch_info c' = fetch_info c
  ∧ _serials c' = _serials c
  ∧ update_thread c' = update_thread c.

(** The console after the [--set_serial] part of [do_device]. *)
Definition serials_applied (set_serial : string) (c : Console) : Console :=
  match set_serial with
  | EmptyString => c
  | _ => with_serials c (split_on "," set_serial)
  end.

(** *** What [do_flash] works on *)

(** The devices [do_flash] creates flashers for: [--serial] if given,
    else the serials set by [device --set_serial], else the unnamed
    device. *)
Definition resolved_devices (args : flash_args) (c : Console) : list string :=
  match fl_serial args, _serials c with
  | String _ _ as serial, _ => [serial]
  | EmptyString, _ :: _ => _serials c
  | EmptyString, [] => [EmptyString]
  end.

(** The calls [do_flash] makes for one device when nothing fails and
    [--current] is absent. *)
Definition fastboot_calls (args : flash_args) (serial : string) : list event :=
  match fl_build_dir args with
  | Some d => [Flashall serial d]
  | None => []
  end
  ++ match fl_gsi args with
     | Some g => [FlashGSI serial g (fl_vbmeta args)]
     | None => []
     end.

(** The calls [do_flash] makes for one device with the custom flasher
    when nothing fails and [--current] is absent. *)
Definition custom_calls (args : flash_args) (c : Console) (serial : string)
    : list event :=
  match fl_repackage args with
  | Some r => [RepackageArtifacts serial (device_image_info c) r]
  | None => []
  end
  ++ [FlashUsingCustomBinary serial (device_image_info c)
        (fl_reboot_mode args) (fl_arg_flasher args) 300].

(** A console with two selected devices, a fetched system image and a
    fetched flashing tool. *)
Definition console_ready_to_flash : Console :=
  with_serials
    (with_tools_info console_with_system_img
       (Some {["flasher" := "/tools/flasher"]}))
    ["device1"; "device2"].

(** *** What [do_gsispl] runs *)

(** The version string [do_gsispl] rebuilds from the parsed date, the
    path of the image it asks for and the command line it runs. *)
Definition gsispl_version (date : Z * Z * Z) : string :=
  let '(year, month, day) := date in
  format_0d 4 year +:+ "-" +:+ format_0d 2 month +:+ "-" +:+ format_0d 2 day.

Definition gsispl_output_path (os_path_abspath os_path_dirname : string → string)
    (os_path_join : string → string → string) (gsi_path : string)
    (date : Z * Z * Z) : string :=
  os_path_join (os_path_dirname (os_path_abspath gsi_path))
               ("system-" +:+ gsispl_version date +:+ ".img").

Definition gsispl_command (gsi_path output_path : string) (date : Z * Z * Z)
    : string :=
  "vts/harnesses/host_controller/gsi/change_spl.sh" +:+ " " +:+
  gsi_path +:+ " " +:+ output_path +:+ " " +:+ gsispl_version date.

(** The build id a returning fetch records. *)
Definition recorded_build_id (args : fetch_args) (r : fetch_result)
    : option string :=
  match fa_type args with
  | pab | ab => fetch_environment r !! "build_id"
  | local_fs | gcs => None
  end.

(** *** What [UpdateBuild] uploads *)

(** The build target and build type [UpdateBuild] reads off a target
    name; [None] when its tuple assignment fails. *)
Definition target_parts (target : string) : option (string * string) :=
  if has_char "-" target then
    match split_on "-" target with
    | [bt; ty] => Some (bt, ty)
    | _ => None
    end
  else Some (target, EmptyString).

(** The builds uploaded for one target: one for each successful listed
    build, in the order listed. *)
Definition uploaded_for (w : World)
    (account_id branch artifact_type target : string) : list build_info :=
  match pab_GetBuildList w account_id branch target, target_parts target with
  | Return listed, Some (bt, ty) =>
      map (λ lb, {| manifest_branch := branch; bi_build_id := build_id lb;
                    build_target := bt; build_type := ty;
                    artifact_type_of := artifact_type; artifacts := [] |})
          (List.filter successful listed)
  | _, _ => []
  end.

(** The result of a call whose value is dropped. *)
Definition ignore_value {A} (o : outcome A) : outcome unit :=
  match o with
  | Return _ => Return tt
  | Raise e => Raise e
  end.

(** A provider that lists a failed and a successful build for every
    target, and an endpoint that reports failure for every upload. *)
Definition two_builds_world : World := {|
  pab_Authenticate := Return tt;
  pab_GetBuildList :=
    λ _ _ _, Return [{| successful := false; build_id := "41" |};
                     {| successful := true; build_id := "42" |}];
  vti_UploadBuildInfo := λ _, Return false;
|}.

(** ** The endpoint client: the constructor and the uploads *)

(** [s.endswith(suffix)] *)
Fixpoint endswith (suffix s : string) : bool :=
  String.eqb suffix s ||
  match s with
  | EmptyString => false
  | String _ s' => endswith suffix s'
  end.

Module VtiUploads.
Import VtiEndpointClient.

(** [VtiEndpointClient.__init__]: the value given to [self._url]. *)
Definition client_url (url : string) : string :=
  let url :=
    if negb (String.prefix "https://" url) && negb (String.prefix "http://" url)
    then "https://" +:+ url
    else url in
  if endswith "appspot.com" url then url +:+ "/_ah/api/" else url.

(** Computations of the client that make requests: the state is the
    number of requests made so far, and [responses n] is what the [n]-th
    request of the call gets ([requests.post] raises when no response
    arrives). *)
Definition U (A : Type) : Type := nat → outcome A * nat * list client_event.

Definition uret {A} (a : A) : U A := λ n, (Return a, n, []).
Definition ubind {A B} (m : U A) (f : A → U B) : U B :=
  λ n, match m n with
       | (Return a, n', ev) =>
           let '(r, n'', ev') := f a n' in (r, n'', ev ++ ev')
       | (Raise e, n', ev) => (Raise e, n', ev)
       end.
Definition uraise {A} (k : exn_class) (msg : string) : U A :=
  λ n, (Raise (Exc k msg), n, []).
Definition uprint (s : string) : U unit := λ n, (Return tt, n, [Printed s]).

Notation "'let^' x ':=' m 'in' k" := (ubind m (λ x, k))
  (at level 10, x name, m at level 100, k at level 200, only parsing).

(** [str(response)] *)
Definition response_str (response : Response) : string :=
  "<Response [" +:+ pretty (status_code response) +:+ "]>".

(** One test schedule, one build target and one schedule message of a
    schedule configuration; one host and one lab message of a lab
    configuration.  The fields are kept as the JSON values that
    [json.dumps] writes. *)
Record test_schedule := {
  ts_test_name : json;
  ts_period : json;
  ts_priority : json;
  ts_device : json;
  ts_shards : json;
  ts_param : json;
}.

Record build_target_schedule := {
  bt_name : json;
  bt_test_schedule : list test_schedule;
}.

Record schedule_message := {
  sm_manifest_branch : json;
  sm_build_target : list build_target_schedule;
}.

Record lab_host := {
  lh_hostname : json;
  lh_ip : json;
  lh_script : json;
}.

Record lab_message := {
  lm_name : json;
  lm_owner : json;
  lm_host : list lab_host;
}.

Section Uploads.

(** [self._url], the answers to the requests and [json.dumps]. *)
Variable _url : string.
Variable responses : nat → outcome Response.
Variable dumps : json → string.

(** [requests.post(url, data=data, headers=self._headers)] *)
Definition post (url data : string) : U Response :=
  λ n, (responses n, S n, [Post url data]).

(** A request whose status is checked:
    [if response.status_code != requests.codes.ok: print ...]. *)
Definition checked_post (url data : string) : U bool :=
  let^ response := post url data in
  if decide (status_code response ≠ codes_ok) then
    let^ _ := uprint ("UploadDeviceInfo error: " +:+ response_str response) in
    uret false
  else uret true.

(** The loop of [UploadBuildInfo]; [fail] is the flag so far. *)
Fixpoint post_builds (url : string) (builds : list json) (fail : bool)
    : U bool :=
  match builds with
  | [] => uret fail
  | build :: rest =>
      let^ ok := checked_post url (dumps build) in
      post_builds url rest (if ok then fail else true)
  end.

Definition UploadBuildInfo (builds : list json) : U bool :=
  let^ fail := post_builds (_url +:+ "build_info/v1/set") builds false in
  if fail then uret false else uret true.

(** [device[key]] *)
Definition field (device : gmap string json) (key : string) : U json :=
  match device !! key with
  | Some v => uret v
  | None => uraise KeyError (repr_key (Some key))
  end.

(** The loop of [UploadDeviceInfo] that fills [payload["devices"]]. *)
Fixpoint device_entries (devices : list (gmap string json))
    (entries : list json) : U (list json) :=
  match devices with
  | [] => uret entries
  | device :: rest =>
      let^ serial := field device "serial" in
      let^ product := field device "product" in
      let^ status := field device "status" in
      device_entries rest
        (entries ++ [JObj {["serial" := serial; "product" := product;
                            "status" := status]}])
  end.

Definition UploadDeviceInfo (hostname : string)
    (devices : list (gmap string json)) : U bool :=
  let^ entries := device_entries devices [] in
  checked_post (_url +:+ "host_info/v1/set")
    (dumps (JObj {["hostname" := JStr hostname; "devices" := JArr entries]})).

(** The dictionary [schedule] at the moment it is posted. *)
Definition schedule_payload (pb : schedule_message)
    (bt : build_target_schedule) (ts : test_schedule) : json :=
  JObj {["manifest_branch" := sm_manifest_branch pb;
         "build_target" := JArr [bt_name bt];
         "test_name" := ts_test_name ts;
         "period" := ts_period ts;
         "priority" := ts_priority ts;
         "device" := ts_device ts;
         "shards" := ts_shards ts;
         "param" := ts_param ts]}.

(** The three nested loops of [UploadScheduleInfo]; [succ] is the flag
    so far. *)
Fixpoint post_test_schedules (url : string) (pb : schedule_message)
    (bt : build_target_schedule) (schedules : list test_schedule)
    (succ : bool) : U bool :=
  match schedules with
  | [] => uret succ
  | ts :: rest =>
      let^ ok := checked_post url (dumps (schedule_payload pb bt ts)) in
      post_test_schedules url pb bt rest (if ok then succ else false)
  end.

Fixpoint post_build_targets (url : string) (pb : schedule_message)
    (targets : list build_target_schedule) (succ : bool) : U bool :=
  match targets with
  | [] => uret succ
  | bt :: rest =>
      let^ succ' := post_test_schedules url pb bt (bt_test_schedule bt) succ in
      post_build_targets url pb rest succ'
  end.

Fixpoint post_schedules (url : string) (pbs : list schedule_message)
    (succ : bool) : U bool :=
  match pbs with
  | [] => uret succ
  | pb :: rest =>
      let^ succ' := post_build_targets url pb (sm_build_target pb) succ in
      post_schedules url rest succ'
  end.

Definition UploadScheduleInfo (pbs : option (list schedule_message))
    : U bool :=
  match pbs with
  | None | Some [] => uret false
  | Some pbs =>
      let^ succ :=
        checked_post (_url +:+ "schedule_info/v1/clear")
          (dumps (JObj {["manifest_branch" := JStr "na"]})) in
      if negb succ then uret false
      else post_schedules (_url +:+ "schedule_info/v1/set") pbs succ
  end.

(** The dictionary [lab] at the moment it is posted. *)
Definition lab_payload (pb : lab_message) : json :=
  JObj {["name" := lm_name pb;
         "owner" := lm_owner pb;
         "host" :=
           JArr (map (λ host,
                        JObj {["hostname" := lh_hostname host;
                               "ip" := lh_ip host;
                               "script" := lh_script host]})
                     (lm_host pb))]}.

Fixpoint post_labs (url : string) (pbs : list lab_message) (succ : bool)
    : U bool :=
  match pbs with
  | [] => uret succ
  | pb :: rest =>
      let^ ok := checked_post url (dumps (lab_payload pb)) in
      post_labs url rest (if ok then succ else false)
  end.

(** [UploadLabInfo] returns [None] from its bare [return]. *)
Definition UploadLabInfo (pbs : option (list lab_message)) : U (option bool) :=
  match pbs with
  | None | Some [] => uret None
  | Some pbs =>
      let^ succ :=
        checked_post (_url +:+ "lab_info/v1/clear")
          (dumps (JObj {["name" := JStr "na"]})) in
      if negb succ then uret (Some false)
      else
        let^ succ' := post_labs (_url +:+ "lab_info/v1/set") pbs succ in
        uret (Some succ')
  end.

End Uploads.

(** Whether the [n]-th answer is a response with status [ok]. *)
Definition answer_ok (responses : nat → outcome Response) (n : nat) : bool :=
  match responses n with
  | Return response => bool_decide (status_code response = codes_ok)
  | Raise _ => false
  end.

(** All the test schedules of a list of schedule messages, each with its
    message and build target, in the order of the three loops. *)
Definition all_test_schedules (pbs : list schedule_message)
    : list (schedule_message * build_target_schedule * test_schedule) :=
  pb ← pbs; bt ← sm_build_target pb; ts ← bt_test_schedule bt;
  [(pb, bt, ts)].

(** The requests among the events, in order. *)
Definition posts_of (ev : list client_event) : list (string * string) :=
  omap (λ e, match e with
             | Post url data => Some (url, data)
             | Printed _ => None
             end) ev.

(** Every one of the [count] requests from the [n]-th on gets a
    response. *)
Definition answered_from (responses : nat → outcome Response)
    (n count : nat) : Prop :=
  ∀ i, (i < count)%nat → ∃ response, responses (n + i)%nat = Return response.

(** Answers for the examples: every request gets status 200, except the
    second one, which gets 500. *)
Definition second_fails (n : nat) : outcome Response :=
  Return {| status_code := if decide (n = 1%nat) then 500 else 200;
            text := "" |}.

(** What [UploadDeviceInfo] reports of one device: its serial, product
    and status, when it has all three. *)
Definition reported_device (device : gmap string json) : option json :=
  serial ← device !! "serial";
  product ← device !! "product";
  status ← device !! "status";
  Some (JObj {["serial" := serial; "product" := product;
               "status" := status]}).

(** Answers for the examples: the third request gets no response. *)
Definition third_raises (n : nat) : outcome Response :=
  if decide (n = 2%nat) then Raise (Exc SocketError "timed out")
  else Return {| status_code := 200; text := "" |}.

(** A schedule configuration for the examples: one branch with a build
    target that has two test schedules and a build target that has
    none. *)
Definition example_test_schedule (test_name : string) : test_schedule :=
  {| ts_test_name := JStr test_name; ts_period := JNumber 360;
     ts_priority := JStr "medium"; ts_device := JArr [JStr "sailfish"];
     ts_shards := JNumber 1; ts_param := JArr [] |}.

Definition example_schedules : list schedule_message :=
  [{| sm_manifest_branch := JStr "master";
      sm_build_target :=
        [{| bt_name := JStr "aosp_arm64";
            bt_test_schedule := [example_test_schedule "vts/vts";
                                 example_test_schedule "cts/cts"] |};
         {| bt_name := JStr "aosp_x86"; bt_test_schedule := [] |}] |}].

(** A lab configuration for the examples: two labs. *)
Definition example_labs : list lab_message :=
  [{| lm_name := JStr "lab1"; lm_owner := JStr "owner1";
      lm_host := [{| lh_hostname := JStr "host1"; lh_ip := JStr "10.0.0.1";
                     lh_script := JStr "run.py" |}] |};
   {| lm_name := JStr "lab2"; lm_owner := JStr "owner2"; lm_host := [] |}].

(** A stand-in for [json.dumps] in the examples: a string is written as
    it is, any other value as the name of its type. *)
Definition example_dumps (v : json) : string :=
  match v with
  | JStr s => s
  | _ => type_name v
  end.

End VtiUploads.

(** ** [UpdateDevice] for the server type [vti] *)

(** The characters that [str.strip()] and [str.split()] take for
    white space: the space and the characters 9 to 13. *)
Definition is_space (a : ascii) : bool :=
  let n := nat_of_ascii a in
  (n =? 32)%nat || ((9 <=? n)%nat && (n <=? 13)%nat).

(** [s.lstrip()], [s.rstrip()] and [s.strip()] *)
Fixpoint lstrip (s : string) : string :=
  match s with
  | EmptyString => EmptyString
  | String a s' => if is_space a then lstrip s' else s
  end.

Fixpoint rstrip (s : string) : string :=
  match s with
  | EmptyString => EmptyString
  | String a s' =>
      match rstrip s' with
      | EmptyString => if is_space a then EmptyString else String a EmptyString
      | r => String a r
      end
  end.

Definition strip (s : string) : string := rstrip (lstrip s).

(** [s.split()]: the words of [s] between runs of white space. *)
Fixpoint py_split (s : string) : list string :=
  match s with
  | EmptyString => []
  | String a s' =>
      if is_space a then py_split s'
      else match s' with
           | EmptyString => [String a EmptyString]
           | String b _ =>
               if is_space b then String a EmptyString :: py_split s'
               else match py_split s' with
                    | word :: rest => String a word :: rest
                    | [] => [String a EmptyString]
                    end
           end
  end.

(** The module's [DEVICE_STATUS_DICT]. *)
Definition DEVICE_STATUS_DICT : gmap string Z :=
  {["unknown" := 0; "fastboot" := 1; "online" := 2; "ready" := 3;
    "use" := 4; "error" := 5]}.

Module DeviceUpdate.
Import VtiEndpointClient VtiUploads.

(** A line that is not blank: it has a character that is no white
    space. *)
Definition not_blank (line : string) : bool :=
  negb (String.length (strip line) =? 0)%nat.

(** [DEVICE_STATUS_DICT[key]] *)
Definition device_status (key : string) : E json :=
  match DEVICE_STATUS_DICT !! key with
  | Some status => eret (JNumber (inject_Z status))
  | None => elift (Raise (Exc KeyError (repr_key (Some key))))
  end.

(** [line.split()[0]] *)
Definition first_word (line : string) : E string :=
  match py_split line with
  | word :: _ => eret word
  | [] => elift (Raise (Exc IndexError "list index out of range"))
  end.

Section UpdateDevice.

(** [cmd_utils.ExecuteOneShellCommand]: standard output, standard error
    and return code of a command. *)
Variable ExecuteOneShellCommand : string → string * string * Z.

(** The client: [self._vti_endpoint_client]. *)
Variable _url : string.
Variable responses : nat → outcome Response.
Variable dumps : json → string.

Definition shell (command : string) : E (string * string * Z) :=
  let! _ := eemit (ShellCommand command) in
  eret (ExecuteOneShellCommand command).

(** The loop over the lines of [adb devices]. *)
Fixpoint adb_lines (lines : list string) (devices : list (gmap string json))
    : E (list (gmap string json)) :=
  match lines with
  | [] => eret devices
  | line :: rest =>
      if (String.length (strip line) =? 0)%nat then adb_lines rest devices
      else
        let! serial := first_word line in
        let! out :=
          shell ("adb -s " +:+ serial +:+ " shell getprop ro.product.board") in
        let '(stdout, _, retcode) := out in
        let product := if decide (retcode = 0) then strip stdout else "error" in
        let! status := device_status "online" in
        adb_lines rest
          (devices ++ [{["serial" := JStr serial; "product" := JStr product;
                         "status" := status]}])
  end.

(** The loop over the lines of [fastboot devices]. *)
Fixpoint fastboot_lines (lines : list string)
    (devices : list (gmap string json)) : E (list (gmap string json)) :=
  match lines with
  | [] => eret devices
  | line :: rest =>
      if (String.length (strip line) =? 0)%nat then fastboot_lines rest devices
      else
        let! serial := first_word line in
        let! status := device_status "fastboot" in
        fastboot_lines rest
          (devices ++ [{["serial" := JStr serial; "product" := JStr "unknown";
                         "status" := status]}])
  end.

(** The devices [UpdateDevice] finds: the part of the [vti] branch before
    the upload. *)
Definition detect_devices : E (list (gmap string json)) :=
  let! out := shell "adb devices" in
  let! devices := adb_lines (tail (split_on (ascii_of_nat 10) out.1.1)) [] in
  let! out := shell "fastboot devices" in
  fastboot_lines (split_on (ascii_of_nat 10) out.1.1) devices.

(** [UpdateDevice("vti", host)], where [hostname] is [host.hostname]:
    the outcome, the number of requests made so far, the shell commands
    run and then the requests and printed lines of the client. *)
Definition UpdateDevice_vti (hostname : string) (n : nat)
    : outcome unit * nat * list event * list client_event :=
  match detect_devices with
  | (Return devices, commands) =>
      match UploadDeviceInfo _url responses dumps hostname devices n with
      | (Return _, n', ev) => (Return tt, n', commands, ev)
      | (Raise e, n', ev) => (Raise e, n', commands, ev)
      end
  | (Raise e, commands) => (Raise e, n, commands, [])
  end.

(** The lines of the two listings that are not blank; the first line of
    [adb devices] is left out. *)
Definition attached_lines : list string :=
  List.filter not_blank
    (tail (split_on (ascii_of_nat 10)
             (ExecuteOneShellCommand "adb devices").1.1)).

Definition fastboot_mode_lines : list string :=
  List.filter not_blank
    (split_on (ascii_of_nat 10)
       (ExecuteOneShellCommand "fastboot devices").1.1).

(** The command that reads the product of the device of a line, and what
    is uploaded for a line of [adb devices] and for a line of
    [fastboot devices]. *)
Definition getprop_command (line : string) : string :=
  "adb -s " +:+ default EmptyString (head (py_split line)) +:+
  " shell getprop ro.product.board".

Definition adb_device (line : string) : json :=
  let '(stdout, _, retcode) :=
    ExecuteOneShellCommand (getprop_command line) in
  JObj {["serial" := JStr (default EmptyString (head (py_split line)));
         "product" := JStr (if decide (retcode = 0) then strip stdout
                            else "error");
         "status" := JNumber 2]}.

Definition fastboot_device (line : string) : json :=
  JObj {["serial" := JStr (default EmptyString (head (py_split line)));
         "product" := JStr "unknown";
         "status" := JNumber 1]}.

End UpdateDevice.

(** A shell for the examples: two devices attached, the property of the
    second one cannot be read; one device in fastboot mode. *)
Definition example_shell (command : string) : string * string * Z :=
  if String.eqb command "adb devices" then
    ("List of devices attached" +:+ newline +:+
     "HT1 device" +:+ newline +:+ "HT2 offline" +:+ newline +:+ newline,
     "", 0)
  else if String.eqb command "fastboot devices" then
    ("FA3 fastboot" +:+ newline, "", 0)
  else if String.eqb command "adb -s HT1 shell getprop ro.product.board" then
    ("sailfish" +:+ newline, "", 0)
  else ("", "error: device offline", 1).

End DeviceUpdate.

(** ** Tables: [_PrintObjects] *)

(** The value of an attribute as far as [_ToPrintString] reads it: a
    list, tuple or set, with the [str] of its items, or another object,
    with its [str]. *)
Inductive attr_value :=
  | AStr (s : string)
  | ASeq (items : list string).

Definition _ToPrintString (obj : attr_value) : string :=
  match obj with
  | ASeq items => String.concat "," items
  | AStr s => s
  end.

Fixpoint spaces (n : nat) : string :=
  match n with
  | O => EmptyString
  | S n' => String " " (spaces n')
  end.

(** [s.ljust(width)] *)
Definition ljust (s : string) (width : nat) : string :=
  s +:+ spaces (width - String.length s).

(** [for index, attr in enumerate(attrs):
       width[index] = max(width[index], len(attr))], from [index] on.
    [attrs] has one string for every attribute name, as [width] has one
    number, so that no index is out of range. *)
Fixpoint update_widths (width : list nat) (index : nat) (attrs : list string)
    : list nat :=
  match attrs with
  | [] => width
  | attr :: rest =>
      update_widths
        (<[index := Nat.max (default O (width !! index)) (String.length attr)]>
           width)
        (S index) rest
  end.

(** The row of an object:
    [[_ToPrintString(getattr(dev_info, name, "")) for name in attr_names]]. *)
Definition row_of (attr_names : list string)
    (dev_info : gmap string attr_value) : list string :=
  map (λ name, _ToPrintString (default (AStr EmptyString) (dev_info !! name)))
      attr_names.

(** The first loop of [_PrintObjects]: the rows and the widths. *)
Definition table_of (objects : list (gmap string attr_value))
    (attr_names : list string) : list (list string) * list nat :=
  fold_left (λ '(rows, width) dev_info,
               let attrs := row_of attr_names dev_info in
               (rows ++ [attrs], update_widths width 0 attrs))
            objects ([attr_names], map String.length attr_names).

Definition _PrintObjects (objects : list (gmap string attr_value))
    (attr_names : list string) : M unit :=
  let '(rows, width) := table_of objects attr_names in
  for_each rows
    (λ row, _Print (String.concat "  "
                      (imap (λ index attr,
                               ljust attr (default O (width !! index)))
                            row))).

Definition _PrintDevices (devices : list (gmap string attr_value)) : M unit :=
  _PrintObjects devices
    ["device_serial"; "state"; "run_target"; "build_id"; "sdk_version";
     "stub"].

Definition _PrintTasks (tasks : list (gmap string attr_value)) : M unit :=
  _PrintObjects tasks
    ["request_id"; "command_id"; "task_id"; "device_serials";
     "command_line"].

(** Two devices for the examples. *)
Definition example_devices : list (gmap string attr_value) :=
  [{["device_serial" := AStr "HT6550300002"; "state" := AStr "Available";
     "run_target" := AStr "sailfish"]};
   {["device_serial" := AStr "FA3"; "state" := AStr "Gone";
     "stub" := ASeq ["a"; "b"]]}].

(** ** [ProcessScript] *)

Section Scripts.

Variable Cmd_onecmd : string → M (option bool).

(** [imp.load_source('script_module', script_file_path)], the function
    [EmitConsoleCommands] of the loaded module (its result is [None] or a
    list of command lines) and [os.environ]. *)
Variable script_module : Type.
Variable load_source : string → outcome script_module.
Variable EmitConsoleCommands : script_module → outcome (option (list string)).
Variable environ : gmap string string.

Definition ProcessScript (script_file_path : string) : M bool :=
  if negb (endswith ".py" script_file_path) then
    emit (Print ("Script file is not .py file: " +:+ script_file_path)) ;;;
    ret false
  else
    let* module := lift (load_source script_file_path) in
    let serial := environ !! "ANDROID_SERIAL" in
    (if truthy serial then
       onecmd Cmd_onecmd
         ("device --set_serial=" +:+ default EmptyString serial) ;;;
       ret tt
     else ret tt) ;;;
    let* commands := lift (EmitConsoleCommands module) in
    match commands with
    | Some (_ :: _) => replay Cmd_onecmd (default [] commands)
    | _ => ret tt
    end ;;;
    ret true.

End Scripts.

(** * Properties *)

(** ** Sequencing in the console monad *)

Lemma bind_get {B} (f : Console → M B) (c : Console) :
  bind get f c = f c c.
Proof. unfold bind, get. by destruct (f c c) as [[r c'] ev]. Qed.

Lemma bind_ret {A B} (a : A) (f : A → M B) (c : Console) :
  bind (ret a) f c = f a c.
Proof. unfold bind, ret. by destruct (f a c) as [[r c'] ev]. Qed.

Lemma bind_raise {A B} (k : exn_class) (msg : string) (f : A → M B)
    (c : Console) :
  bind (raise k msg) f c = (Raise (Exc k msg), c, []).
Proof. reflexivity. Qed.

(** What the first part of a sequence emits comes first. *)
Lemma bind_events_prefix {A B} (m : M A) (f : A → M B) (c : Console) :
  ∃ rest, events_of (bind m f) c = events_of m c ++ rest.
Proof.
  unfold events_of, bind. destruct (m c) as [[[a|e] c'] ev]; simpl.
  - destruct (f a c') as [[r c''] ev']. by eexists.
  - exists []. by rewrite app_nil_r.
Qed.

(** ** Maximum of the keys and the next free id *)

Lemma py_max_nil (l : list Z) : py_max l = None ↔ l = [].
Proof. destruct l; simpl; split; congruence. Qed.

Lemma py_max_is_max (l : list Z) (m : Z) :
  py_max l = Some m → m ∈ l ∧ ∀ k, k ∈ l → k ≤ m.
Proof.
  revert m. induction l as [|x l IH]; intros m; simpl; [discriminate|].
  destruct (py_max l) as [a|] eqn:Ha.
  - intros [= <-]. destruct (IH a eq_refl) as [Hin Hle]. split.
    + destruct (Z.max_spec x a) as [[_ ->]|[_ ->]];
        [right; exact Hin | left].
    + intros k [->|Hk]%elem_of_cons; [lia|]. specialize (Hle k Hk). lia.
  - intros [= <-]. apply py_max_nil in Ha as ->. split; [left|].
    intros k [->|Hk]%elem_of_cons; [lia|]. inversion Hk.
Qed.

Lemma max_key_is_max {A} (tbl : gmap Z A) (m : Z) :
  max_key tbl = Some m → m ∈ dom tbl ∧ ∀ k, k ∈ dom tbl → k ≤ m.
Proof.
  unfold max_key. intros [Hin Hle]%py_max_is_max. split.
  - by apply elem_of_elements.
  - intros k Hk. apply Hle. by apply elem_of_elements.
Qed.

Lemma max_key_nonempty {A} (tbl : gmap Z A) :
  tbl ≠ ∅ → ∃ m, max_key tbl = Some m.
Proof.
  intros Hne. unfold max_key.
  destruct (py_max (elements (dom tbl))) as [m|] eqn:Hm; [by exists m|].
  apply py_max_nil, elements_empty_inv in Hm.
  apply leibniz_equiv in Hm. by apply dom_empty_inv_L in Hm.
Qed.

Lemma next_id_empty : next_id ∅ = Return 1.
Proof. unfold next_id. by rewrite decide_True. Qed.

Lemma next_id_nonempty (tbl : gmap Z Thread) :
  tbl ≠ ∅ →
  ∃ m, next_id tbl = Return (m + 1) ∧ m ∈ dom tbl ∧ ∀ k, k ∈ dom tbl → k ≤ m.
Proof.
  intros Hne. unfold next_id. rewrite decide_False by done.
  destruct (max_key_nonempty tbl Hne) as [m Hm]. rewrite Hm.
  exists m. split; [done|]. by apply max_key_is_max.
Qed.

Lemma next_id_returns (tbl : gmap Z Thread) :
  ∃ id, next_id tbl = Return id ∧ (id ∉ dom tbl)
        ∧ (tbl = ∅ → id = 1)
        ∧ (∀ m, m ∈ dom tbl → (∀ k, k ∈ dom tbl → k ≤ m) → id = m + 1).
Proof.
  destruct (decide (tbl = ∅)) as [->|Hne].
  - exists 1. rewrite next_id_empty. split_and!; [done|set_solver|done|].
    intros m Hm. set_solver.
  - destruct (next_id_nonempty tbl Hne) as (m & Hid & Hin & Hmax).
    exists (m + 1). split_and!; [done| | done |].
    + intros Hin'. specialize (Hmax _ Hin'). lia.
    + intros m' Hin' Hmax'. specialize (Hmax _ Hin'). specialize (Hmax' _ Hin).
      lia.
Qed.

Lemma already_running_fresh (tbl : gmap Z Thread) (id : Z) :
  id ∉ dom tbl → already_running tbl id = false.
Proof.
  intros Hid. unfold already_running.
  by apply not_elem_of_dom in Hid as ->.
Qed.

Lemma already_running_flagged (tbl : gmap Z Thread) (id : Z) :
  already_running tbl id = true ↔ flagged_running tbl id.
Proof.
  unfold already_running, flagged_running, hasattr_keep_running. split.
  - destruct (tbl !! id) as [t|]; [|discriminate].
    destruct (keep_running t) eqn:Hk; [discriminate|]. by exists t.
  - intros (t & -> & ->). done.
Qed.

(** ** Start and stop on the two session tables *)

Lemma table_with_table (k : session_kind) (c : Console) (tbl : gmap Z Thread) :
  table k (with_table k c tbl) = tbl.
Proof. by destruct k. Qed.

Lemma started_thread_running (cmd : command) (t : Thread) :
  started_thread cmd = Some t → keep_running t = None ∧ daemon t = true.
Proof. destruct cmd; simpl; intros [= <-]; done. Qed.

(** A start command with a positive interval, once its id is known:
    either the id is flagged running and only the message is printed, or
    the new thread is stored under the id and started. *)
Lemma handle_start (env : Env) (k : session_kind) (cmd : command)
    (arg : option string) (interval id : Z) (c : Console) :
  is_start k cmd arg interval →
  0 < interval →
  match arg with
  | Some s => env_int env s = Some id
  | None => next_id (table k c) = Return id
  end →
  ∃ t, started_thread cmd = Some t ∧
       handle env cmd c =
         if already_running (table k c) id
         then (Return None, c, AlreadyRunning k id)
         else (Return None, with_table k c (<[id := t]> (table k c)),
               [ThreadStart t]).
Proof.
  intros Hstart Hpos Hid.
  destruct k, cmd as [a|a| | | |]; simpl in Hstart; try done;
    destruct Hstart as (Hu & Ha & Hi); eexists; (split; [reflexivity|]);
    simpl; unfold do_build, do_config; rewrite Hu, Hi, Ha;
    (destruct (Z.leb_spec interval 0) as [?|_]; [lia|]);
    unfold bind, get, int, lift; simpl;
    destruct arg as [s|]; simpl in Hid; rewrite Hid; simpl;
    destruct (already_running _ id); reflexivity.
Qed.

(** A stop command: the thread under the id gets [keep_running = False],
    and an id that is not in the table is a [KeyError]. *)
Lemma handle_stop (env : Env) (k : session_kind) (cmd : command)
    (s : string) (id : Z) (c : Console) :
  is_stop k cmd s →
  env_int env s = Some id →
  handle env cmd c =
    match table k c !! id with
    | Some t =>
        (Return None,
         with_table k c (<[id := set_keep_running_False t]> (table k c)), [])
    | None => (Raise (Exc KeyError (pretty id)), c, [])
    end.
Proof.
  intros Hstop Hid.
  destruct k, cmd as [a|a| | | |]; simpl in Hstop; try done;
    destruct Hstop as (Hu & Ha);
    simpl; unfold do_build, do_config; rewrite Hu, Ha;
    unfold bind, get, int; rewrite Hid; simpl;
    destruct (_ !! id); reflexivity.
Qed.

Lemma stop_clears_running (env : Env) (k : session_kind) (cmd : command)
    (s : string) (id : Z) (c : Console) :
  is_stop k cmd s →
  env_int env s = Some id →
  already_running (table k (state_after (handle env cmd) c)) id = false.
Proof.
  intros Hstop Hid. unfold state_after.
  rewrite (handle_stop env k cmd s id c Hstop Hid).
  unfold already_running.
  destruct (table k c !! id) as [t|] eqn:Ht; simpl.
  - rewrite table_with_table, lookup_insert_eq. done.
  - by rewrite Ht.
Qed.

(** C1.  After any sequence of commands: a start command (build or
    config) with a positive interval and an explicit id whose session is
    flagged running returns after printing the already-running message,
    with the console unchanged and no thread started; a stop command on
    such an id returns and takes the flag away; and after a stop command
    on the id, the same start command stores a new running thread under
    the id and starts it. *)
Theorem start_on_running_id_rejected_until_stopped
    (script : list (Env * command)) (c0 : Console)
    (env : Env) (k : session_kind) (start stop : command)
    (s s' : string) (id interval : Z) :
  is_start k start (Some s) interval →
  0 < interval →
  env_int env s = Some id →
  is_stop k stop s' →
  env_int env s' = Some id →
  let c := after script c0 in
  (flagged_running (table k c) id →
     handle env start c = (Return None, c, AlreadyRunning k id)
     ∧ result_of (handle env stop) c = Return None
     ∧ ¬ flagged_running (table k (state_after (handle env stop) c)) id)
  ∧ (let c1 := state_after (handle env stop) c in
     ∃ t, started_thread start = Some t
          ∧ keep_running t = None
          ∧ handle env start c1 =
              (Return None, with_table k c1 (<[id := t]> (table k c1)),
               [ThreadStart t])
          ∧ table k (state_after (handle env start) c1) !! id = Some t
          ∧ flagged_running (table k (state_after (handle env start) c1)) id).
Proof.
  intros Hstart Hpos Hs Hstop Hs' c. split.
  - intros Hrun.
    destruct (handle_start env k start (Some s) interval id c Hstart Hpos Hs)
      as (t & _ & Hh).
    apply already_running_flagged in Hrun as Hrun'. rewrite Hrun' in Hh.
    split_and!; [exact Hh| |].
    + unfold result_of. rewrite (handle_stop env k stop s' id c Hstop Hs').
      destruct Hrun as (t0 & -> & _). done.
    + rewrite <- already_running_flagged.
      rewrite (stop_clears_running env k stop s' id c Hstop Hs'). done.
  - intros c1.
    destruct (handle_start env k start (Some s) interval id c1 Hstart Hpos Hs)
      as (t & Ht & Hh).
    unfold c1 in Hh at 2.
    rewrite (stop_clears_running env k stop s' id c Hstop Hs') in Hh.
    fold c1 in Hh.
    destruct (started_thread_running _ _ Ht) as [Hk _].
    exists t. split_and!; [done|done|exact Hh| |].
    + unfold state_after. rewrite Hh. simpl.
      by rewrite table_with_table, lookup_insert_eq.
    + exists t. split; [|done]. unfold state_after. rewrite Hh. simpl.
      by rewrite table_with_table, lookup_insert_eq.
Qed.

Lemma next_id_of_max (tbl : gmap Z Thread) (m : Z) :
  m ∈ dom tbl → (∀ j, j ∈ dom tbl → j ≤ m) → next_id tbl = Return (m + 1).
Proof.
  intros Hin Hmax.
  destruct (next_id_returns tbl) as (id & Hid & _ & _ & Hnext).
  by rewrite Hid, (Hnext m Hin Hmax).
Qed.

(** A start command without [--id], with a positive interval, always
    registers and starts its thread, under the next free id. *)
Lemma handle_start_auto (env : Env) (k : session_kind) (cmd : command)
    (interval : Z) (c : Console) :
  is_start k cmd None interval →
  0 < interval →
  ∃ id t,
    next_id (table k c) = Return id
    ∧ started_thread cmd = Some t
    ∧ handle env cmd c =
        (Return None, with_table k c (<[id := t]> (table k c)),
         [ThreadStart t]).
Proof.
  intros Hstart Hpos.
  destruct (next_id_returns (table k c)) as (id & Hid & Hfresh & _).
  destruct (handle_start env k cmd None interval id c Hstart Hpos Hid)
    as (t & Ht & Hh).
  rewrite (already_running_fresh _ _ Hfresh) in Hh. by exists id, t.
Qed.

Lemma table_after_start_auto (env : Env) (k : session_kind) (cmd : command)
    (interval id : Z) (c : Console) :
  is_start k cmd None interval →
  0 < interval →
  next_id (table k c) = Return id →
  ∃ t, started_thread cmd = Some t
       ∧ events_of (handle env cmd) c = [ThreadStart t]
       ∧ table k (state_after (handle env cmd) c) = <[id := t]> (table k c).
Proof.
  intros Hstart Hpos Hid.
  destruct (handle_start_auto env k cmd interval c Hstart Hpos)
    as (id' & t & Hid' & Ht & Hh).
  assert (id' = id) as -> by congruence.
  exists t. unfold events_of, state_after. rewrite Hh. simpl.
  by rewrite table_with_table.
Qed.

(** C2.  After any sequence of commands, a start command (build or
    config) without an explicit id and with a positive interval registers
    and starts a new session under an id that is 1 when the table of its
    kind is empty and the largest registered id plus one otherwise, and
    that is therefore not yet a key of the table.  Three such commands on
    an empty table register their sessions under 1, 2 and 3, in that
    order. *)
Theorem auto_assigned_session_ids
    (script : list (Env * command)) (c0 : Console)
    (env1 env2 env3 : Env) (k : session_kind) (cmd1 cmd2 cmd3 : command)
    (i1 i2 i3 : Z) :
  is_start k cmd1 None i1 → 0 < i1 →
  is_start k cmd2 None i2 → 0 < i2 →
  is_start k cmd3 None i3 → 0 < i3 →
  (let c := after script c0 in
   ∃ id t,
     started_thread cmd1 = Some t
     ∧ handle env1 cmd1 c =
         (Return None, with_table k c (<[id := t]> (table k c)),
          [ThreadStart t])
     ∧ table k c !! id = None
     ∧ (table k c = ∅ → id = 1)
     ∧ (∀ m, m ∈ dom (table k c) →
             (∀ j, j ∈ dom (table k c) → j ≤ m) → id = m + 1))
  ∧ (∀ c, table k c = ∅ →
       let c1 := state_after (handle env1 cmd1) c in
       let c2 := state_after (handle env2 cmd2) c1 in
       let c3 := state_after (handle env3 cmd3) c2 in
       ∃ t1 t2 t3,
         started_thread cmd1 = Some t1
         ∧ started_thread cmd2 = Some t2
         ∧ started_thread cmd3 = Some t3
         ∧ events_of (handle env1 cmd1) c = [ThreadStart t1]
         ∧ events_of (handle env2 cmd2) c1 = [ThreadStart t2]
         ∧ events_of (handle env3 cmd3) c2 = [ThreadStart t3]
         ∧ table k c1 = {[1 := t1]}
         ∧ table k c2 = <[2 := t2]> {[1 := t1]}
         ∧ table k c3 = <[3 := t3]> (<[2 := t2]> {[1 := t1]})).
Proof.
  intros H1 P1 H2 P2 H3 P3. split.
  - intros c.
    destruct (handle_start_auto env1 k cmd1 i1 c H1 P1)
      as (id & t & Hid & Ht & Hh).
    destruct (next_id_returns (table k c))
      as (id' & Hid' & Hfresh & Hempty & Hmax).
    assert (id' = id) as -> by congruence.
    exists id, t. split_and!; try done. by apply not_elem_of_dom.
  - intros c Hc c1 c2 c3.
    destruct (table_after_start_auto env1 k cmd1 i1 1 c H1 P1)
      as (t1 & Ht1 & He1 & Hc1).
    { rewrite Hc. apply next_id_empty. }
    rewrite Hc in Hc1. fold c1 in Hc1.
    destruct (table_after_start_auto env2 k cmd2 i2 2 c1 H2 P2)
      as (t2 & Ht2 & He2 & Hc2).
    { rewrite Hc1. apply (next_id_of_max _ 1);
        rewrite dom_insert_L, dom_empty_L.
      - rewrite elem_of_union, elem_of_singleton. by left.
      - intros j. rewrite elem_of_union, elem_of_singleton, elem_of_empty.
        intros [->|[]]. lia. }
    fold c2 in Hc2. rewrite Hc1 in Hc2.
    destruct (table_after_start_auto env3 k cmd3 i3 3 c2 H3 P3)
      as (t3 & Ht3 & He3 & Hc3).
    { rewrite Hc2. apply (next_id_of_max _ 2);
        rewrite !dom_insert_L, dom_empty_L.
      - rewrite elem_of_union, elem_of_singleton. by left.
      - intros j.
        rewrite !elem_of_union, !elem_of_singleton, elem_of_empty.
        intros [->|[->|[]]]; lia. }
    fold c3 in Hc3. rewrite Hc2 in Hc3.
    exists t1, t2, t3. split_and!; done.
Qed.

Lemma start_on_running_id_rejected_until_stopped_witness :
  handle example_env example_start_1
    (after [(example_env, example_start_1)] Console_init) =
  (Return None, after [(example_env, example_start_1)] Console_init,
   AlreadyRunning BuildSession 1)
  ∧ ∃ t,
      table BuildSession
        (state_after (handle example_env example_start_1)
           (state_after (handle example_env example_stop_1)
              (after [(example_env, example_start_1)] Console_init)))
      !! 1 = Some t
      ∧ keep_running t = None.
Proof.
  destruct (start_on_running_id_rejected_until_stopped
              [(example_env, example_start_1)] Console_init example_env
              BuildSession example_start_1 example_stop_1 "1" "1" 1 30)
    as [Hrun Hrestart].
  - simpl. done.
  - lia.
  - reflexivity.
  - simpl. done.
  - reflexivity.
  - split.
    + apply Hrun. eexists. split; [vm_compute; reflexivity | reflexivity].
    + destruct Hrestart as (t & _ & Hk & _ & Ht & _). exists t. by split.
Defined.

Lemma auto_assigned_session_ids_witness :
  ∃ t1 t2 t3,
    table BuildSession
      (state_after (handle example_env example_start_auto) Console_init)
    = {[1 := t1]}
    ∧ table BuildSession
        (state_after (handle example_env example_start_auto)
           (state_after (handle example_env example_start_auto) Console_init))
      = <[2 := t2]> {[1 := t1]}
    ∧ table BuildSession
        (state_after (handle example_env example_start_auto)
           (state_after (handle example_env example_start_auto)
              (state_after (handle example_env example_start_auto)
                 Console_init)))
      = <[3 := t3]> (<[2 := t2]> {[1 := t1]}).
Proof.
  destruct (auto_assigned_session_ids
              [] Console_init example_env example_env example_env
              BuildSession example_start_auto example_start_auto
              example_start_auto 30 30 30) as [_ Hthree];
    [simpl; done | lia | simpl; done | lia | simpl; done | lia |].
  destruct (Hthree Console_init eq_refl)
    as (t1 & t2 & t3 & _ & _ & _ & _ & _ & _ & H1 & H2 & H3).
  exists t1, t2, t3. split_and!; assumption.
Defined.

(** ** [build --update=single] *)

(** C3 (the code does not do what the claim says).  Whatever the other
    arguments are, [build --update=single] calls [UpdateDevice] with four
    arguments, which is a [TypeError] before anything is listed or
    uploaded; the unit of work that a build session repeats,
    [UpdateBuild], starts by authenticating and always reaches the
    provider; and the sibling [config --update=single] does run its unit
    of work, [UpdateConfig], inline. *)
Theorem build_single_raises_TypeError
    (py_int : string → option Z) (UpdateDevice_body : pyval → pyval → E unit)
    (id : option string) (interval : Z)
    (artifact_type branch target account_id : string) (c : Console) :
  do_build py_int UpdateDevice_body
    {| ba_update := Single; ba_id := id; ba_interval := interval;
       ba_artifact_type := artifact_type; ba_branch := branch;
       ba_target := target; ba_account_id := account_id |} c
  = (Raise (Exc TypeError "UpdateDevice() takes exactly 3 arguments (5 given)"),
     c, [])
  ∧ (∀ w, ∃ ev,
       (UpdateBuild w account_id branch target artifact_type).2
       = PabAuthenticate :: ev)
  ∧ (∀ UpdateConfig_body config_type method,
       events_of
         (do_config py_int UpdateConfig_body
            {| ca_update := Single; ca_id := id; ca_interval := interval;
               ca_config_type := config_type; ca_branch := branch;
               ca_target := target; ca_account_id := account_id;
               ca_method := method |}) c
       = (UpdateConfig_body account_id branch target config_type method).2).
Proof.
  split_and!; [reflexivity| |].
  2: { intros UpdateConfig_body config_type method.
       unfold events_of, do_config, bind, liftE, ret. simpl.
       destruct (UpdateConfig_body _ _ _ _ _) as [[[]|e] ev]; simpl;
         by rewrite ?app_nil_r. }
  intros w. unfold UpdateBuild, ebind, eemit, elift. simpl.
  destruct (pab_Authenticate w); simpl; [|by eexists].
  destruct (list_targets _ _ _ _ _ _) as [[builds|e] ev]; simpl;
    [|by eexists].
  destruct (vti_UploadBuildInfo w builds); by eexists.
Qed.

(** ** The polling loops *)

Lemma loop_body_completes (work : E unit) (update_interval : Z) :
  0 ≤ update_interval →
  (∀ e, work.1 = Raise e → caught e = true) →
  loop_body work update_interval = (Return tt, pass_events work update_interval).
Proof.
  intros Hpos Hcaught. unfold loop_body, pass_events, py_sleep, ebind, eemit.
  destruct (Z.ltb_spec update_interval 0) as [?|_]; [lia|].
  destruct work as [[[]|e] ev]; simpl.
  - reflexivity.
  - rewrite (Hcaught e eq_refl). simpl. by rewrite <- app_assoc.
Qed.

Lemma loop_body_uncaught (work : E unit) (update_interval : Z) (e : exception) :
  work.1 = Raise e → caught e = false →
  loop_body work update_interval = (Raise e, work.2).
Proof.
  intros He Hc. unfold loop_body, ebind.
  destruct work as [[[]|e'] ev]; simpl in *; [discriminate|].
  injection He as ->. by rewrite Hc.
Qed.

(** While the flag is not set and every failure is of a caught class,
    the loop goes through pass after pass. *)
Lemma poll_keeps_looping (thread_at : nat → Thread) (work : nat → E unit)
    (update_interval : Z) (n i : nat) :
  0 ≤ update_interval →
  (∀ j, (i ≤ j < i + n)%nat → getattr_keep_running (thread_at j) = true) →
  (∀ j e, (i ≤ j < i + n)%nat → (work j).1 = Raise e → caught e = true) →
  poll thread_at work update_interval n i =
    (Looping,
     concat (map (λ j, pass_events (work j) update_interval) (seq i n))).
Proof.
  intros Hpos. revert i. induction n as [|n IH]; intros i Hflag Hcaught.
  - reflexivity.
  - simpl. rewrite Hflag by lia.
    rewrite loop_body_completes by (try done; intros e; apply Hcaught; lia).
    rewrite IH; [done| |].
    + intros j Hj. apply Hflag. lia.
    + intros j e Hj. apply Hcaught. lia.
Qed.

(** The loop ends, normally, at the first pass that finds the flag set. *)
Lemma poll_exits_on_flag (thread_at : nat → Thread) (work : nat → E unit)
    (update_interval : Z) (k n i : nat) :
  0 ≤ update_interval →
  (k < n)%nat →
  (∀ j, (i ≤ j < i + k)%nat → getattr_keep_running (thread_at j) = true) →
  getattr_keep_running (thread_at (i + k)%nat) = false →
  (∀ j e, (i ≤ j < i + k)%nat → (work j).1 = Raise e → caught e = true) →
  poll thread_at work update_interval n i =
    (Exited,
     concat (map (λ j, pass_events (work j) update_interval) (seq i k))).
Proof.
  intros Hpos. revert n i.
  induction k as [|k IH]; intros n i Hkn Hflag Hstop Hcaught.
  - destruct n as [|n]; [lia|]. simpl.
    replace (i + 0)%nat with i in Hstop by lia. by rewrite Hstop.
  - destruct n as [|n]; [lia|]. simpl. rewrite Hflag by lia.
    rewrite loop_body_completes by (try done; intros e; apply Hcaught; lia).
    rewrite (IH n (S i)); [done|lia| | |].
    + intros j Hj. apply Hflag. lia.
    + by replace (S i + k)%nat with (i + S k)%nat by lia.
    + intros j e Hj. apply Hcaught. lia.
Qed.

Lemma run_loop_poll (l : polling_loop) (thread_at : nat → Thread)
    (update_interval : Z) (fuel : nat) :
  run_loop l thread_at update_interval fuel =
  poll thread_at (unit_of_work l) update_interval fuel 0.
Proof. by destruct l. Qed.

(** A loop only returns after it has found the flag set. *)
Lemma poll_exited_flag (thread_at : nat → Thread) (work : nat → E unit)
    (update_interval : Z) (n i : nat) :
  (poll thread_at work update_interval n i).1 = Exited →
  ∃ k, (i ≤ k < i + n)%nat ∧ getattr_keep_running (thread_at k) = false.
Proof.
  revert i. induction n as [|n IH]; intros i; simpl; [discriminate|].
  destruct (getattr_keep_running (thread_at i)) eqn:Hflag.
  - destruct (loop_body (work i) update_interval) as [[[]|e] ev];
      [|discriminate].
    destruct (poll thread_at work update_interval n (S i)) as [s ev'] eqn:Hp.
    simpl. intros ->.
    destruct (IH (S i)) as (k & Hk & Hfalse); [by rewrite Hp|].
    exists k. split; [lia|done].
  - intros _. exists i. split; [lia|done].
Qed.

(** A loop is only left by an exception of a class that the [except]
    clause does not list, or by a failing sleep. *)
Lemma poll_died_uncaught (thread_at : nat → Thread) (work : nat → E unit)
    (update_interval : Z) (n i : nat) (e : exception) :
  0 ≤ update_interval →
  (poll thread_at work update_interval n i).1 = Died e →
  ∃ k, (i ≤ k < i + n)%nat ∧ (work k).1 = Raise e ∧ caught e = false.
Proof.
  intros Hpos. revert i. induction n as [|n IH]; intros i; simpl;
    [discriminate|].
  destruct (getattr_keep_running (thread_at i)); [|discriminate].
  destruct (work i) as [[[]|e'] ev] eqn:Hw.
  - rewrite loop_body_completes by (try done; simpl; discriminate).
    destruct (poll thread_at work update_interval n (S i)) as [s ev'] eqn:Hp.
    simpl. intros ->.
    destruct (IH (S i)) as (k & Hk & Hfalse); [by rewrite Hp|].
    exists k. split; [lia|done].
  - destruct (caught e') eqn:Hc.
    + rewrite loop_body_completes
        by (try done; simpl; intros ? [= <-]; done).
      destruct (poll thread_at work update_interval n (S i)) as [s ev'] eqn:Hp.
      simpl. intros ->.
      destruct (IH (S i)) as (k & Hk & Hfalse); [by rewrite Hp|].
      exists k. split; [lia|done].
    + rewrite (loop_body_uncaught _ _ e') by done. simpl. intros [= ->].
      exists i. rewrite Hw. split; [lia|done].
Qed.

(** C4, as the code has it.  For each of the three polling loops,
    running with a positive interval: as long as every failure of the
    unit of work is of one of the classes the [except] clause lists
    ([socket.error], [RemoteOperationException], [HttpLib2Error],
    [HttpError]), a failing pass does not end the loop; the exception is
    logged, the loop sleeps and goes on to the next pass, so after any
    number [n] of passes with the flag not set the loop is still running
    (in particular after five or more failing passes).  The loop returns
    exactly when a pass finds the flag set, and it is never left by an
    exception. *)
Theorem polling_loop_survives_caught_failures
    (l : polling_loop) (thread_at : nat → Thread) (update_interval : Z)
    (n : nat) :
  0 < update_interval →
  (∀ j e, (j < n)%nat → (unit_of_work l j).1 = Raise e → caught e = true) →
  ((∀ j, (j < n)%nat → getattr_keep_running (thread_at j) = true) →
     run_loop l thread_at update_interval n =
       (Looping,
        concat (map (λ j, pass_events (unit_of_work l j) update_interval)
                    (seq 0 n))))
  ∧ (∀ k, (k < n)%nat →
       (∀ j, (j < k)%nat → getattr_keep_running (thread_at j) = true) →
       getattr_keep_running (thread_at k) = false →
       run_loop l thread_at update_interval n =
         (Exited,
          concat (map (λ j, pass_events (unit_of_work l j) update_interval)
                      (seq 0 k))))
  ∧ ((run_loop l thread_at update_interval n).1 = Exited →
       ∃ k, (k < n)%nat ∧ getattr_keep_running (thread_at k) = false)
  ∧ (∀ e, (run_loop l thread_at update_interval n).1 ≠ Died e).
Proof.
  intros Hpos Hcaught. rewrite run_loop_poll. split_and!.
  - intros Hflag. apply poll_keeps_looping; [lia| |].
    + intros j Hj. apply Hflag. lia.
    + intros j e Hj. apply Hcaught. lia.
  - intros k Hk Hflag Hstop. apply (poll_exits_on_flag _ _ _ k); try done.
    + lia.
    + intros j Hj. apply Hflag. lia.
    + intros j e Hj. apply Hcaught. lia.
  - intros (k & Hk & Hfalse)%poll_exited_flag. exists k. split; [lia|done].
  - intros e (k & Hk & Hraise & Hc)%poll_died_uncaught; [|lia].
    rewrite (Hcaught k e) in Hc; [done|lia|done].
Qed.

Lemma polling_loop_survives_caught_failures_witness :
  run_loop (ConfigLoop always_socket_error)
           (untouched_thread example_target) 30 5
  = (Looping,
     concat (map (λ j, pass_events (always_socket_error j) 30) (seq 0 5))).
Proof.
  apply (polling_loop_survives_caught_failures
           (ConfigLoop always_socket_error) (untouched_thread example_target)
           30 5).
  - lia.
  - simpl. intros j e _ [= <-]. reflexivity.
  - intros j _. reflexivity.
Defined.

(** C4 as stated fails: with the flag never set, a build loop whose
    target has two dashes leaves the loop at the first pass with a
    [ValueError], which the [except] clause does not list. *)
Lemma polling_loop_dies_on_uncaught_failure :
  (∀ i, getattr_keep_running (untouched_thread example_target i) = true)
  ∧ run_loop (BuildLoop (λ _, one_build_world) "543365459" "b" "a-b-c" "device")
             (untouched_thread example_target) 30 5
    = (Died (Exc ValueError "too many values to unpack"),
       [PabAuthenticate; PabGetBuildList "543365459" "b" "a-b-c" 100]).
Proof. split; [intros i|]; reflexivity. Qed.

(** ** Fetch *)

Lemma lookup_dict_update {V} (d other : gmap string V) (k : string) :
  dict_update d other !! k =
  match other !! k with
  | Some v => Some v
  | None => d !! k
  end.
Proof.
  unfold dict_update. rewrite lookup_union.
  destruct (other !! k), (d !! k); reflexivity.
Qed.

(** A fetch that returns has replaced the two maps by their updates. *)
Lemma do_fetch_returns (build_provider : fetch_args → outcome fetch_result)
    (args : fetch_args) (c : Console) (r : fetch_result) :
  build_provider args = Return r →
  result_of (do_fetch build_provider args) c = Return None →
  device_image_info (state_after (do_fetch build_provider args) c)
    = dict_update (device_image_info c) (device_images r)
  ∧ test_suite_info (state_after (do_fetch build_provider args) c)
    = dict_update (test_suite_info c) (test_suites r).
Proof.
  intros Hr. unfold result_of, state_after, do_fetch, bind, lift.
  rewrite Hr. simpl.
  destruct (fa_type args); simpl;
    repeat match goal with
      | |- context [fetch_environment r !! ?k] =>
          destruct (fetch_environment r !! k); simpl
      | |- context [tools_info c] => destruct (tools_info c); simpl
      | |- context [decide (?m = ∅)] => destruct (decide (m = ∅)); simpl
      end;
    intros; try discriminate; split; reflexivity.
Qed.

(** C5.  A fetch that returns merges what the provider reported into the
    device-image map and into the test-suite map: a key the provider
    reported now has the reported path, and every other key has the
    value it had before. *)
Theorem fetch_merges_accumulate
    (build_provider : fetch_args → outcome fetch_result)
    (args : fetch_args) (c : Console) (r : fetch_result) :
  build_provider args = Return r →
  result_of (do_fetch build_provider args) c = Return None →
  ∀ key,
    (∀ path, device_images r !! key = Some path →
       device_image_info (state_after (do_fetch build_provider args) c) !! key
       = Some path)
    ∧ (device_images r !! key = None →
       device_image_info (state_after (do_fetch build_provider args) c) !! key
       = device_image_info c !! key)
    ∧ (∀ path, test_suites r !! key = Some path →
       test_suite_info (state_after (do_fetch build_provider args) c) !! key
       = Some path)
    ∧ (test_suites r !! key = None →
       test_suite_info (state_after (do_fetch build_provider args) c) !! key
       = test_suite_info c !! key).
Proof.
  intros Hr Hret key.
  destruct (do_fetch_returns build_provider args c r Hr Hret) as [-> ->].
  rewrite !lookup_dict_update.
  split_and!.
  - by intros path ->.
  - by intros ->.
  - by intros path ->.
  - by intros ->.
Qed.

(** Fetching [{a: /x}], then [{b: /y}], then [{a: /z}]: after the second
    fetch both names resolve, and the third changes [a] only. *)
Lemma fetch_merges_accumulate_witness :
  device_image_info
    (after [(fetch_env, Fetch (example_fetch "first"));
            (fetch_env, Fetch (example_fetch "second"))] Console_init)
  = {["a" := "/x"; "b" := "/y"]}
  ∧ device_image_info
      (state_after (do_fetch example_provider (example_fetch "third"))
         (after [(fetch_env, Fetch (example_fetch "first"));
                 (fetch_env, Fetch (example_fetch "second"))] Console_init))
    !! "a" = Some "/z"
  ∧ device_image_info
      (state_after (do_fetch example_provider (example_fetch "third"))
         (after [(fetch_env, Fetch (example_fetch "first"));
                 (fetch_env, Fetch (example_fetch "second"))] Console_init))
    !! "b" = Some "/y".
Proof.
  split; [vm_compute; reflexivity|].
  destruct (fetch_merges_accumulate example_provider (example_fetch "third")
              (after [(fetch_env, Fetch (example_fetch "first"));
                      (fetch_env, Fetch (example_fetch "second"))]
                 Console_init)
              _ eq_refl eq_refl "a") as (Ha & _).
  destruct (fetch_merges_accumulate example_provider (example_fetch "third")
              (after [(fetch_env, Fetch (example_fetch "first"));
                      (fetch_env, Fetch (example_fetch "second"))]
                 Console_init)
              _ eq_refl eq_refl "b") as (_ & Hb & _).
  split.
  - apply Ha. vm_compute. reflexivity.
  - rewrite Hb; vm_compute; reflexivity.
Defined.

(** ** Flash: the default partition map *)

(** [(h + ".img").rsplit(".img", 1)[0]] is [h]. *)
Lemma rsplit1_head_img (h : string) : rsplit1_head ".img" (h +:+ ".img") = h.
Proof.
  unfold rsplit1_head.
  assert (before_last ".img" (h +:+ ".img") = Some h) as ->; [|done].
  induction h as [|a h IH]; [reflexivity|].
  change (String a h +:+ ".img") with (String a (h +:+ ".img")).
  simpl before_last. by rewrite IH.
Qed.

Section DefaultPartitionImage.

Variable images : gmap string string.

Lemma default_fold_sound (l : list string) (acc : gmap string string)
    (partition path : string) :
  foldl (add_default_image images) acc l !! partition = Some path →
  acc !! partition = Some path
  ∨ ∃ image, image ∈ l ∧ images !! image = Some path
             ∧ partition = rsplit1_head ".img" image.
Proof.
  revert acc. induction l as [|x l IH]; intros acc; simpl; [by left|].
  intros [Hacc|(image & Hin & Himg & ->)]%IH.
  - unfold add_default_image in Hacc.
    destruct (images !! x) as [p|] eqn:Hx; [|by left].
    destruct (decide (rsplit1_head ".img" x = partition)) as [<-|Hne].
    + rewrite lookup_insert_eq in Hacc. injection Hacc as ->.
      right. exists x. split_and!; [left|done|done].
    + rewrite lookup_insert_ne in Hacc by done. by left.
  - right. exists image. split_and!; [by right|done|done].
Qed.

Lemma default_fold_untouched (l : list string) (acc : gmap string string)
    (partition : string) :
  (∀ image, image ∈ l → rsplit1_head ".img" image ≠ partition) →
  foldl (add_default_image images) acc l !! partition = acc !! partition.
Proof.
  revert acc. induction l as [|x l IH]; intros acc Hl; simpl; [done|].
  rewrite IH by (intros image Hin; apply Hl; by right).
  unfold add_default_image. destruct (images !! x); [|done].
  rewrite lookup_insert_ne; [done|]. apply Hl. left.
Qed.

Lemma default_fold_last_wins (l1 l2 : list string)
    (acc : gmap string string) (image path : string) :
  images !! image = Some path →
  (∀ image', image' ∈ l2 →
     rsplit1_head ".img" image' ≠ rsplit1_head ".img" image) →
  foldl (add_default_image images) acc (l1 ++ image :: l2)
    !! rsplit1_head ".img" image
  = Some path.
Proof.
  intros Himg Hl2. rewrite foldl_app. simpl.
  rewrite default_fold_untouched by done.
  unfold add_default_image at 1. rewrite Himg. by rewrite lookup_insert_eq.
Qed.

End DefaultPartitionImage.

Lemma default_partition_image_cons (x : string) (l : list string)
    (images : gmap string string) :
  default_partition_image (x :: l) images =
  foldl (add_default_image images) (add_default_image images ∅ x) l.
Proof. reflexivity. Qed.

Lemma add_default_image_absent (images acc : gmap string string)
    (image : string) :
  images !! image = None → add_default_image images acc image = acc.
Proof. unfold add_default_image. by intros ->. Qed.

(** With [system.img] and [boot.img] fetched, the default map has the
    two partitions and nothing else, whatever [FULL_ZIPFILE] is. *)
Lemma default_partition_image_system_boot (FULL_ZIPFILE : string) :
  default_partition_image (_DEFAULT_FLASH_IMAGES FULL_ZIPFILE)
    {["system.img" := "/s"; "boot.img" := "/b"]}
  = {["system" := "/s"; "boot" := "/b"]}.
Proof.
  unfold _DEFAULT_FLASH_IMAGES.
  destruct (decide (FULL_ZIPFILE = "system.img")) as [->|Hsystem];
    [vm_compute; reflexivity|].
  destruct (decide (FULL_ZIPFILE = "boot.img")) as [->|Hboot];
    [vm_compute; reflexivity|].
  rewrite default_partition_image_cons, add_default_image_absent.
  - vm_compute. reflexivity.
  - rewrite lookup_insert_ne by done. by apply lookup_singleton_ne.
Qed.

(** C6.  When [--current] is absent or has no pairs, the partition map
    that [do_flash] builds comes from the default list and the fetched
    device images: every entry is the path of a fetched default image
    under that image's name cut before its last [.img]; each of the six
    [.img] names of the default list that was fetched is present under
    its name without the extension, with its path; and default images
    that were not fetched contribute nothing.  With [system.img] and
    [boot.img] fetched under [/s] and [/b], the map is exactly
    [system -> /s, boot -> /b]. *)
Theorem flash_default_partition_image
    (FULL_ZIPFILE : string) (args : flash_args)
    (images : gmap string string) :
  fl_current args = None ∨ fl_current args = Some [] →
  ∃ partition_image,
    partition_image_of FULL_ZIPFILE args images = Return partition_image
    ∧ (∀ partition path,
         partition_image !! partition = Some path →
         ∃ image, image ∈ _DEFAULT_FLASH_IMAGES FULL_ZIPFILE
                  ∧ images !! image = Some path
                  ∧ partition = rsplit1_head ".img" image)
    ∧ (∀ name path,
         name ∈ ["boot"; "cache"; "system"; "userdata"; "vbmeta"; "vendor"] →
         images !! (name +:+ ".img") = Some path →
         partition_image !! name = Some path)
    ∧ (∀ name, rsplit1_head ".img" (name +:+ ".img") = name)
    ∧ (images = {["system.img" := "/s"; "boot.img" := "/b"]} →
       partition_image = {["system" := "/s"; "boot" := "/b"]}).
Proof.
  intros Hcurrent.
  exists (default_partition_image (_DEFAULT_FLASH_IMAGES FULL_ZIPFILE) images).
  split_and!.
  - unfold partition_image_of. by destruct Hcurrent as [-> | ->].
  - intros partition path [Hempty|Himage]%default_fold_sound; [|done].
    by rewrite lookup_empty in Hempty.
  - intros name path Hname Himg.
    unfold default_partition_image, _DEFAULT_FLASH_IMAGES.
    repeat (apply elem_of_cons in Hname as [->|Hname]);
      [ apply (default_fold_last_wins images [FULL_ZIPFILE]
                 ["cache.img"; "system.img"; "userdata.img"; "vbmeta.img";
                  "vendor.img"] ∅ "boot.img" path Himg)
      | apply (default_fold_last_wins images [FULL_ZIPFILE; "boot.img"]
                 ["system.img"; "userdata.img"; "vbmeta.img"; "vendor.img"]
                 ∅ "cache.img" path Himg)
      | apply (default_fold_last_wins images
                 [FULL_ZIPFILE; "boot.img"; "cache.img"]
                 ["userdata.img"; "vbmeta.img"; "vendor.img"]
                 ∅ "system.img" path Himg)
      | apply (default_fold_last_wins images
                 [FULL_ZIPFILE; "boot.img"; "cache.img"; "system.img"]
                 ["vbmeta.img"; "vendor.img"] ∅ "userdata.img" path Himg)
      | apply (default_fold_last_wins images
                 [FULL_ZIPFILE; "boot.img"; "cache.img"; "system.img";
                  "userdata.img"]
                 ["vendor.img"] ∅ "vbmeta.img" path Himg)
      | apply (default_fold_last_wins images
                 [FULL_ZIPFILE; "boot.img"; "cache.img"; "system.img";
                  "userdata.img"; "vbmeta.img"]
                 [] ∅ "vendor.img" path Himg)
      | by apply elem_of_nil in Hname ];
      intros image' Hin;
      repeat (apply elem_of_cons in Hin as [->|Hin]);
      try (by apply elem_of_nil in Hin); vm_compute; discriminate.
  - apply rsplit1_head_img.
  - intros ->. apply default_partition_image_system_boot.
Qed.

Lemma flash_default_partition_image_witness :
  partition_image_of "full-zipfile" (example_flash None (Some "flasher"))
    {["system.img" := "/s"; "boot.img" := "/b"]}
  = Return {["system" := "/s"; "boot" := "/b"]}.
Proof.
  destruct (flash_default_partition_image "full-zipfile"
              (example_flash None (Some "flasher"))
              {["system.img" := "/s"; "boot.img" := "/b"]})
    as (partition_image & Hbuilt & _ & _ & _ & Hexact).
  - left. reflexivity.
  - rewrite Hbuilt, (Hexact eq_refl). reflexivity.
Defined.

(** When the flasher path is a fetched tool, [--current] is given without
    pairs and the flashing tool does not fail, [do_flash] hands the
    default partition map to [Flash] for every device and then waits for
    every device. *)
Lemma for_each_call_flasher {X} (flasher_result : event → outcome unit)
    (f : X → event) (l : list X) (c : Console) :
  (∀ e, flasher_result e = Return tt) →
  for_each l (λ x, call_flasher flasher_result (f x)) c
  = (Return tt, c, map f l).
Proof.
  intros Hok. induction l as [|x l IH]; [reflexivity|].
  simpl. unfold bind at 1.
  replace (call_flasher flasher_result (f x) c) with (Return tt, c, [f x])
    by (unfold call_flasher, bind, emit, lift; by rewrite Hok).
  by rewrite IH.
Qed.

Lemma do_flash_flashes_default_map
    (FULL_ZIPFILE : string) (flasher_result : event → outcome unit)
    (args : flash_args) (c : Console)
    (tools_map : gmap string string) (name path : string) :
  (∀ e, flasher_result e = Return tt) →
  tools_info c = Some tools_map →
  fl_flasher_path args = Some name →
  tools_map !! name = Some path →
  fl_current args = Some [] →
  ∃ serials,
    do_flash FULL_ZIPFILE flasher_result args c
    = (Return None, c,
       map (λ serial, BuildFlasher serial (Some path)) serials
       ++ map (λ serial,
                 Flash serial
                   (default_partition_image
                      (_DEFAULT_FLASH_IMAGES FULL_ZIPFILE)
                      (device_image_info c))) serials
       ++ map WaitForDevice serials).
Proof.
  intros Hok Htools Hname Hpath Hcurrent.
  unfold do_flash. rewrite bind_get, Htools, Hname, Hpath, bind_ret.
  eexists. unfold bind at 1. rewrite for_each_call_flasher by done.
  unfold partition_image_of. rewrite Hcurrent.
  unfold bind at 1, lift at 1. unfold bind at 1, flash_one.
  rewrite Hcurrent, for_each_call_flasher by done.
  unfold bind at 1. rewrite for_each_call_flasher by done.
  simpl. by rewrite app_nil_r.
Qed.

(** ** Properties that every command keeps *)

Section Preserves.

Context {A B : Type} (P : Console → Prop).

Lemma preserves_ret (a : A) : preserves P (ret a).
Proof. by intros c Hc. Qed.

Lemma preserves_raise (k : exn_class) (msg : string) :
  preserves P (raise (A := A) k msg).
Proof. by intros c Hc. Qed.

Lemma preserves_lift (o : outcome A) : preserves P (lift o).
Proof. by intros c Hc. Qed.

Lemma preserves_liftE (m : E A) : preserves P (liftE m).
Proof. by intros c Hc. Qed.

Lemma preserves_emit (e : event) : preserves P (emit e).
Proof. by intros c Hc. Qed.

Lemma preserves_put (c' : Console) : P c' → preserves P (put c').
Proof. by intros Hc' c Hc. Qed.

Lemma preserves_bind (m : M A) (f : A → M B) :
  preserves P m → (∀ a, preserves P (f a)) → preserves P (bind m f).
Proof.
  intros Hm Hf c Hc. specialize (Hm c Hc).
  unfold state_after, bind in *.
  destruct (m c) as [[[a|e] c'] ev]; simpl in *; [|done].
  specialize (Hf a c' Hm). unfold state_after in Hf.
  by destruct (f a c') as [[r c''] ev'].
Qed.

Lemma preserves_get (f : Console → M B) :
  (∀ c, P c → preserves P (f c)) → preserves P (bind get f).
Proof.
  intros Hf c Hc. specialize (Hf c Hc c Hc).
  unfold state_after, bind, get in *. simpl.
  by destruct (f c c) as [[r c''] ev'].
Qed.

End Preserves.

Lemma preserves_for_each {X} (P : Console → Prop) (l : list X)
    (body : X → M unit) :
  (∀ x, preserves P (body x)) → preserves P (for_each l body).
Proof.
  intros Hbody. induction l as [|x l IH]; simpl.
  - apply preserves_ret.
  - apply preserves_bind; [apply Hbody | intros _; exact IH].
Qed.

Ltac preserve_step :=
  lazymatch goal with
  | |- preserves _ (bind get _) => apply preserves_get; intros ? ?
  | |- preserves _ (bind _ _) => apply preserves_bind; [|intros ?]
  | |- preserves _ (ret _) => apply preserves_ret
  | |- preserves _ (raise _ _) => apply preserves_raise
  | |- preserves _ (emit _) => apply preserves_emit
  | |- preserves _ (lift _) => apply preserves_lift
  | |- preserves _ (liftE _) => apply preserves_liftE
  | |- preserves _ (put _) =>
      apply preserves_put; simpl; first [assumption | done]
  | |- preserves _ (for_each _ _) => apply preserves_for_each; intros ?
  | |- preserves _ (int _ _) => unfold int
  | |- preserves _ (call_flasher _ _) => unfold call_flasher
  | |- preserves _ (flash_one _ _ _ _ _) => unfold flash_one
  | |- preserves _ (gsispl_at _ _ _ _ _ _ _) => unfold gsispl_at
  | |- preserves _ (match ?x with _ => _ end) => destruct x
  end.

Ltac preserve := repeat preserve_step.

(** No command assigns [None] to [tools_info]. *)
Lemma handle_keeps_tools_info (env : Env) (cmd : command) :
  preserves (λ c, tools_info c ≠ None) (handle env cmd).
Proof.
  destruct cmd as [a|a|a|a|a|a]; simpl;
    unfold do_build, do_config, do_device, do_fetch, do_flash, do_gsispl;
    preserve.
Qed.

Lemma reachable_tools_info (c : Console) :
  reachable c → ∃ tools_map, tools_info c = Some tools_map.
Proof.
  intros Hc.
  assert (tools_info c ≠ None) as Hne.
  { induction Hc as [|c env cmd _ IH]; [done|].
    by apply handle_keeps_tools_info. }
  destruct (tools_info c) as [tools_map|]; [by exists tools_map|done].
Qed.

(** ** Flash: the flasher path *)

(** C9.  In every console that a session of commands can produce,
    [tools_info] is a dictionary, so [do_flash] looks [--flasher_path] up
    in it first.  Without the argument, or with a name that is not a key
    of the map, the handler raises [KeyError] with the console unchanged
    and nothing done: no call into the flashing tool, no output.  With a
    key of the map, the first thing the handler does is create a flasher
    with the path stored under the key. *)
Theorem flash_looks_up_flasher_path
    (FULL_ZIPFILE : string) (flasher_result : event → outcome unit)
    (args : flash_args) (c : Console) :
  reachable c →
  ∃ tools_map,
    tools_info c = Some tools_map
    ∧ match fl_flasher_path args with
      | None =>
          do_flash FULL_ZIPFILE flasher_result args c
          = (Raise (Exc KeyError "None"), c, [])
      | Some name =>
          match tools_map !! name with
          | None =>
              do_flash FULL_ZIPFILE flasher_result args c
              = (Raise (Exc KeyError ("'" +:+ name +:+ "'")), c, [])
          | Some path =>
              ∃ serial rest,
                events_of (do_flash FULL_ZIPFILE flasher_result args) c
                = BuildFlasher serial (Some path) :: rest
          end
      end.
Proof.
  intros [tools_map Htools]%reachable_tools_info.
  exists tools_map. split; [done|].
  unfold events_of, do_flash. rewrite bind_get, Htools.
  destruct (fl_flasher_path args) as [name|]; [|apply bind_raise].
  destruct (tools_map !! name) as [path|]; [|apply bind_raise].
  rewrite bind_ret.
  assert (∃ serial serials,
            match fl_serial args with
            | EmptyString =>
                match _serials c with
                | [] => [EmptyString]
                | _ :: _ => _serials c
                end
            | String _ _ as serial => [serial]
            end = serial :: serials) as (serial & serials & ->).
  { destruct (fl_serial args); [destruct (_serials c)|]; by eexists _, _. }
  exists serial.
  match goal with
  | |- context [(bind ?m ?f c).2] =>
      destruct (bind_events_prefix m f c) as [rest1 Hrest1]
  end.
  unfold events_of in Hrest1. rewrite Hrest1. simpl for_each.
  match goal with
  | |- context [(bind ?m ?f c).2] =>
      destruct (bind_events_prefix m f c) as [rest2 Hrest2]
  end.
  unfold events_of in Hrest2. rewrite Hrest2. unfold call_flasher.
  match goal with
  | |- context [(bind ?m ?f c).2] =>
      destruct (bind_events_prefix m f c) as [rest3 Hrest3]
  end.
  unfold events_of in Hrest3. rewrite Hrest3. simpl. by eexists.
Qed.

Lemma flash_looks_up_flasher_path_witness :
  do_flash "full-zipfile" (λ _, Return tt) (example_flash None None)
           Console_init
  = (Raise (Exc KeyError "None"), Console_init, [])
  ∧ do_flash "full-zipfile" (λ _, Return tt)
             (example_flash None (Some "fastboot")) Console_init
    = (Raise (Exc KeyError "'fastboot'"), Console_init, []).
Proof.
  split.
  - destruct (flash_looks_up_flasher_path "full-zipfile" (λ _, Return tt)
                (example_flash None None) Console_init reachable_init)
      as (tools_map & _ & Hraise).
    exact Hraise.
  - destruct (flash_looks_up_flasher_path "full-zipfile" (λ _, Return tt)
                (example_flash None (Some "fastboot")) Console_init
                reachable_init)
      as (tools_map & Htools & Hraise).
    injection Htools as <-. exact Hraise.
Defined.

(** ** [gsispl] *)

(** C8.  When [--version] is not a date that [strptime] accepts in the
    format [%Y-%m-%d], [do_gsispl] prints one message and returns, and
    the console, with all its maps, is what it was. *)
Theorem gsispl_rejects_malformed_version
    (os_path_isfile : string → bool)
    (os_path_abspath os_path_dirname : string → string)
    (os_path_join : string → string → string)
    (strptime_Ymd : string → option (Z * Z * Z))
    (ExecuteOneShellCommand : string → string * string * Z)
    (args : gsispl_args) (c : Console) :
  strptime_Ymd (gs_version args) = None →
  ∃ message,
    do_gsispl os_path_isfile os_path_abspath os_path_dirname os_path_join
              strptime_Ymd ExecuteOneShellCommand args c
    = (Return None, c, [Print message])
    ∧ message ∈ ["Cannot find system image in given path";
                 "Cannot find system image.";
                 "version ID must be given.";
                 "version ID should be YYYY-mm-dd format."].
Proof.
  intros Hbad. unfold do_gsispl. rewrite bind_get.
  assert (∀ gsi_path,
            ∃ message,
              gsispl_at os_path_abspath os_path_dirname os_path_join
                        strptime_Ymd ExecuteOneShellCommand args gsi_path c
              = (Return None, c, [Print message])
              ∧ message ∈ ["version ID must be given.";
                           "version ID should be YYYY-mm-dd format."])
    as Hat.
  { intros gsi_path. unfold gsispl_at. rewrite Hbad.
    destruct (gs_version args); eexists; (split; [reflexivity|]);
      [left | right; left]. }
  assert (∀ message : string,
            message ∈ ["version ID must be given.";
                       "version ID should be YYYY-mm-dd format."] →
            message ∈ ["Cannot find system image in given path";
                       "Cannot find system image.";
                       "version ID must be given.";
                       "version ID should be YYYY-mm-dd format."])
    as Hweaken.
  { intros message Hm. by do 2 right. }
  destruct (gs_gsi args) as [[|a gsi]|].
  - destruct (device_image_info c !! "system.img") as [gsi_path|].
    + destruct (Hat gsi_path) as (message & -> & Hm). eauto.
    + eexists. split; [reflexivity|]. right; left.
  - destruct (os_path_isfile (String a gsi)).
    + destruct (Hat (String a gsi)) as (message & -> & Hm). eauto.
    + eexists. split; [reflexivity|]. left.
  - destruct (device_image_info c !! "system.img") as [gsi_path|].
    + destruct (Hat gsi_path) as (message & -> & Hm). eauto.
    + eexists. split; [reflexivity|]. right; left.
Qed.

Lemma gsispl_rejects_malformed_version_witness :
  do_gsispl (λ _, true) (λ p, p) (λ _, "/images")
            (λ a b, a +:+ "/" +:+ b) ymd_date (λ _, ("", "", 0))
            {| gs_gsi := None; gs_version := "2020-13-40" |}
            console_with_system_img
  = (Return None, console_with_system_img,
     [Print "version ID should be YYYY-mm-dd format."]).
Proof.
  destruct (gsispl_rejects_malformed_version
              (λ _, true) (λ p, p) (λ _, "/images")
              (λ a b, a +:+ "/" +:+ b) ymd_date (λ _, ("", "", 0))
              {| gs_gsi := None; gs_version := "2020-13-40" |}
              console_with_system_img)
    as (message & Hrun & _).
  - vm_compute. reflexivity.
  - replace message with "version ID should be YYYY-mm-dd format." in Hrun;
      [exact Hrun|].
    vm_compute in Hrun. by injection Hrun.
Defined.

(** ** Dispatch *)

Section DispatchProperties.

Variable Cmd_onecmd : string → M (option bool).

Lemma onecmd_echo (line : string) (c : Console) :
  onecmd Cmd_onecmd line c =
  match Cmd_onecmd line c with
  | (Return r, c', ev) => (Return r, c', command_echo line ++ ev)
  | (Raise e, c', ev) =>
      (Return None, c',
       command_echo line ++ ev ++ [OutWrite (error_line e +:+ newline)])
  end.
Proof.
  unfold onecmd, try_except, bind, _Print, emit, ret, command_echo.
  destruct line; simpl;
    destruct (Cmd_onecmd _ c) as [[[r|e] c'] ev]; simpl;
    by rewrite ?app_nil_r.
Qed.

(** No exception leaves [onecmd]. *)
Lemma onecmd_returns (line : string) (c : Console) :
  ∃ r, result_of (onecmd Cmd_onecmd line) c = Return r.
Proof.
  unfold result_of. rewrite onecmd_echo.
  destruct (Cmd_onecmd line c) as [[[r|e] c'] ev]; by eexists.
Qed.

Lemma replay_returns (commands : list string) (c : Console) :
  result_of (replay Cmd_onecmd commands) c = Return tt.
Proof.
  revert c. induction commands as [|line commands IH]; intros c;
    [reflexivity|].
  unfold replay, result_of in *. simpl. unfold bind at 1.
  destruct (onecmd_returns line c) as [r Hr]. unfold result_of in Hr.
  unfold bind at 1.
  destruct (onecmd Cmd_onecmd line c) as [[o c'] ev]. simpl in Hr.
  rewrite Hr. simpl. specialize (IH c').
  destruct (for_each commands _ c') as [[o' c''] ev']. simpl in *.
  by rewrite IH.
Qed.

Variable c : Console.
Variable lines : list string.

Lemma batch_inv_init : batch_inv Cmd_onecmd c lines batch_init.
Proof.
  unfold batch_inv, batch_init. simpl. split_and!; [lia| |done].
  intros i out Hi. by rewrite lookup_nil in Hi.
Qed.

Lemma batch_inv_step (b b' : batch) :
  batch_inv Cmd_onecmd c lines b →
  batch_step Cmd_onecmd c lines b b' →
  batch_inv Cmd_onecmd c lines b'.
Proof.
  intros (Hlen & Hout & Hpc) Hstep. unfold batch_inv.
  destruct Hstep as [ps i line Hline | ps | ps p i line Hrun Hline
                    | ps i out Hterm | ps]; simpl in *.
  - apply lookup_lt_Some in Hline. subst i. split_and!.
    + rewrite length_app. simpl. lia.
    + intros j out [Hj|[_ Hj]]%lookup_app_Some; [by apply Hout|].
      destruct (j - length ps)%nat; simpl in Hj; [discriminate|].
      by rewrite lookup_nil in Hj.
    + rewrite length_app. simpl. lia.
  - split_and!; try done; try lia; intros j Hj; lia.
  - split_and!.
    + by rewrite length_insert.
    + intros j out.
      destruct (decide (i = j)) as [->|Hne].
      * rewrite list_lookup_insert_eq by (by eapply lookup_lt_Some).
        intros [= <-]. by exists line.
      * rewrite list_lookup_insert_ne by done. apply Hout.
    + destruct p as [j|j|]; rewrite length_insert; [done| |].
      * destruct Hpc as (Hl & Hj & Hdone). split_and!; [done|done|].
        intros j' Hj'. destruct (decide (i = j')) as [->|Hne].
        -- rewrite list_lookup_insert_eq by (by eapply lookup_lt_Some).
           by eexists.
        -- rewrite list_lookup_insert_ne by done. by apply Hdone.
      * destruct Hpc as (Hl & Hdone). split; [done|].
        intros j' Hj'. destruct (decide (i = j')) as [->|Hne].
        -- rewrite list_lookup_insert_eq by (by eapply lookup_lt_Some).
           by eexists.
        -- rewrite list_lookup_insert_ne by done. by apply Hdone.
  - destruct Hpc as (Hl & Hi & Hdone). split_and!; try done.
    + apply lookup_lt_Some in Hterm. lia.
    + intros j Hj. destruct (decide (j = i)) as [->|Hne]; [by eexists|].
      apply Hdone. lia.
  - destruct Hpc as (Hl & Hi & Hdone). split_and!; try done.
    intros j Hj. apply Hdone. lia.
Qed.

Lemma batch_inv_reachable (b : batch) :
  rtc (batch_step Cmd_onecmd c lines) batch_init b →
  batch_inv Cmd_onecmd c lines b.
Proof.
  intros Hrun.
  eapply (rtc_ind_r (batch_inv Cmd_onecmd c lines) batch_init);
    [apply batch_inv_init | | exact Hrun].
  intros b' b'' _ Hstep IH. by eapply batch_inv_step.
Qed.

(** When the dispatcher returns from a batch, every line has been run
    to its end by its own process. *)
Lemma batch_returned_all_terminated (b : batch) :
  rtc (batch_step Cmd_onecmd c lines) batch_init b →
  pc b = Returned →
  jobs b = map (λ line, Terminated (child_output Cmd_onecmd c line)) lines.
Proof.
  intros (Hlen & Hout & Hpc)%batch_inv_reachable Hret.
  rewrite Hret in Hpc. destruct Hpc as [Hl Hdone].
  apply list_eq. intros i. rewrite list_lookup_fmap.
  destruct (decide (i < length lines)%nat) as [Hi|Hi].
  - destruct (Hdone i Hi) as [out Hi'].
    destruct (Hout i out Hi') as (line & Hline & ->).
    by rewrite Hi', Hline.
  - rewrite !lookup_ge_None_2; [done|lia|lia].
Qed.

(** The dispatcher can always get through a batch: start every
    process, let each run, join each. *)
Lemma batch_spawn_all (k : nat) :
  (k ≤ length lines)%nat →
  rtc (batch_step Cmd_onecmd c lines) batch_init
      {| jobs := replicate k Running; pc := Spawning k |}.
Proof.
  induction k as [|k IH]; intros Hk; [apply rtc_refl|].
  eapply rtc_r; [apply IH; lia|].
  destruct (lookup_lt_is_Some_2 lines k) as [line Hline]; [lia|].
  rewrite replicate_S_end. by eapply step_start.
Qed.

Lemma batch_children_run (k : nat) :
  (k ≤ length lines)%nat →
  rtc (batch_step Cmd_onecmd c lines)
      {| jobs := replicate (length lines) Running; pc := Joining 0 |}
      {| jobs :=
           map (λ line, Terminated (child_output Cmd_onecmd c line))
               (take k lines)
           ++ replicate (length lines - k) Running;
         pc := Joining 0 |}.
Proof.
  induction k as [|k IH]; intros Hk.
  - rewrite Nat.sub_0_r. apply rtc_refl.
  - eapply rtc_r; [apply IH; lia|].
    destruct (lookup_lt_is_Some_2 lines k) as [line Hline]; [lia|].
    set (done := map (λ line, Terminated (child_output Cmd_onecmd c line))
                     (take k lines)).
    assert (length done = k) as Hdone.
    { unfold done. rewrite length_map, length_take. lia. }
    replace (map (λ line, Terminated (child_output Cmd_onecmd c line))
                 (take (S k) lines)
             ++ replicate (length lines - S k) Running)
      with (<[k := Terminated (child_output Cmd_onecmd c line)]>
              (done ++ replicate (length lines - k) Running)).
    + eapply step_child; [|exact Hline].
      rewrite lookup_app_r by lia. rewrite Hdone, Nat.sub_diag.
      apply lookup_replicate_2. lia.
    + rewrite insert_app_r_alt by lia. rewrite Hdone, Nat.sub_diag.
      replace (length lines - k)%nat with (S (length lines - S k)) by lia.
      simpl. rewrite (take_S_r lines k line Hline), map_app.
      by rewrite <- app_assoc.
Qed.

Lemma batch_join_all (k : nat) :
  (k ≤ length lines)%nat →
  rtc (batch_step Cmd_onecmd c lines)
      {| jobs := map (λ line, Terminated (child_output Cmd_onecmd c line))
                     lines;
         pc := Joining 0 |}
      {| jobs := map (λ line, Terminated (child_output Cmd_onecmd c line))
                     lines;
         pc := Joining k |}.
Proof.
  induction k as [|k IH]; intros Hk; [apply rtc_refl|].
  eapply rtc_r; [apply IH; lia|].
  destruct (lookup_lt_is_Some_2 lines k) as [line Hline]; [lia|].
  eapply step_join. rewrite list_lookup_fmap, Hline. reflexivity.
Qed.

Lemma batch_can_return :
  ∃ b, rtc (batch_step Cmd_onecmd c lines) batch_init b ∧ pc b = Returned.
Proof.
  eexists {| jobs := _; pc := Returned |}. split; [|reflexivity].
  etrans; [apply (batch_spawn_all (length lines)); lia|].
  eapply rtc_l; [apply step_started_all|].
  etrans; [apply (batch_children_run (length lines)); lia|].
  rewrite firstn_all, Nat.sub_diag, app_nil_r.
  etrans; [apply (batch_join_all (length lines)); lia|].
  apply rtc_once.
  rewrite <- (length_map
                (λ line, Terminated (child_output Cmd_onecmd c line)) lines)
    at 1.
  apply step_joined_all.
Qed.

End DispatchProperties.

(** C7.  When the handler of a command line raises an exception,
    [onecmd] catches it, writes the one line [<class name>: <message>]
    to the output file after what the handler had already written, and
    returns [None], so no exception reaches the caller and a replayed
    script goes on with its next command.  For a batch of three lines
    whose second handler raises: whenever the dispatcher has returned,
    all three processes have terminated, the first and the third with
    the complete output of their handlers and the second with its error
    line; and the dispatcher can always get to that point.  The error
    line is [error_line e], that is [class_name (exc_class e)], a colon
    and a space, and [exc_message e]. *)
Theorem dispatch_isolates_failures
    (Cmd_onecmd : string → M (option bool)) (c : Console)
    (line1 line2 line3 : string)
    (r1 r3 : option bool) (c1 c2 c3 : Console) (ev1 ev2 ev3 : list event)
    (e : exception) :
  Cmd_onecmd line1 c = (Return r1, c1, ev1) →
  Cmd_onecmd line2 c = (Raise e, c2, ev2) →
  Cmd_onecmd line3 c = (Return r3, c3, ev3) →
  onecmd Cmd_onecmd line2 c =
    (Return None, c2,
     command_echo line2 ++ ev2
     ++ [OutWrite (error_line e +:+ newline)])
  ∧ (∀ commands c', result_of (replay Cmd_onecmd commands) c' = Return tt)
  ∧ (∀ b, rtc (batch_step Cmd_onecmd c [line1; line2; line3]) batch_init b →
          pc b = Returned →
          jobs b =
            [Terminated (command_echo line1 ++ ev1);
             Terminated
               (command_echo line2 ++ ev2
                ++ [OutWrite (error_line e +:+ newline)]);
             Terminated (command_echo line3 ++ ev3)])
  ∧ (∃ b, rtc (batch_step Cmd_onecmd c [line1; line2; line3]) batch_init b
          ∧ pc b = Returned).
Proof.
  intros H1 H2 H3. split_and!.
  - by rewrite onecmd_echo, H2.
  - apply replay_returns.
  - intros b Hrun Hret.
    rewrite (batch_returned_all_terminated _ _ _ _ Hrun Hret). simpl.
    unfold child_output. rewrite !onecmd_echo, H1, H2, H3. reflexivity.
  - apply batch_can_return.
Qed.

Lemma dispatch_isolates_failures_witness :
  onecmd example_Cmd_onecmd "fetch --type=gcs" Console_init =
    (Return None, Console_init,
     [Print "Command: fetch --type=gcs";
      OutWrite ("error: [Errno 111] Connection refused" +:+ newline)])
  ∧ ∀ b, rtc (batch_step example_Cmd_onecmd Console_init
                ["info"; "fetch --type=gcs"; "info"]) batch_init b →
         pc b = Returned →
         jobs b =
           [Terminated [Print "Command: info"; Print "device image: {}"];
            Terminated
              [Print "Command: fetch --type=gcs";
               OutWrite ("error: [Errno 111] Connection refused" +:+ newline)];
            Terminated [Print "Command: info"; Print "device image: {}"]].
Proof.
  destruct (dispatch_isolates_failures example_Cmd_onecmd Console_init
              "info" "fetch --type=gcs" "info"
              None None Console_init Console_init Console_init
              [Print "device image: {}"] [] [Print "device image: {}"]
              (Exc SocketError "[Errno 111] Connection refused")
              eq_refl eq_refl eq_refl)
    as (Hone & _ & Hbatch & _).
  split; [exact Hone | exact Hbatch].
Defined.

(** ** The first piece of a split *)

Lemma split_on_head (sep : ascii) (s : string) :
  ∃ piece rest,
    split_on sep s = piece :: rest
    ∧ has_char sep piece = false
    ∧ (s = piece ∨ ∃ s', s = piece +:+ String sep s').
Proof.
  induction s as [|a s (piece & rest & Hsplit & Hfree & Hshape)]; simpl.
  - exists EmptyString, []. split_and!; [done|done|by left].
  - destruct (Ascii.eqb_spec a sep) as [->|Hne].
    + exists EmptyString, (split_on sep s).
      split_and!; [done|done|]. right. by exists s.
    + rewrite Hsplit. exists (String a piece), rest.
      split_and!; [done| |].
      * simpl. rewrite Hfree. destruct (Ascii.eqb_spec a sep); done.
      * destruct Hshape as [->|[s' ->]]; [by left|]. right. by exists s'.
Qed.

(** [s.split(sep)[0]] is the part of [s] before its first [sep], and all
    of [s] when [sep] does not occur. *)
Lemma split_head_prefix (sep : ascii) (s : string) :
  has_char sep (split_head sep s) = false
  ∧ (s = split_head sep s ∨ ∃ s', s = split_head sep s +:+ String sep s').
Proof.
  unfold split_head.
  destruct (split_on_head sep s) as (piece & rest & -> & Hfree & Hshape).
  done.
Qed.

(** ** [LeaseJob] *)

Module LeaseJobProperties.
Import VtiEndpointClient.

Lemma is_str_false (s : string) (v : json) :
  v ≠ JStr s → is_str s v = false.
Proof.
  intros Hne. destruct v as [| | |s'| |]; simpl; try done.
  destruct (String.eqb_spec s s') as [->|]; done.
Qed.

Section Client.

Variable _url : string.
Variable requests_post : string → string → outcome Response.
Variable dumps_hostname : string → string.
Variable json_loads : string → option json.
Variable py_str : json → string.

Lemma LeaseJob_answered (hostname : string) (m : gmap string json) :
  answered _url requests_post dumps_hostname json_loads hostname m →
  ∃ response,
    LeaseJob _url requests_post dumps_hostname json_loads py_str hostname =
    cbind (cemit (Post (_url +:+ "job_queue/v1/get")
                       (dumps_hostname hostname)))
      (λ _,
         match m !! "return_code" with
         | Some code =>
             if negb (is_str "SUCCESS" code) then
               cbind (cemit (Printed ("LeaseJob error: " +:+
                                      py_str (JObj m))))
                     (λ _, cret no_job)
             else
               match m !! "jobs" with
               | Some jobs => first_job jobs
               | None =>
                   cbind (cemit (Printed
                            ("LeaseJob jobs not found in response json "
                             +:+ text response)))
                         (λ _, cret no_job)
               end
         | None =>
             match m !! "jobs" with
             | Some jobs => first_job jobs
             | None =>
                 cbind (cemit (Printed
                          ("LeaseJob jobs not found in response json "
                           +:+ text response)))
                       (λ _, cret no_job)
             end
         end).
Proof.
  intros (Hhost & response & Hpost & Hok & Hjson). exists response.
  unfold LeaseJob.
  destruct hostname as [|a hostname]; [done|].
  rewrite Hpost. unfold cbind at 1 2. simpl.
  rewrite decide_False by (by intros []). rewrite Hjson. simpl.
  destruct (m !! "return_code") as [code|] eqn:Hcode; simpl.
  - destruct (is_str "SUCCESS" code); simpl; [|done].
    destruct (m !! "jobs") as [jobs|] eqn:Hjobs; simpl; [|done].
    by destruct (first_job jobs) as [r ev].
  - destruct (m !! "jobs") as [jobs|] eqn:Hjobs; simpl; [|done].
    by destruct (first_job jobs) as [r ev].
Qed.

Lemma first_job_first (job : json) (rest : list json)
    (fields : gmap string json) (test_name : string) :
  job = JObj fields →
  fields !! "test_name" = Some (JStr test_name) →
  first_job (JArr (job :: rest))
  = (Return (Some (split_head "/" test_name), job), []).
Proof.
  intros -> Hname. unfold first_job. simpl.
  unfold cbind, clift. simpl. by rewrite Hname.
Qed.

(** C10.  [LeaseJob] returns [(None, {})] for an empty host name,
    for a response whose status is not [ok], for an answer that
    carries a [return_code] other than ["SUCCESS"], and for an answer
    without [jobs] or with an empty [jobs] list; for an answer
    without such a [return_code] whose [jobs] list starts with a job
    that has a [test_name], it returns the part of that name before
    its first slash together with that job. *)
Theorem LeaseJob_returns (hostname : string) :
  (hostname = EmptyString →
     LeaseJob _url requests_post dumps_hostname json_loads py_str hostname
     = (Return no_job, []))
  ∧ (∀ response,
       hostname ≠ EmptyString →
       requests_post (_url +:+ "job_queue/v1/get")
                     (dumps_hostname hostname) = Return response →
       status_code response ≠ codes_ok →
       (LeaseJob _url requests_post dumps_hostname json_loads py_str
                 hostname).1 = Return no_job)
  ∧ (∀ m code,
       answered _url requests_post dumps_hostname json_loads hostname m →
       m !! "return_code" = Some code →
       code ≠ JStr "SUCCESS" →
       (LeaseJob _url requests_post dumps_hostname json_loads py_str
                 hostname).1 = Return no_job)
  ∧ (∀ m,
       answered _url requests_post dumps_hostname json_loads hostname m →
       m !! "jobs" = None ∨ m !! "jobs" = Some (JArr []) →
       (LeaseJob _url requests_post dumps_hostname json_loads py_str
                 hostname).1 = Return no_job)
  ∧ (∀ m job rest fields test_name,
       answered _url requests_post dumps_hostname json_loads hostname m →
       m !! "return_code" = None
       ∨ m !! "return_code" = Some (JStr "SUCCESS") →
       m !! "jobs" = Some (JArr (job :: rest)) →
       job = JObj fields →
       fields !! "test_name" = Some (JStr test_name) →
       (LeaseJob _url requests_post dumps_hostname json_loads py_str
                 hostname).1
       = Return (Some (split_head "/" test_name), job)
       ∧ has_char "/" (split_head "/" test_name) = false
       ∧ (test_name = split_head "/" test_name
          ∨ ∃ tail, test_name
                    = split_head "/" test_name +:+ String "/" tail)).
Proof.
  split_and!.
  - by intros ->.
  - intros response Hhost Hpost Hstatus. unfold LeaseJob.
    destruct hostname as [|a h]; [done|].
    rewrite Hpost. unfold cbind at 1 2. simpl.
    by rewrite decide_True by done.
  - intros m code Hans Hcode Hne.
    destruct (LeaseJob_answered hostname m Hans) as [response ->].
    rewrite Hcode, (is_str_false _ _ Hne). reflexivity.
  - intros m Hans Hjobs.
    destruct (LeaseJob_answered hostname m Hans) as [response ->].
    destruct (m !! "return_code") as [code|];
      [destruct (is_str "SUCCESS" code); [|reflexivity]|];
      destruct Hjobs as [-> | ->]; reflexivity.
  - intros m job rest fields test_name Hans Hcode Hjobs Hjob Hname.
    destruct (LeaseJob_answered hostname m Hans) as [response ->].
    split; [|apply split_head_prefix].
    rewrite Hjobs, (first_job_first job rest fields test_name Hjob Hname).
    destruct Hcode as [-> | ->]; reflexivity.
Qed.

End Client.

Lemma LeaseJob_returns_witness :
  (LeaseJob "https://vti.example/" example_post (λ h, h) example_loads
            (λ _, "") "host0").1
  = Return (Some "vts", example_job).
Proof.
  destruct (LeaseJob_returns "https://vti.example/" example_post (λ h, h)
              example_loads (λ _, "") "host0")
    as (_ & _ & _ & _ & Hjob).
  destruct (Hjob example_answer example_job []
              {["test_name" := JStr "vts/vts-serving-staging"]}
              "vts/vts-serving-staging") as [Hret _].
  - split; [done|]. eexists. split_and!; reflexivity.
  - right. reflexivity.
  - reflexivity.
  - reflexivity.
  - reflexivity.
  - exact Hret.
Defined.

End LeaseJobProperties.

(** * Further properties of the handlers *)

(** ** The session tables over a whole session *)

Ltac preserve_step_with tac :=
  lazymatch goal with
  | |- preserves _ (bind get _) => apply preserves_get; intros ? ?
  | |- preserves _ (bind _ _) => apply preserves_bind; [|intros ?]
  | |- preserves _ (ret _) => apply preserves_ret
  | |- preserves _ (raise _ _) => apply preserves_raise
  | |- preserves _ (emit _) => apply preserves_emit
  | |- preserves _ (lift _) => apply preserves_lift
  | |- preserves _ (liftE _) => apply preserves_liftE
  | |- preserves _ (put _) => apply preserves_put; tac
  | |- preserves _ (for_each _ _) => apply preserves_for_each; intros ?
  | |- preserves _ (int _ _) => unfold int
  | |- preserves _ (call_flasher _ _) => unfold call_flasher
  | |- preserves _ (flash_one _ _ _ _ _) => unfold flash_one
  | |- preserves _ (gsispl_at _ _ _ _ _ _ _) => unfold gsispl_at
  | |- preserves _ (match ?x with _ => _ end) => destruct x eqn:?
  end.

Lemma handle_keeps_ids (env : Env) (cmd : command) (k : session_kind)
    (ids : gset Z) :
  preserves (λ c, ids ⊆ dom (table k c)) (handle env cmd).
Proof.
  destruct cmd as [a|a|a|a|a|a]; simpl;
    unfold do_build, do_config, do_device, do_fetch, do_flash, do_gsispl;
    repeat preserve_step_with
      ltac:(destruct k; simpl in *; try assumption;
            rewrite dom_insert_L; by apply union_subseteq_r').
Qed.

(** X1.  No command takes a session out of its table: the ids registered
    before a command (build or config sessions) are still registered
    after it, whether the command returned or raised. *)
Theorem session_ids_are_never_removed
    (env : Env) (cmd : command) (k : session_kind) (c : Console) :
  dom (table k c) ⊆ dom (table k (state_after (handle env cmd) c)).
Proof. by apply (handle_keeps_ids env cmd k (dom (table k c)) c). Qed.

Lemma sessions_ok_frame (c c' : Console) :
  sessions_ok c →
  build_thread c' = build_thread c →
  schedule_thread c' = schedule_thread c →
  update_thread c' = update_thread c →
  sessions_ok c'.
Proof.
  intros [Htables Hdevice] Hb Hs Hu. split.
  - intros [] id t; simpl; rewrite ?Hb, ?Hs;
      [apply (Htables BuildSession) | apply (Htables ConfigSession)].
  - intros t. rewrite Hu. apply Hdevice.
Qed.

Lemma sessions_ok_insert (k : session_kind) (c : Console) (id : Z)
    (t : Thread) :
  sessions_ok c → session_ok k t →
  sessions_ok (with_table k c (<[id := t]> (table k c))).
Proof.
  intros [Htables Hdevice] Ht. split.
  - intros k' id' t'. destruct k, k'; simpl;
      try (by apply (Htables BuildSession));
      try (by apply (Htables ConfigSession));
      (intros [[<- <-]|[_ Hold]]%lookup_insert_Some; [done|]);
      [by apply (Htables BuildSession) in Hold
      |by apply (Htables ConfigSession) in Hold].
  - destruct k; apply Hdevice.
Qed.

Lemma sessions_ok_update_thread (c : Console) (t : Thread) :
  sessions_ok c → device_session_ok t →
  sessions_ok (with_update_thread c (Some t)).
Proof.
  intros [Htables Hdevice] Ht. split.
  - intros [] id t'; [apply (Htables BuildSession)
                     |apply (Htables ConfigSession)].
  - by intros t' [= <-].
Qed.

Lemma session_ok_stopped (k : session_kind) (t : Thread) :
  session_ok k t → session_ok k (set_keep_running_False t).
Proof. by intros [? ?]. Qed.

Lemma device_session_ok_stopped (t : Thread) :
  device_session_ok t → device_session_ok (set_keep_running_False t).
Proof. by intros [? ?]. Qed.

Ltac sessions_ok_put :=
  repeat match goal with
         | H : (_ <=? 0) = false |- _ => apply Z.leb_gt in H
         end;
  first
    [ eapply sessions_ok_frame; [eassumption|reflexivity..]
    | apply (sessions_ok_insert BuildSession); [assumption|];
      first [ split; [done|simpl; lia]
            | apply session_ok_stopped;
              match goal with
              | Hok : sessions_ok ?c, H : build_thread ?c !! _ = Some _ |- _ =>
                  exact (proj1 Hok BuildSession _ _ H)
              end ]
    | apply (sessions_ok_insert ConfigSession); [assumption|];
      first [ split; [done|simpl; lia]
            | apply session_ok_stopped;
              match goal with
              | Hok : sessions_ok ?c, H : schedule_thread ?c !! _ = Some _
                |- _ => exact (proj1 Hok ConfigSession _ _ H)
              end ]
    | apply sessions_ok_update_thread; [assumption|];
      first [ split; [done|simpl; lia]
            | apply device_session_ok_stopped;
              match goal with
              | Hok : sessions_ok ?c, H : update_thread ?c = Some _ |- _ =>
                  exact (proj2 Hok _ H)
              end ] ].

Lemma handle_keeps_sessions_ok (env : Env) (cmd : command) :
  preserves sessions_ok (handle env cmd).
Proof.
  destruct cmd as [a|a|a|a|a|a]; simpl;
    unfold do_build, do_config, do_device, do_fetch, do_flash, do_gsispl;
    repeat preserve_step_with sessions_ok_put.
Qed.

(** X2.  In every console that a session of commands can produce, each
    registered build session is a daemon thread on the build loop with a
    positive interval, each registered config session a daemon thread on
    the config loop with a positive interval, and the device session, if
    there is one, a daemon thread on the device loop with a positive
    interval: a start command never stores a thread with an interval of
    zero or less, and a stop command keeps target and interval. *)
Theorem registered_sessions_are_well_formed (c : Console) :
  reachable c → sessions_ok c.
Proof.
  induction 1 as [|c env cmd _ IH].
  - split; [intros [] id t; simpl; by rewrite lookup_empty | done].
  - by apply handle_keeps_sessions_ok.
Qed.

Lemma registered_sessions_are_well_formed_witness :
  sessions_ok
    (state_after (handle example_env example_stop_1)
       (state_after (handle example_env example_start_1) Console_init)).
Proof.
  apply registered_sessions_are_well_formed.
  apply reachable_step, reachable_step, reachable_init.
Defined.

(** ** Start and stop: rejected arguments and what stays untouched *)

(** X3.  A build or config start command whose interval is zero or
    negative raises [ConsoleArgumentError] before [--id] is even looked
    at: the console is unchanged and nothing is printed or started,
    whatever the id argument is and whether or not that session runs. *)
Theorem start_with_nonpositive_interval_is_rejected
    (env : Env) (k : session_kind) (cmd : command) (arg : option string)
    (interval : Z) (c : Console) :
  is_start k cmd arg interval →
  interval ≤ 0 →
  handle env cmd c
  = (Raise (Exc ConsoleArgumentError "update interval must be positive"),
     c, []).
Proof.
  intros Hstart Hneg.
  destruct k, cmd as [a|a| | | |]; simpl in Hstart; try done;
    destruct Hstart as (Hu & Ha & Hi); simpl;
    unfold do_build, do_config; rewrite Hu, Hi;
    (destruct (Z.leb_spec interval 0) as [_|?]; [reflexivity|lia]).
Qed.

Lemma start_with_nonpositive_interval_is_rejected_witness :
  handle example_env
    (Build {| ba_update := Start; ba_id := Some "not a number";
              ba_interval := 0; ba_artifact_type := "device";
              ba_branch := "b"; ba_target := "t";
              ba_account_id := "543365459" |})
    Console_init
  = (Raise (Exc ConsoleArgumentError "update interval must be positive"),
     Console_init, []).
Proof.
  apply (start_with_nonpositive_interval_is_rejected
           example_env BuildSession _ (Some "not a number") 0).
  - simpl. done.
  - lia.
Defined.

(** X4.  Stop commands that do not name a registered session change
    nothing: without [--id] the handler prints that the id must be set
    and returns; with an id that is not an integer it raises
    [ValueError]; with an integer that is not registered it raises
    [KeyError]. *)
Theorem stop_of_unknown_session_changes_nothing
    (env : Env) (k : session_kind) (cmd : command) (c : Console) :
  match k, cmd with
  | BuildSession, Build a => ba_update a = Stop
  | ConfigSession, Config a => ca_update a = Stop
  | _, _ => False
  end →
  match (match cmd with
         | Build a => ba_id a
         | Config a => ca_id a
         | _ => None
         end) with
  | None =>
      handle env cmd c = (Return None, c, [Print "--id must be set for stop"])
  | Some s =>
      match env_int env s with
      | None =>
          handle env cmd c
          = (Raise (Exc ValueError
                      ("invalid literal for int() with base 10: '" +:+ s
                       +:+ "'")), c, [])
      | Some id =>
          table k c !! id = None →
          handle env cmd c = (Raise (Exc KeyError (pretty id)), c, [])
      end
  end.
Proof.
  intros Hstop.
  destruct k, cmd as [a|a| | | |]; try done; simpl;
    unfold do_build, do_config; rewrite Hstop;
    (destruct (ba_id a) as [s|] || destruct (ca_id a) as [s|]);
    try reflexivity;
    unfold bind, int, get;
    (destruct (env_int env s) as [id|]; [|reflexivity]);
    simpl; by intros ->.
Qed.

Lemma stop_of_unknown_session_changes_nothing_witness :
  handle example_env (Build (example_build Stop (Some "7"))) Console_init
  = (Raise (Exc KeyError "7"), Console_init, []).
Proof.
  apply (stop_of_unknown_session_changes_nothing
           example_env BuildSession
           (Build (example_build Stop (Some "7"))) Console_init eq_refl).
  reflexivity.
Defined.

(** X5.  A start or stop command with an explicit id touches one entry
    only: every other session of its kind, the whole table of the other
    kind, the fetched maps, the serials and the device session are what
    they were, whether the command succeeded, printed the
    already-running message or raised. *)
Theorem start_and_stop_touch_one_entry
    (env : Env) (k : session_kind) (cmd : command) (s : string)
    (id interval : Z) (c : Console) :
  is_start k cmd (Some s) interval ∨ is_stop k cmd s →
  env_int env s = Some id →
  (∀ j, j ≠ id →
        table k (state_after (handle env cmd) c) !! j = table k c !! j)
  ∧ (∀ k', k' ≠ k →
           table k' (state_after (handle env cmd) c) = table k' c)
  ∧ same_shared_state c (state_after (handle env cmd) c).
Proof.
  intros Hcmd Hid. unfold state_after.
  assert (∀ tbl,
            (∀ j, j ≠ id → tbl !! j = table k c !! j) →
            (∀ j, j ≠ id → table k (with_table k c tbl) !! j = table k c !! j)
            ∧ (∀ k', k' ≠ k → table k' (with_table k c tbl) = table k' c)
            ∧ same_shared_state c (with_table k c tbl)) as Hframe.
  { intros tbl Htbl. split_and!.
    - intros j Hj. rewrite table_with_table. by apply Htbl.
    - intros k' Hk'. by destruct k, k'.
    - by destruct k. }
  destruct Hcmd as [Hstart|Hstop].
  - destruct (Z.le_gt_cases interval 0) as [Hneg|Hpos].
    + rewrite (start_with_nonpositive_interval_is_rejected
                 env k cmd (Some s) interval c Hstart Hneg).
      simpl. by split_and!.
    + destruct (handle_start env k cmd (Some s) interval id c Hstart
                  ltac:(lia) Hid) as (t & _ & ->).
      destruct (already_running (table k c) id); simpl; [by split_and!|].
      apply Hframe. intros j Hj. by rewrite lookup_insert_ne.
  - rewrite (handle_stop env k cmd s id c Hstop Hid).
    destruct (table k c !! id) as [t|]; simpl; [|by split_and!].
    apply Hframe. intros j Hj. by rewrite lookup_insert_ne.
Qed.

Lemma start_and_stop_touch_one_entry_witness :
  table BuildSession
    (state_after (handle example_env example_stop_1)
       (after [(example_env, example_start_auto);
               (example_env, example_start_auto)] Console_init)) !! 2
  = table BuildSession
      (after [(example_env, example_start_auto);
              (example_env, example_start_auto)] Console_init) !! 2.
Proof.
  destruct (start_and_stop_touch_one_entry
              example_env BuildSession example_stop_1 "1" 1 30
              (after [(example_env, example_start_auto);
                      (example_env, example_start_auto)] Console_init))
    as (Hother & _ & _).
  - right. simpl. done.
  - reflexivity.
  - apply Hother. lia.
Defined.

(** ** The [device] command *)

Lemma concat_split_on (sep : ascii) (s : string) :
  String.concat (String sep EmptyString) (split_on sep s) = s.
Proof.
  induction s as [|a s IH]; [reflexivity|]. simpl.
  destruct (Ascii.eqb_spec a sep) as [->|Hne].
  - destruct (split_on sep s) as [|piece rest] eqn:Hsplit.
    + by destruct (split_on_head sep s) as (? & ? & ? & _); simplify_eq.
    + simpl in *. by rewrite IH.
  - destruct (split_on sep s) as [|piece rest] eqn:Hsplit.
    + by destruct (split_on_head sep s) as (? & ? & ? & _); simplify_eq.
    + simpl in *. destruct rest; simpl in *; by rewrite <- IH.
Qed.

Lemma split_on_pieces (sep : ascii) (s piece : string) :
  piece ∈ split_on sep s → has_char sep piece = false.
Proof.
  revert piece. induction s as [|a s IH]; intros piece; simpl.
  - by intros ->%list_elem_of_singleton.
  - destruct (Ascii.eqb_spec a sep) as [->|Hne].
    + intros [->|Hin]%elem_of_cons; [done|by apply IH].
    + destruct (split_on sep s) as [|first rest] eqn:Hsplit.
      * intros ->%list_elem_of_singleton. simpl.
        by destruct (Ascii.eqb_spec a sep).
      * intros [->|Hin]%elem_of_cons.
        -- simpl. destruct (Ascii.eqb_spec a sep); [done|].
           apply IH. left.
        -- apply IH. by right.
Qed.

(** The first step of [do_device] and what follows it. *)
Lemma do_device_serials (UpdateDevice_body : pyval → pyval → E unit)
    (hosts : list string) (args : device_args) (c : Console) :
  ∃ rest : M (option bool),
    do_device UpdateDevice_body hosts args c
    = (let '(r, c', ev) := rest (serials_applied (da_set_serial args) c) in
       (r, c', serials_echo (da_set_serial args) ++ ev))
    ∧ preserves (λ c', _serials c'
                       = _serials (serials_applied (da_set_serial args) c))
                rest.
Proof.
  unfold do_device.
  match goal with
  | |- ∃ rest, bind _ ?f c = _ ∧ _ => exists (f tt)
  end.
  split.
  - unfold bind at 1, serials_applied, serials_echo.
    destruct (da_set_serial args); reflexivity.
  - repeat preserve_step_with ltac:(simpl; assumption).
Qed.

(** X6.  [device --set_serial=S] replaces the list of selected serials
    by the comma-separated pieces of [S], and it has done so even when
    the rest of the command fails (more than one host, no host, a bad
    interval); an empty [S] leaves the list alone.  Joining the stored
    serials with commas gives [S] back, and no stored serial contains a
    comma. *)
Theorem set_serial_replaces_the_serials
    (UpdateDevice_body : pyval → pyval → E unit) (hosts : list string)
    (args : device_args) (c : Console) :
  _serials (state_after (do_device UpdateDevice_body hosts args) c)
  = match da_set_serial args with
    | EmptyString => _serials c
    | set_serial => split_on "," set_serial
    end
  ∧ String.concat "," (split_on "," (da_set_serial args)) = da_set_serial args
  ∧ ∀ serial, serial ∈ split_on "," (da_set_serial args) →
              has_char "," serial = false.
Proof.
  split_and!.
  - destruct (do_device_serials UpdateDevice_body hosts args c)
      as (rest & Hrun & Hkeep).
    unfold state_after. rewrite Hrun.
    specialize (Hkeep (serials_applied (da_set_serial args) c) eq_refl).
    unfold state_after in Hkeep.
    destruct (rest _) as [[r c'] ev]. simpl in *. rewrite Hkeep.
    by destruct (da_set_serial args).
  - apply concat_split_on.
  - intros serial. apply split_on_pieces.
Qed.

(** [do_device] once the host is resolved, for a command without
    [--set_serial]. *)
Lemma do_device_on_host (UpdateDevice_body : pyval → pyval → E unit)
    (hosts : list string) (args : device_args) (host : Z) (c : Console) :
  da_set_serial args = EmptyString →
  resolved_host hosts (da_host args) = Some host →
  do_device UpdateDevice_body hosts args c
  = match da_update args with
    | DevSingle =>
        (liftE (UpdateDevice UpdateDevice_body
                  [PStr (da_server_type args); PHost host]) ;;; ret None) c
    | DevStart =>
        if da_interval args <=? 0 then
          (Raise (Exc ConsoleArgumentError "update interval must be positive"),
           c, [])
        else if match update_thread c with
                | Some t0 => negb (hasattr_keep_running t0)
                | None => false
                end
        then (Return None, c,
              [Print ("device update already running. " +:+
                      "run device --update stop first.")])
        else
          let t :=
            set_daemon_True
              (new_thread
                 (UpdateDeviceRepeat_target
                    (da_server_type args) host (da_interval args))) in
          (Return None, with_update_thread c (Some t), [ThreadStart t])
    | DevStop =>
        match update_thread c with
        | Some t =>
            (Return None,
             with_update_thread c (Some (set_keep_running_False t)), [])
        | None =>
            (Raise (Exc AttributeError
                      "'NoneType' object has no attribute 'keep_running'"),
             c, [])
        end
    end.
Proof.
  intros Hserial Hhost. unfold do_device. rewrite Hserial, bind_ret.
  unfold resolved_host in Hhost.
  assert (∀ f : Z → M (option bool),
            bind (match da_host args with
                  | None =>
                      if (1 <? length hosts)%nat
                      then raise ConsoleArgumentError "More than one host."
                      else ret 0
                  | Some h => ret h
                  end)
                 (λ host_index,
                    bind (match py_index hosts host_index with
                          | Some (j, _) => ret j
                          | None =>
                              raise IndexError "list index out of range"
                          end) f) c
            = f host c) as ->.
  { intros f. destruct (da_host args) as [h|].
    - rewrite bind_ret.
      destruct (py_index hosts h) as [[j name]|]; [|done].
      simpl in Hhost. injection Hhost as ->. by rewrite bind_ret.
    - destruct (1 <? length hosts)%nat; [done|]. rewrite bind_ret.
      destruct (py_index hosts 0) as [[j name]|]; [|done].
      simpl in Hhost. injection Hhost as ->. by rewrite bind_ret. }
  destruct (da_update args); [reflexivity| |].
  - destruct (da_interval args <=? 0); [reflexivity|].
    rewrite bind_get.
    destruct (update_thread c) as [t0|]; [|reflexivity].
    destruct (hasattr_keep_running t0); reflexivity.
  - rewrite bind_get. destruct (update_thread c); reflexivity.
Qed.

(** X7.  The device session is one handle.  On a resolved host, for
    commands without [--set_serial] and a positive interval: a start
    while the handle holds a thread without [keep_running] prints the
    already-running message and changes nothing; a stop with no thread
    at all raises [AttributeError]; and a start after a stop (or with no
    thread yet) replaces the handle by a new running daemon thread on the
    device loop for that host and interval, and starts it. *)
Theorem device_session_is_a_single_handle
    (UpdateDevice_body : pyval → pyval → E unit) (hosts : list string)
    (start stop : device_args) (host : Z) (c : Console) :
  da_set_serial start = EmptyString →
  da_set_serial stop = EmptyString →
  resolved_host hosts (da_host start) = Some host →
  resolved_host hosts (da_host stop) = Some host →
  da_update start = DevStart →
  da_update stop = DevStop →
  0 < da_interval start →
  let t :=
    {| thread_target_of :=
         UpdateDeviceRepeat_target (da_server_type start) host
                                   (da_interval start);
       daemon := true;
       keep_running := None |} in
  (∀ t0, update_thread c = Some t0 → keep_running t0 = None →
         do_device UpdateDevice_body hosts start c
         = (Return None, c,
            [Print "device update already running. run device --update stop first."]))
  ∧ (update_thread c = None →
       do_device UpdateDevice_body hosts stop c
       = (Raise (Exc AttributeError
                   "'NoneType' object has no attribute 'keep_running'"),
          c, [])
       ∧ do_device UpdateDevice_body hosts start c
         = (Return None, with_update_thread c (Some t), [ThreadStart t]))
  ∧ (∀ t0, update_thread c = Some t0 →
           do_device UpdateDevice_body hosts start
             (state_after (do_device UpdateDevice_body hosts stop) c)
           = (Return None,
              with_update_thread
                (state_after (do_device UpdateDevice_body hosts stop) c)
                (Some t),
              [ThreadStart t])).
Proof.
  intros Hs1 Hs2 Hh1 Hh2 Hstart Hstop Hpos t.
  assert ((da_interval start <=? 0) = false) as Hleb by (apply Z.leb_gt; lia).
  split_and!.
  - intros t0 Ht0 Hk.
    rewrite (do_device_on_host _ _ _ host c Hs1 Hh1), Hstart, Hleb, Ht0.
    unfold hasattr_keep_running. by rewrite Hk.
  - intros Hnone. split.
    + by rewrite (do_device_on_host _ _ _ host c Hs2 Hh2), Hstop, Hnone.
    + by rewrite (do_device_on_host _ _ _ host c Hs1 Hh1), Hstart, Hleb, Hnone.
  - intros t0 Ht0. unfold state_after.
    rewrite (do_device_on_host _ _ _ host c Hs2 Hh2), Hstop, Ht0. simpl.
    by rewrite (do_device_on_host _ _ _ host _ Hs1 Hh1), Hstart, Hleb.
Qed.

Lemma device_session_is_a_single_handle_witness :
  do_device (λ _ _, (Return tt, [])) ["host0"]
            (example_device "" DevStart 30)
            (state_after
               (do_device (λ _ _, (Return tt, [])) ["host0"]
                          (example_device "" DevStart 30))
               Console_init)
  = (Return None,
     state_after
       (do_device (λ _ _, (Return tt, [])) ["host0"]
                  (example_device "" DevStart 30))
       Console_init,
     [Print "device update already running. run device --update stop first."]).
Proof.
  destruct (device_session_is_a_single_handle
              (λ _ _, (Return tt, [])) ["host0"]
              (example_device "" DevStart 30) (example_device "" DevStop 30)
              0
              (state_after
                 (do_device (λ _ _, (Return tt, [])) ["host0"]
                            (example_device "" DevStart 30))
                 Console_init))
    as (Hrunning & _);
    [reflexivity | reflexivity | reflexivity | reflexivity | reflexivity
    | reflexivity | simpl; lia |].
  eapply Hrunning; reflexivity.
Defined.

(** X8.  When [do_device] cannot resolve its host it raises before any
    update: with no [--host] and more than one host a
    [ConsoleArgumentError], with an index outside the host list (and with
    no [--host] and no host at all) an [IndexError].  The device session
    is untouched, nothing is uploaded or started, and only the
    [--set_serial] part has taken effect. *)
Theorem device_without_a_host_raises
    (UpdateDevice_body : pyval → pyval → E unit) (hosts : list string)
    (args : device_args) (c : Console) :
  resolved_host hosts (da_host args) = None →
  do_device UpdateDevice_body hosts args c
  = (Raise (match da_host args with
            | None =>
                if (1 <? length hosts)%nat
                then Exc ConsoleArgumentError "More than one host."
                else Exc IndexError "list index out of range"
            | Some _ => Exc IndexError "list index out of range"
            end),
     serials_applied (da_set_serial args) c,
     serials_echo (da_set_serial args)).
Proof.
  intros Hhost. unfold do_device, resolved_host in *.
  assert (∀ m : M unit,
            m c = (Return tt, serials_applied (da_set_serial args) c,
                   serials_echo (da_set_serial args)) →
            ∀ (f : M (option bool)) e,
              f (serials_applied (da_set_serial args) c)
              = (Raise e, serials_applied (da_set_serial args) c, []) →
              bind m (λ _, f) c
              = (Raise e, serials_applied (da_set_serial args) c,
                 serials_echo (da_set_serial args))) as Hseq.
  { intros m Hm f e Hf. unfold bind. rewrite Hm, Hf. by rewrite app_nil_r. }
  apply Hseq.
  - unfold serials_applied, serials_echo.
    destruct (da_set_serial args); reflexivity.
  - destruct (da_host args) as [h|].
    + rewrite bind_ret. by destruct (py_index hosts h) as [[j name]|].
    + destruct (1 <? length hosts)%nat; [reflexivity|]. rewrite bind_ret.
      by destruct (py_index hosts 0) as [[j name]|].
Qed.

Lemma device_without_a_host_raises_witness :
  do_device (λ _ _, (Return tt, [])) ["host0"; "host1"]
            (example_device "a,b" DevStart 30) Console_init
  = (Raise (Exc ConsoleArgumentError "More than one host."),
     with_serials Console_init ["a"; "b"],
     [Print "serials: ['a', 'b']"]).
Proof.
  exact (device_without_a_host_raises (λ _ _, (Return tt, []))
           ["host0"; "host1"] (example_device "a,b" DevStart 30)
           Console_init eq_refl).
Defined.

(** ** Flash: explicit pairs, devices, failures *)

Lemma current_partition_image_sound (images : gmap string string)
    (current : list (list string)) (acc m : gmap string string) :
  current_partition_image images current acc = Return m →
  (∀ partition path,
     m !! partition = Some path →
     acc !! partition = Some path
     ∨ ∃ image, [partition; image] ∈ current ∧ images !! image = Some path)
  ∧ (∀ partition, is_Some (acc !! partition) → is_Some (m !! partition))
  ∧ (∀ pair, pair ∈ current →
       ∃ partition image path,
         pair = [partition; image] ∧ images !! image = Some path
         ∧ is_Some (m !! partition)).
Proof.
  revert acc. induction current as [|pair current IH]; intros acc; simpl.
  - intros [= <-]. split_and!; [by left|done|]. intros pair []%elem_of_nil.
  - destruct pair as [|partition [|image [|extra pair]]]; try discriminate.
    destruct (images !! image) as [path|] eqn:Himage; [|discriminate].
    intros (Hsound & Hkeep & Hall)%IH. split_and!.
    + intros partition' path' [Hacc|(image' & Hin & Himage')]%Hsound.
      * destruct (decide (partition = partition')) as [<-|Hne].
        -- rewrite lookup_insert_eq in Hacc. injection Hacc as <-.
           right. exists image. split; [left|done].
        -- rewrite lookup_insert_ne in Hacc by done. by left.
      * right. exists image'. split; [by right|done].
    + intros partition' Hsome. apply Hkeep.
      destruct (decide (partition = partition')) as [<-|Hne].
      * by rewrite lookup_insert_eq.
      * by rewrite lookup_insert_ne.
    + intros pair' [->|Hin]%elem_of_cons; [|by apply Hall].
      exists partition, image, path. split_and!; [done|done|].
      apply Hkeep. by rewrite lookup_insert_eq.
Qed.

Lemma current_partition_image_raises (images : gmap string string)
    (current : list (list string)) (acc : gmap string string)
    (e : exception) :
  current_partition_image images current acc = Raise e →
  ∃ pair, pair ∈ current
          ∧ match pair with
            | [_; image] =>
                images !! image = None
                ∧ e = Exc KeyError ("'" +:+ image +:+ "'")
            | _ => exc_class e = ValueError
            end.
Proof.
  revert acc. induction current as [|pair current IH]; intros acc; simpl;
    [discriminate|].
  destruct pair as [|partition [|image [|extra pair]]].
  - intros [= <-]. exists []. split; [left|done].
  - intros [= <-]. exists [partition]. split; [left|done].
  - destruct (images !! image) as [path|] eqn:Himage.
    + intros (pair & Hin & Hpair)%IH. exists pair. split; [by right|done].
    + intros [= <-]. exists [partition; image]. split; [left|done].
  - intros [= <-]. eexists. split; [left|done].
Qed.

(** X9.  With [--current] pairs, the partition map is built from the
    pairs alone: when it is built, every pair was [partition=image] with
    a fetched image, every partition named by a pair is in the map, and
    every entry of the map is the fetched path of an image some pair
    gave for that partition.  It is not built when a pair names an image
    that was not fetched ([KeyError] with that image's name) or is not of
    the form [partition=image] ([ValueError]); the default image list
    plays no part. *)
Theorem flash_current_pairs_partition_image
    (FULL_ZIPFILE : string) (args : flash_args)
    (images : gmap string string) (pair : list string)
    (pairs : list (list string)) :
  fl_current args = Some (pair :: pairs) →
  match partition_image_of FULL_ZIPFILE args images with
  | Return m =>
      (∀ partition path,
         m !! partition = Some path →
         ∃ image, [partition; image] ∈ pair :: pairs
                  ∧ images !! image = Some path)
      ∧ (∀ p, p ∈ pair :: pairs →
           ∃ partition image path,
             p = [partition; image] ∧ images !! image = Some path
             ∧ is_Some (m !! partition))
  | Raise e =>
      ∃ p, p ∈ pair :: pairs
           ∧ match p with
             | [_; image] =>
                 images !! image = None
                 ∧ e = Exc KeyError ("'" +:+ image +:+ "'")
             | _ => exc_class e = ValueError
             end
  end.
Proof.
  intros Hcurrent. unfold partition_image_of. rewrite Hcurrent.
  destruct (current_partition_image images (pair :: pairs) ∅) as [m|e] eqn:Hm.
  - destruct (current_partition_image_sound _ _ _ _ Hm)
      as (Hsound & _ & Hall).
    split; [|done].
    intros partition path [Hempty|Himage]%Hsound; [|done].
    by rewrite lookup_empty in Hempty.
  - by apply current_partition_image_raises in Hm.
Qed.

Lemma flash_current_pairs_partition_image_witness :
  ∃ m, partition_image_of "full-zipfile"
         (example_flash (Some [["system"; "system.img"]]) (Some "flasher"))
         {["system.img" := "/images/system.img"]}
       = Return m
       ∧ ∀ partition path,
           m !! partition = Some path →
           ∃ image, [partition; image] ∈ [["system"; "system.img"]]
                    ∧ ({["system.img" := "/images/system.img"]}
                       : gmap string string) !! image = Some path.
Proof.
  pose proof (flash_current_pairs_partition_image "full-zipfile"
                (example_flash (Some [["system"; "system.img"]])
                               (Some "flasher"))
                {["system.img" := "/images/system.img"]}
                ["system"; "system.img"] [] eq_refl) as H.
  destruct (partition_image_of _ _ _) as [m|e] eqn:Hm.
  - exists m. split; [done|]. apply H.
  - vm_compute in Hm. discriminate.
Defined.

(** [do_flash] after the flasher path has been found, when creating the
    flashers does not fail. *)
Lemma do_flash_after_lookup
    (FULL_ZIPFILE : string) (flasher_result : event → outcome unit)
    (args : flash_args) (c : Console)
    (tools_map : gmap string string) (name path : string) :
  tools_info c = Some tools_map →
  fl_flasher_path args = Some name →
  tools_map !! name = Some path →
  (∀ serial, flasher_result (BuildFlasher serial (Some path)) = Return tt) →
  do_flash FULL_ZIPFILE flasher_result args c
  = match partition_image_of FULL_ZIPFILE args (device_image_info c) with
    | Raise e =>
        (Raise e, c,
         map (λ serial, BuildFlasher serial (Some path))
             (resolved_devices args c))
    | Return m =>
        let '(r, c', ev) :=
          (for_each (resolved_devices args c)
             (flash_one flasher_result args (Some path) m) ;;;
           for_each (resolved_devices args c)
             (λ serial, call_flasher flasher_result (WaitForDevice serial)) ;;;
           ret None) c in
        (r, c',
         map (λ serial, BuildFlasher serial (Some path))
             (resolved_devices args c) ++ ev)
    end.
Proof.
  intros Htools Hname Hpath Hok.
  unfold do_flash. rewrite bind_get, Htools, Hname, Hpath, bind_ret.
  fold (resolved_devices args c).
  assert (for_each (resolved_devices args c)
            (λ serial,
               call_flasher flasher_result (BuildFlasher serial (Some path))) c
          = (Return tt, c,
             map (λ serial, BuildFlasher serial (Some path))
                 (resolved_devices args c))) as Hbuild.
  { induction (resolved_devices args c) as [|x l IH]; [reflexivity|].
    simpl. unfold bind at 1.
    replace (call_flasher flasher_result (BuildFlasher x (Some path)) c)
      with (Return tt, c, [BuildFlasher x (Some path)])
      by (unfold call_flasher, bind, emit, lift; by rewrite Hok).
    by rewrite IH. }
  unfold bind at 1. rewrite Hbuild.
  unfold bind at 1, lift at 1.
  destruct (partition_image_of _ _ _) as [m|e]; [|by rewrite app_nil_r].
  simpl. by destruct (bind _ _ c) as [[r c'] ev].
Qed.

Lemma for_each_returns {X} (body : X → M unit) (f : X → list event)
    (l : list X) (c : Console) :
  (∀ x, x ∈ l → body x c = (Return tt, c, f x)) →
  for_each l body c = (Return tt, c, concat (map f l)).
Proof.
  induction l as [|x l IH]; intros Hbody; [reflexivity|].
  simpl. unfold bind. rewrite (Hbody x) by left.
  rewrite IH; [done|]. intros y Hy. apply Hbody. by right.
Qed.

Lemma for_each_raises_at {X} (body : X → M unit) (f : X → list event)
    (before after : list X) (x : X) (e : exception) (ev : list event)
    (c : Console) :
  (∀ y, y ∈ before → body y c = (Return tt, c, f y)) →
  body x c = (Raise e, c, ev) →
  for_each (before ++ x :: after) body c
  = (Raise e, c, concat (map f before) ++ ev).
Proof.
  intros Hbefore Hx. induction before as [|y before IH]; simpl.
  - unfold bind. by rewrite Hx.
  - unfold bind. rewrite (Hbefore y) by left.
    rewrite IH; [by rewrite app_assoc|].
    intros z Hz. apply Hbefore. by right.
Qed.

Lemma concat_map_singleton {X Y} (f : X → Y) (l : list X) :
  concat (map (λ x, [f x]) l) = map f l.
Proof. induction l as [|x l IH]; simpl; by rewrite ?IH. Qed.

Lemma call_flasher_returns (flasher_result : event → outcome unit)
    (e : event) (c : Console) :
  flasher_result e = Return tt →
  call_flasher flasher_result e c = (Return tt, c, [e]).
Proof. intros He. unfold call_flasher, bind, emit, lift. by rewrite He. Qed.

Lemma call_flasher_raises (flasher_result : event → outcome unit)
    (e : event) (x : exception) (c : Console) :
  flasher_result e = Raise x →
  call_flasher flasher_result e c = (Raise x, c, [e]).
Proof. intros He. unfold call_flasher, bind, emit, lift. by rewrite He. Qed.

(** X10.  When the flasher path is a fetched tool and no call into the
    flashing tool fails, [do_flash] works on [--serial] if it is given,
    else on the serials set by [device --set_serial], else on the unnamed
    device; it creates a flasher for every device, then flashes every
    device in that order, and only then waits for every device.  With
    [--current] each device gets the partition map; without it each
    device gets, with the fastboot flasher, [Flashall] for [--build_dir]
    and [FlashGSI] for [--gsi] (when neither is given the handler raises
    [ConsoleArgumentError] after creating the flashers, with nothing
    flashed), and with the custom flasher [RepackageArtifacts] and
    [FlashUsingCustomBinary] on the fetched device images. *)
Theorem flash_devices_in_order
    (FULL_ZIPFILE : string) (flasher_result : event → outcome unit)
    (args : flash_args) (c : Console)
    (tools_map : gmap string string) (name path : string)
    (m : gmap string string) :
  (∀ e, flasher_result e = Return tt) →
  tools_info c = Some tools_map →
  fl_flasher_path args = Some name →
  tools_map !! name = Some path →
  partition_image_of FULL_ZIPFILE args (device_image_info c) = Return m →
  let devices :=
    match fl_serial args with
    | EmptyString =>
        match _serials c with
        | [] => [EmptyString]
        | _ :: _ => _serials c
        end
    | serial => [serial]
    end in
  let flashers := map (λ serial, BuildFlasher serial (Some path)) devices in
  match fl_current args, fl_flasher_type args with
  | Some _, _ =>
      do_flash FULL_ZIPFILE flasher_result args c
      = (Return None, c,
         flashers ++ map (λ serial, Flash serial m) devices
         ++ map WaitForDevice devices)
  | None, fastboot =>
      match fl_gsi args, fl_build_dir args with
      | None, None =>
          do_flash FULL_ZIPFILE flasher_result args c
          = (Raise (Exc ConsoleArgumentError
                      "Nothing requested: specify --gsi or --build_dir"),
             c, flashers)
      | _, _ =>
          do_flash FULL_ZIPFILE flasher_result args c
          = (Return None, c,
             flashers ++ concat (map (fastboot_calls args) devices)
             ++ map WaitForDevice devices)
      end
  | None, custom =>
      do_flash FULL_ZIPFILE flasher_result args c
      = (Return None, c,
         flashers ++ concat (map (custom_calls args c) devices)
         ++ map WaitForDevice devices)
  end.
Proof.
  intros Hok Htools Hname Hpath Hm devices flashers.
  assert (devices = resolved_devices args c) as Hdev.
  { unfold devices, resolved_devices.
    by destruct (fl_serial args), (_serials c). }
  assert (for_each (resolved_devices args c)
            (λ serial, call_flasher flasher_result (WaitForDevice serial)) c
          = (Return tt, c, map WaitForDevice (resolved_devices args c)))
    as Hwait.
  { rewrite (for_each_returns _ (λ serial, [WaitForDevice serial])).
    - by rewrite concat_map_singleton.
    - intros serial _. by apply call_flasher_returns. }
  pose proof (do_flash_after_lookup FULL_ZIPFILE flasher_result args c
                tools_map name path Htools Hname Hpath (λ s, Hok _)) as Hrun.
  rewrite Hm in Hrun. unfold flashers. rewrite Hdev.
  destruct (fl_current args) as [current|] eqn:Hcurrent.
  - rewrite Hrun. unfold bind at 1.
    rewrite (for_each_returns _ (λ serial, [Flash serial m])).
    + unfold bind at 1. rewrite Hwait. simpl.
      by rewrite concat_map_singleton, app_nil_r.
    + intros serial _. unfold flash_one. rewrite Hcurrent.
      by apply call_flasher_returns.
  - destruct (fl_flasher_type args) eqn:Htype.
    2: { rewrite Hrun. unfold bind at 1.
         rewrite (for_each_returns _ (custom_calls args c)).
         - unfold bind at 1. rewrite Hwait. simpl. by rewrite app_nil_r.
         - intros serial _. unfold flash_one, custom_calls.
           rewrite Hcurrent, Htype, bind_get.
           destruct (fl_repackage args) as [r|];
             unfold bind, get, ret; rewrite ?call_flasher_returns by done;
             reflexivity. }
    assert (∀ serial,
              (fl_gsi args ≠ None ∨ fl_build_dir args ≠ None) →
              flash_one flasher_result args (Some path) m serial c
              = (Return tt, c, fastboot_calls args serial)) as Hone.
    { intros serial Hsome. unfold flash_one, fastboot_calls.
      rewrite Hcurrent, Htype.
      destruct (fl_gsi args) as [g|], (fl_build_dir args) as [d|];
        try (by destruct Hsome);
        unfold bind, ret; rewrite ?call_flasher_returns by done;
        reflexivity. }
    destruct (fl_gsi args) as [g|] eqn:Hgsi;
      [|destruct (fl_build_dir args) as [d|] eqn:Hdir].
    + rewrite Hrun. unfold bind at 1.
      rewrite (for_each_returns _ (fastboot_calls args))
        by (intros serial _; apply Hone; by left).
      unfold bind at 1. rewrite Hwait. simpl. by rewrite app_nil_r.
    + rewrite Hrun. unfold bind at 1.
      rewrite (for_each_returns _ (fastboot_calls args))
        by (intros serial _; apply Hone; by right).
      unfold bind at 1. rewrite Hwait. simpl. by rewrite app_nil_r.
    + rewrite Hrun.
      assert (∃ d rest, resolved_devices args c = d :: rest)
        as (d & rest & Hd).
      { unfold resolved_devices.
        destruct (fl_serial args), (_serials c); by eexists _, _. }
      rewrite Hd. simpl for_each. unfold bind at 1 2, flash_one.
      rewrite Hcurrent, Htype, Hgsi, Hdir. simpl. by rewrite app_nil_r.
Qed.

Lemma flash_devices_in_order_witness :
  do_flash "full-zipfile" (λ _, Return tt)
    (example_flash (Some [["system"; "system.img"]]) (Some "flasher"))
    console_ready_to_flash
  = (Return None, console_ready_to_flash,
     [BuildFlasher "device1" (Some "/tools/flasher");
      BuildFlasher "device2" (Some "/tools/flasher");
      Flash "device1" {["system" := "/images/system.img"]};
      Flash "device2" {["system" := "/images/system.img"]};
      WaitForDevice "device1"; WaitForDevice "device2"]).
Proof.
  exact (flash_devices_in_order "full-zipfile" (λ _, Return tt)
           (example_flash (Some [["system"; "system.img"]]) (Some "flasher"))
           console_ready_to_flash
           {["flasher" := "/tools/flasher"]} "flasher" "/tools/flasher"
           {["system" := "/images/system.img"]}
           (λ _, eq_refl) eq_refl eq_refl eq_refl eq_refl).
Defined.

(** X11.  A failure of the flashing tool ends the whole command: when
    [Flash] raises for one device (with [--current], the devices before
    it flashed without failure), [do_flash] raises that exception; the
    devices after it are not flashed and no device is waited for. *)
Theorem flash_failure_aborts_remaining_devices
    (FULL_ZIPFILE : string) (flasher_result : event → outcome unit)
    (args : flash_args) (c : Console)
    (tools_map : gmap string string) (name path : string)
    (m : gmap string string) (current : list (list string))
    (before after : list string) (device : string) (e : exception) :
  tools_info c = Some tools_map →
  fl_flasher_path args = Some name →
  tools_map !! name = Some path →
  fl_current args = Some current →
  partition_image_of FULL_ZIPFILE args (device_image_info c) = Return m →
  resolved_devices args c = before ++ device :: after →
  (∀ serial, flasher_result (BuildFlasher serial (Some path)) = Return tt) →
  (∀ serial, serial ∈ before → flasher_result (Flash serial m) = Return tt) →
  flasher_result (Flash device m) = Raise e →
  do_flash FULL_ZIPFILE flasher_result args c
  = (Raise e, c,
     map (λ serial, BuildFlasher serial (Some path))
         (before ++ device :: after)
     ++ map (λ serial, Flash serial m) before ++ [Flash device m]).
Proof.
  intros Htools Hname Hpath Hcurrent Hm Hdev Hbuild Hbefore Hfail.
  rewrite (do_flash_after_lookup FULL_ZIPFILE flasher_result args c
             tools_map name path Htools Hname Hpath Hbuild), Hm, Hdev.
  unfold bind at 1.
  rewrite (for_each_raises_at _ (λ serial, [Flash serial m]) before after
             device e [Flash device m]).
  - by rewrite concat_map_singleton.
  - intros serial Hin. unfold flash_one. rewrite Hcurrent.
    by apply call_flasher_returns, Hbefore.
  - unfold flash_one. rewrite Hcurrent. by apply call_flasher_raises.
Qed.

Lemma flash_failure_aborts_remaining_devices_witness :
  do_flash "full-zipfile"
    (λ e, match e with
          | Flash _ _ => Raise (Exc IOError "device1 is offline")
          | _ => Return tt
          end)
    (example_flash (Some [["system"; "system.img"]]) (Some "flasher"))
    console_ready_to_flash
  = (Raise (Exc IOError "device1 is offline"), console_ready_to_flash,
     [BuildFlasher "device1" (Some "/tools/flasher");
      BuildFlasher "device2" (Some "/tools/flasher");
      Flash "device1" {["system" := "/images/system.img"]}]).
Proof.
  apply (flash_failure_aborts_remaining_devices "full-zipfile" _
           (example_flash (Some [["system"; "system.img"]]) (Some "flasher"))
           console_ready_to_flash
           {["flasher" := "/tools/flasher"]} "flasher" "/tools/flasher"
           {["system" := "/images/system.img"]}
           [["system"; "system.img"]] [] ["device2"] "device1"
           (Exc IOError "device1 is offline")); try reflexivity.
  intros serial []%elem_of_nil.
Defined.

(** ** Fetch: failures and metadata *)

(** X12.  A fetch that raises has changed nothing: whether the provider
    raised, the provider's answer lacked [build_id] (for [pab] and [ab],
    a [KeyError]) or [tools_info] was not a dictionary, the console is
    what it was and nothing was logged; in particular no artifact of the
    failed fetch is in the maps. *)
Theorem failed_fetch_changes_nothing
    (build_provider : fetch_args → outcome fetch_result)
    (args : fetch_args) (c : Console) (e : exception) :
  result_of (do_fetch build_provider args) c = Raise e →
  do_fetch build_provider args c = (Raise e, c, []).
Proof.
  unfold result_of, do_fetch, bind, lift.
  destruct (build_provider args) as [r|e']; simpl; [|by intros [= ->]].
  destruct (fa_type args); simpl;
    repeat match goal with
      | |- context [fetch_environment r !! ?k] =>
          destruct (fetch_environment r !! k); simpl
      | |- context [tools_info c] => destruct (tools_info c); simpl
      | |- context [decide (?m = ∅)] => destruct (decide (m = ∅)); simpl
      end;
    intros; simplify_eq; reflexivity.
Qed.

Lemma failed_fetch_changes_nothing_witness :
  do_fetch example_provider
    {| fa_type := pab; fa_method := "GET"; fa_path := None;
       fa_branch := Some "b"; fa_target := Some "t";
       fa_account_id := "543365459"; fa_build_id := "latest";
       fa_artifact_name := Some "img.zip"; fa_userinfo_file := None;
       fa_tool := None |}
    console_with_system_img
  = (Raise (Exc KeyError "'build_id'"), console_with_system_img, []).
Proof.
  apply failed_fetch_changes_nothing. reflexivity.
Defined.

(** X13.  A fetch that returns records its metadata and touches nothing
    else but the maps it merges into: [fetch_info] gets the [--branch]
    and [--target] arguments as given (also when they are absent) and,
    as build id, what the provider reported for [pab] and [ab] and
    [None] for [local_fs] and [gcs]; its other keys are kept.  Only a
    [gcs] fetch changes [tools_info], by merging the provider's tools into
    it.  The session tables, the device session and the serials are what
    they were. *)
Theorem fetch_records_metadata
    (build_provider : fetch_args → outcome fetch_result)
    (args : fetch_args) (c : Console) (r : fetch_result) :
  build_provider args = Return r →
  result_of (do_fetch build_provider args) c = Return None →
  let c' := state_after (do_fetch build_provider args) c in
  fetch_info c'
  = <["target" := fa_target args]>
      (<["branch" := fa_branch args]>
         (<["build_id" := recorded_build_id args r]> (fetch_info c)))
  ∧ tools_info c'
    = match fa_type args with
      | gcs => (λ t, dict_update t (tools r)) <$> tools_info c
      | _ => tools_info c
      end
  ∧ build_thread c' = build_thread c
  ∧ schedule_thread c' = schedule_thread c
  ∧ update_thread c' = update_thread c
  ∧ _serials c' = _serials c.
Proof.
  intros Hr. unfold result_of, state_after, do_fetch, recorded_build_id.
  unfold bind, lift. rewrite Hr. simpl.
  destruct (tools_info c) as [t|] eqn:Htools;
    destruct (fa_type args); simpl; rewrite ?Htools; simpl;
    repeat match goal with
      | |- context [fetch_environment r !! ?k] =>
          destruct (fetch_environment r !! k); simpl
      | |- context [decide (?m = ∅)] => destruct (decide (m = ∅)); simpl
      end;
    intros; try discriminate; rewrite ?Htools; split_and!; reflexivity.
Qed.

Lemma fetch_records_metadata_witness :
  fetch_info
    (state_after (do_fetch example_provider (example_fetch "first"))
       Console_init)
  = {["target" := None; "branch" := None; "build_id" := None]}.
Proof.
  destruct (fetch_records_metadata example_provider (example_fetch "first")
              Console_init _ eq_refl eq_refl) as (Hinfo & _).
  rewrite Hinfo. reflexivity.
Defined.

(** ** [gsispl] with a well-formed version *)

(** X14.  With a version that [strptime] accepts, [do_gsispl] runs the
    patch script once, on the located image, for the output path
    [system-<YYYY-MM-DD>.img] beside it, the date written with four, two
    and two digits.  When the script succeeds and no [--gsi] was given,
    [system.img] in the device-image map now names the output and every
    other entry is kept; with [--gsi] the console is unchanged even on
    success; when the script fails its error output is printed and the
    console is unchanged. *)
Theorem gsispl_runs_the_script_once
    (os_path_isfile : string → bool)
    (os_path_abspath os_path_dirname : string → string)
    (os_path_join : string → string → string)
    (strptime_Ymd : string → option (Z * Z * Z))
    (ExecuteOneShellCommand : string → string * string * Z)
    (args : gsispl_args) (c : Console) (date : Z * Z * Z)
    (gsi_path : string) :
  gs_version args ≠ EmptyString →
  strptime_Ymd (gs_version args) = Some date →
  match gs_gsi args with
  | Some (String _ _ as gsi) => os_path_isfile gsi = true ∧ gsi_path = gsi
  | _ => device_image_info c !! "system.img" = Some gsi_path
  end →
  let output_path :=
    gsispl_output_path os_path_abspath os_path_dirname os_path_join
                       gsi_path date in
  let command := gsispl_command gsi_path output_path date in
  do_gsispl os_path_isfile os_path_abspath os_path_dirname os_path_join
            strptime_Ymd ExecuteOneShellCommand args c
  = if decide ((ExecuteOneShellCommand command).2 = 0) then
      (Return None,
       match gs_gsi args with
       | Some (String _ _) => c
       | _ =>
           with_device_image_info c
             (<["system.img" := output_path]> (device_image_info c))
       end,
       [ShellCommand command])
    else
      (Return None, c,
       [ShellCommand command;
        Print ("gsispl error: " +:+ (ExecuteOneShellCommand command).1.2)]).
Proof.
  intros Hversion Hdate Hpath output_path command.
  assert (gsispl_at os_path_abspath os_path_dirname os_path_join strptime_Ymd
            ExecuteOneShellCommand args gsi_path c
          = if decide ((ExecuteOneShellCommand command).2 = 0) then
              (Return None,
               if truthy (gs_gsi args) then c
               else with_device_image_info c
                      (<["system.img" := output_path]> (device_image_info c)),
               [ShellCommand command])
            else
              (Return None, c,
               [ShellCommand command;
                Print ("gsispl error: "
                       +:+ (ExecuteOneShellCommand command).1.2)])) as Hat.
  { unfold gsispl_at. rewrite Hdate.
    destruct (gs_version args) as [|a v]; [done|].
    destruct date as [[year month] day].
    fold (gsispl_version (year, month, day)).
    fold (gsispl_output_path os_path_abspath os_path_dirname os_path_join
            gsi_path (year, month, day)).
    fold output_path.
    fold (gsispl_command gsi_path output_path (year, month, day)).
    fold command. unfold bind at 1, emit at 1.
    destruct (ExecuteOneShellCommand command) as [[out err] code]. simpl.
    destruct (decide (code = 0)); [|reflexivity].
    destruct (truthy (gs_gsi args)); reflexivity. }
  unfold do_gsispl. rewrite bind_get.
  destruct (gs_gsi args) as [[|a gsi]|]; simpl in *.
  - by rewrite Hpath, Hat.
  - destruct Hpath as [-> ->]. by rewrite Hat.
  - by rewrite Hpath, Hat.
Qed.

Lemma gsispl_runs_the_script_once_witness :
  do_gsispl (λ _, true) (λ p, p) (λ _, "/images")
            (λ a b, a +:+ "/" +:+ b) ymd_date (λ _, ("", "", 0))
            {| gs_gsi := None; gs_version := "2020-1-5" |}
            console_with_system_img
  = (Return None,
     with_device_image_info console_with_system_img
       {["system.img" := "/images/system-2020-01-05.img"]},
     [ShellCommand
        "vts/harnesses/host_controller/gsi/change_spl.sh /images/system.img /images/system-2020-01-05.img 2020-01-05"]).
Proof.
  rewrite (gsispl_runs_the_script_once
             (λ _, true) (λ p, p) (λ _, "/images")
             (λ a b, a +:+ "/" +:+ b) ymd_date (λ _, ("", "", 0))
             {| gs_gsi := None; gs_version := "2020-1-5" |}
             console_with_system_img (2020, 1, 5) "/images/system.img");
    [vm_compute; reflexivity | done | reflexivity | reflexivity].
Defined.

(** ** [UpdateBuild] *)

Lemma split_on_no_sep (sep : ascii) (s : string) :
  has_char sep s = false → split_on sep s = [s].
Proof.
  induction s as [|a s IH]; [done|]. simpl.
  destruct (Ascii.eqb_spec a sep); [done|]. simpl. intros Hs.
  by rewrite IH.
Qed.

Lemma split_on_app (sep : ascii) (piece s : string) :
  has_char sep piece = false →
  split_on sep (piece +:+ String sep s) = piece :: split_on sep s.
Proof.
  induction piece as [|a piece IH]; simpl.
  - intros _. by rewrite Ascii.eqb_refl.
  - destruct (Ascii.eqb_spec a sep); [done|]. simpl. intros Hp.
    by rewrite IH.
Qed.

Lemma has_char_app (sep : ascii) (s1 s2 : string) :
  has_char sep (s1 +:+ s2) = has_char sep s1 || has_char sep s2.
Proof.
  induction s1 as [|a s1 IH]; [done|]. simpl. rewrite IH.
  by destruct (Ascii.eqb a sep).
Qed.

Lemma make_build_parts (branch target artifact_type : string)
    (lb : listed_build) :
  make_build branch target artifact_type lb
  = match target_parts target with
    | Some (bt, ty) =>
        Return {| manifest_branch := branch; bi_build_id := build_id lb;
                  build_target := bt; build_type := ty;
                  artifact_type_of := artifact_type; artifacts := [] |}
    | None => Raise (Exc ValueError "too many values to unpack")
    end.
Proof.
  unfold make_build, target_parts.
  destruct (has_char "-" target); [|done].
  by destruct (split_on "-" target) as [|bt [|ty [|x rest]]].
Qed.

Lemma add_listed_builds_parts (branch target artifact_type : string)
    (listed : list listed_build) (builds : list build_info) :
  add_listed_builds branch target artifact_type listed builds
  = match target_parts target with
    | Some (bt, ty) =>
        Return
          (builds
           ++ map (λ lb,
                     {| manifest_branch := branch; bi_build_id := build_id lb;
                        build_target := bt; build_type := ty;
                        artifact_type_of := artifact_type; artifacts := [] |})
                  (List.filter successful listed))
    | None =>
        if existsb successful listed
        then Raise (Exc ValueError "too many values to unpack")
        else Return builds
    end.
Proof.
  revert builds. induction listed as [|lb listed IH]; intros builds; simpl.
  - destruct (target_parts target) as [[bt ty]|]; by rewrite ?app_nil_r.
  - destruct (successful lb) eqn:Hlb; simpl.
    + rewrite make_build_parts.
      destruct (target_parts target) as [[bt ty]|] eqn:Hparts; [|done].
      rewrite IH, ?Hparts. by rewrite <- app_assoc.
    + apply IH.
Qed.

(** [UpdateBuild] lists the targets in order and stops at the first one
    that fails. *)
Lemma list_targets_listing (w : World)
    (account_id branch artifact_type : string) (targets : list string)
    (builds : list build_info) :
  ∃ listed,
    listed `prefix_of` targets
    ∧ (list_targets w account_id branch artifact_type targets builds).2
      = map (λ target, PabGetBuildList account_id branch target 100) listed
    ∧ (∀ r, (list_targets w account_id branch artifact_type targets builds).1
            = Return r → listed = targets).
Proof.
  revert builds. induction targets as [|target targets IH]; intros builds.
  - exists []. by split_and!.
  - simpl.
    destruct (pab_GetBuildList w account_id branch target) as [listed|e].
    2: { exists [target]. split_and!; [|done|done].
         by apply prefix_cons, prefix_nil. }
    destruct (add_listed_builds branch target artifact_type listed builds)
      as [builds'|e].
    2: { exists [target]. split_and!; [|done|done].
         by apply prefix_cons, prefix_nil. }
    destruct (IH builds') as (rest & Hprefix & Hev & Hall).
    destruct (list_targets w account_id branch artifact_type targets builds')
      as [r ev]. simpl in *.
    exists (target :: rest). split_and!.
    + by apply prefix_cons.
    + by rewrite Hev.
    + intros r' ->. by rewrite (Hall r' eq_refl).
Qed.

(** X15.  [UpdateBuild] uploads at most once, as its last step: it
    authenticates, lists the targets in order, and only when every
    target has been listed and turned into builds does it upload, one
    list for all targets.  If authentication, a listing or the reading of
    a target name fails, it raises with nothing uploaded; and what the
    upload returns ([True] or [False]) is dropped. *)
Theorem UpdateBuild_uploads_last_or_never
    (w : World) (account_id branch targets artifact_type : string) :
  ∃ listed,
    listed `prefix_of` split_on "," targets
    ∧ ((∃ e, UpdateBuild w account_id branch targets artifact_type
             = (Raise e,
                PabAuthenticate
                :: map (λ target,
                          PabGetBuildList account_id branch target 100)
                       listed))
       ∨ (∃ builds,
            listed = split_on "," targets
            ∧ UpdateBuild w account_id branch targets artifact_type
              = (ignore_value (vti_UploadBuildInfo w builds),
                 PabAuthenticate
                 :: map (λ target,
                           PabGetBuildList account_id branch target 100)
                        listed
                 ++ [VtiUploadBuildInfo builds]))).
Proof.
  unfold UpdateBuild. unfold ebind at 1, eemit at 1.
  unfold ebind at 1, elift at 1.
  destruct (pab_Authenticate w) as [[]|e].
  2: { exists []. split; [apply prefix_nil|]. left. by exists e. }
  destruct (list_targets_listing w account_id branch artifact_type
              (split_on "," targets) []) as (listed & Hprefix & Hev & Hall).
  exists listed. split; [done|]. unfold ebind at 1.
  destruct (list_targets w account_id branch artifact_type
              (split_on "," targets) []) as [[builds|e] ev]; simpl in *.
  - right. exists builds. split; [by apply (Hall builds)|].
    unfold ebind, eemit, elift. rewrite Hev.
    destruct (vti_UploadBuildInfo w builds); simpl; by rewrite ?app_nil_r.
  - left. exists e. by rewrite Hev.
Qed.

Lemma list_targets_all (w : World)
    (account_id branch artifact_type : string) (targets : list string)
    (builds : list build_info) :
  (∀ target, target ∈ targets →
     (∃ listed, pab_GetBuildList w account_id branch target = Return listed)
     ∧ is_Some (target_parts target)) →
  list_targets w account_id branch artifact_type targets builds
  = (Return
       (builds
        ++ concat (map (uploaded_for w account_id branch artifact_type)
                       targets)),
     map (λ target, PabGetBuildList account_id branch target 100) targets).
Proof.
  revert builds. induction targets as [|target targets IH];
    intros builds Hall; simpl; [by rewrite app_nil_r|].
  destruct (Hall target) as [[listed Hlisted] [[bt ty] Hparts]]; [left|].
  unfold uploaded_for at 1. rewrite Hlisted, Hparts.
  rewrite add_listed_builds_parts, Hparts, IH.
  - simpl. by rewrite app_assoc.
  - intros target' Hin. apply Hall. by right.
Qed.

(** X16.  When authentication succeeds, every target is listed and
    every target name has at most one dash, [UpdateBuild] makes one
    listing call per comma-separated target, in order, and uploads one
    build for each build listed as successful, target by target in the
    order listed, skipping the unsuccessful ones; an upload that reports
    [False] still lets [UpdateBuild] return normally. *)
Theorem UpdateBuild_uploads_the_successful_builds
    (w : World) (account_id branch targets artifact_type : string) :
  pab_Authenticate w = Return tt →
  (∀ target, target ∈ split_on "," targets →
     (∃ listed, pab_GetBuildList w account_id branch target = Return listed)
     ∧ is_Some (target_parts target)) →
  let builds :=
    concat (map (uploaded_for w account_id branch artifact_type)
                (split_on "," targets)) in
  UpdateBuild w account_id branch targets artifact_type
  = (ignore_value (vti_UploadBuildInfo w builds),
     PabAuthenticate
     :: map (λ target, PabGetBuildList account_id branch target 100)
            (split_on "," targets)
     ++ [VtiUploadBuildInfo builds]).
Proof.
  intros Hauth Hall builds. unfold UpdateBuild.
  unfold ebind at 1, eemit at 1. unfold ebind at 1, elift at 1.
  rewrite Hauth. unfold ebind at 1.
  rewrite (list_targets_all w account_id branch artifact_type _ [] Hall).
  simpl. fold builds. unfold ebind, eemit, elift.
  destruct (vti_UploadBuildInfo w builds); simpl; by rewrite ?app_nil_r.
Qed.

Lemma UpdateBuild_uploads_the_successful_builds_witness :
  UpdateBuild two_builds_world "543365459" "b" "x-userdebug,y" "device"
  = (Return tt,
     [PabAuthenticate;
      PabGetBuildList "543365459" "b" "x-userdebug" 100;
      PabGetBuildList "543365459" "b" "y" 100;
      VtiUploadBuildInfo
        [{| manifest_branch := "b"; bi_build_id := "42";
            build_target := "x"; build_type := "userdebug";
            artifact_type_of := "device"; artifacts := [] |};
         {| manifest_branch := "b"; bi_build_id := "42";
            build_target := "y"; build_type := "";
            artifact_type_of := "device"; artifacts := [] |}]]).
Proof.
  apply (UpdateBuild_uploads_the_successful_builds
           two_builds_world "543365459" "b" "x-userdebug,y" "device").
  - reflexivity.
  - intros target Hin.
    repeat (apply elem_of_cons in Hin as [->|Hin]);
      [| |by apply elem_of_nil in Hin]; (split; [by eexists|by eexists]).
Defined.

(** X17.  How [UpdateBuild] reads a target name: without a dash the
    whole name is the build target and the build type is empty; with one
    dash the part before it is the build target and the part after it the
    build type; with two or more dashes the tuple assignment raises
    [ValueError] for the first build listed as successful, and the target
    is passed over without error as long as no build is successful. *)
Theorem target_names_with_dashes
    (branch artifact_type : string) (lb : listed_build)
    (listed : list listed_build) (builds : list build_info) :
  (∀ target,
     has_char "-" target = false →
     make_build branch target artifact_type lb
     = Return {| manifest_branch := branch; bi_build_id := build_id lb;
                 build_target := target; build_type := "";
                 artifact_type_of := artifact_type; artifacts := [] |})
  ∧ (∀ bt ty,
       has_char "-" bt = false → has_char "-" ty = false →
       make_build branch (bt +:+ "-" +:+ ty) artifact_type lb
       = Return {| manifest_branch := branch; bi_build_id := build_id lb;
                   build_target := bt; build_type := ty;
                   artifact_type_of := artifact_type; artifacts := [] |})
  ∧ (∀ a b rest,
       has_char "-" a = false → has_char "-" b = false →
       make_build branch (a +:+ "-" +:+ b +:+ "-" +:+ rest) artifact_type lb
       = Raise (Exc ValueError "too many values to unpack")
       ∧ add_listed_builds branch (a +:+ "-" +:+ b +:+ "-" +:+ rest)
           artifact_type listed builds
         = if existsb successful listed
           then Raise (Exc ValueError "too many values to unpack")
           else Return builds).
Proof.
  split_and!.
  - intros target Hfree. unfold make_build. by rewrite Hfree.
  - intros bt ty Hbt Hty. unfold make_build.
    rewrite has_char_app, Hbt. simpl.
    change ("-" +:+ ty) with (String "-" ty).
    rewrite (split_on_app "-" bt ty Hbt), (split_on_no_sep "-" ty Hty).
    reflexivity.
  - intros a b rest Ha Hb.
    assert (target_parts (a +:+ "-" +:+ b +:+ "-" +:+ rest) = None) as Hnone.
    { unfold target_parts. rewrite has_char_app, Ha. simpl.
      change ("-" +:+ rest) with (String "-" rest).
      change ("-" +:+ b +:+ String "-" rest)
        with (String "-" (b +:+ String "-" rest)).
      rewrite (split_on_app "-" a _ Ha), (split_on_app "-" b _ Hb).
      destruct (split_on_head "-" rest) as (p & ps & -> & _). done. }
    by rewrite make_build_parts, add_listed_builds_parts, Hnone.
Qed.

Lemma target_names_with_dashes_witness :
  make_build "b" "aosp_arm64-userdebug" "device"
             {| successful := true; build_id := "42" |}
  = Return {| manifest_branch := "b"; bi_build_id := "42";
              build_target := "aosp_arm64"; build_type := "userdebug";
              artifact_type_of := "device"; artifacts := [] |}.
Proof.
  destruct (target_names_with_dashes "b" "device"
              {| successful := true; build_id := "42" |} [] [])
    as (_ & Hone & _).
  apply (Hone "aosp_arm64" "userdebug"); reflexivity.
Defined.

(** ** The endpoint client: constructor and uploads *)

Lemma prefix_append (p s t : string) :
  String.prefix p s = true → String.prefix p (s +:+ t) = true.
Proof.
  revert s. induction p as [|a p IH]; intros s.
  - intros _. by destruct (s +:+ t).
  - destruct s as [|b s]; simpl; [done|].
    destruct (ascii_dec a b); [apply IH|done].
Qed.

Lemma prefix_self_append (p t : string) : String.prefix p (p +:+ t) = true.
Proof.
  induction p as [|a p IH]; simpl; [by destruct t|].
  by destruct (ascii_dec a a).
Qed.

Lemma endswith_append (suffix s : string) :
  endswith suffix s = true ↔ ∃ h, s = h +:+ suffix.
Proof.
  split.
  - induction s as [|a s IH]; simpl.
    + destruct (String.eqb_spec suffix ""); [|done]. subst. by exists "".
    + destruct (String.eqb_spec suffix (String a s)) as [->|_].
      * by exists "".
      * simpl. intros [h ->]%IH. by exists (String a h).
  - intros [h ->]. induction h as [|a h IH]; simpl.
    + destruct suffix; simpl; by rewrite ?String.eqb_refl, ?Ascii.eqb_refl.
    + rewrite IH. by rewrite orb_true_r.
Qed.

Lemma endswith_self_append (h suffix : string) :
  endswith suffix (h +:+ suffix) = true.
Proof. apply endswith_append. by exists h. Qed.

Lemma append_assoc (s1 s2 s3 : string) :
  (s1 +:+ s2) +:+ s3 = s1 +:+ (s2 +:+ s3).
Proof.
  induction s1 as [|a s1 IH]; [done|].
  change (String a ((s1 +:+ s2) +:+ s3) = String a (s1 +:+ (s2 +:+ s3))).
  by rewrite IH.
Qed.

Lemma length_append (s1 s2 : string) :
  String.length (s1 +:+ s2) = (String.length s1 + String.length s2)%nat.
Proof.
  induction s1 as [|a s1 IH]; [done|].
  change (S (String.length (s1 +:+ s2))
          = S (String.length s1 + String.length s2)).
  by rewrite IH.
Qed.

(** The last character of a string. *)
Lemma append_last_char (s : string) (a : ascii) :
  String.get (String.length s) (s +:+ String a "") = Some a.
Proof.
  induction s as [|b s IH]; [done|].
  change (String.get (String.length s) (s +:+ String a "") = Some a).
  exact IH.
Qed.

Lemma not_endswith_appspot_after_api (url : string) :
  endswith "appspot.com" (url +:+ "/_ah/api/") = false.
Proof.
  destruct (endswith "appspot.com" (url +:+ "/_ah/api/")) eqn:Hends; [|done].
  apply endswith_append in Hends as [h Hh].
  pose proof (append_last_char (url +:+ "/_ah/api") "/") as H1.
  pose proof (append_last_char (h +:+ "appspot.co") "m") as H2.
  rewrite append_assoc in H1, H2.
  change ("/_ah/api" +:+ "/") with "/_ah/api/" in H1.
  change ("appspot.co" +:+ "m") with "appspot.com" in H2.
  rewrite Hh in H1. rewrite !length_append in H1, H2.
  apply (f_equal String.length) in Hh. rewrite !length_append in Hh.
  simpl in Hh, H1, H2.
  replace (String.length url + 8)%nat with (String.length h + 10)%nat in H1
    by lia.
  rewrite H2 in H1. discriminate.
Qed.

Module VtiUploadsProperties.
Import VtiEndpointClient VtiUploads.

(** X18.  The URL the client keeps always starts with [https://] or
    [http://] ([https://] is put in front of a URL that has neither); a
    URL that then ends in [appspot.com] gets [/_ah/api/] appended; and
    building a client from the URL of a client gives the same URL. *)
Theorem client_url_is_normalised (url : string) :
  (String.prefix "https://" (client_url url) = true
   ∨ String.prefix "http://" (client_url url) = true)
  ∧ (String.prefix "https://" url = false →
     String.prefix "http://" url = false →
     String.prefix "https://" (client_url url) = true)
  ∧ (endswith "appspot.com" url = true →
     endswith "appspot.com/_ah/api/" (client_url url) = true)
  ∧ client_url (client_url url) = client_url url.
Proof.
  assert (∀ u, String.prefix "https://" u = true
               ∨ String.prefix "http://" u = true →
               client_url u
               = if endswith "appspot.com" u then u +:+ "/_ah/api/" else u)
    as Hscheme.
  { intros u Hu. unfold client_url.
    by destruct Hu as [-> | ->]; rewrite ?andb_false_r. }
  assert (String.prefix "https://" url = false →
          String.prefix "http://" url = false →
          client_url url
          = if endswith "appspot.com" ("https://" +:+ url)
            then ("https://" +:+ url) +:+ "/_ah/api/"
            else "https://" +:+ url) as Hbare.
  { intros Hs Hp. unfold client_url. by rewrite Hs, Hp. }
  assert (∀ u : string,
            String.prefix "https://"
              (if endswith "appspot.com" ("https://" +:+ u)
               then ("https://" +:+ u) +:+ "/_ah/api/"
               else "https://" +:+ u) = true) as Hadded.
  { intros u. destruct (endswith "appspot.com" ("https://" +:+ u));
      [apply prefix_append|]; apply prefix_self_append. }
  assert (String.prefix "https://" (client_url url) = true
          ∨ String.prefix "http://" (client_url url) = true) as Hhas.
  { destruct (String.prefix "https://" url) eqn:Hs.
    - left. rewrite Hscheme by auto.
      destruct (endswith "appspot.com" url); [|done].
      by apply prefix_append.
    - destruct (String.prefix "http://" url) eqn:Hp.
      + right. rewrite Hscheme by auto.
        destruct (endswith "appspot.com" url); [|done].
        by apply prefix_append.
      + left. rewrite Hbare by done. apply Hadded. }
  split_and!; [done| | |].
  - intros Hs Hp. rewrite Hbare by done. apply Hadded.
  - intros Hends.
    assert (∀ u, endswith "appspot.com" u = true →
                 endswith "appspot.com/_ah/api/"
                   (if endswith "appspot.com" u
                    then u +:+ "/_ah/api/" else u) = true) as Hapi.
    { intros u Hu. rewrite Hu. apply endswith_append in Hu as [h ->].
      rewrite append_assoc.
      apply (endswith_self_append h "appspot.com/_ah/api/"). }
    destruct (String.prefix "https://" url) eqn:Hs;
      [|destruct (String.prefix "http://" url) eqn:Hp].
    + rewrite Hscheme by auto. by apply Hapi.
    + rewrite Hscheme by auto. by apply Hapi.
    + rewrite Hbare by done. apply Hapi.
      apply endswith_append in Hends as [h ->].
      rewrite <- append_assoc. apply endswith_self_append.
  - rewrite (Hscheme (client_url url) Hhas).
    destruct (endswith "appspot.com" (client_url url)) eqn:Hends; [|done].
    exfalso. revert Hends. unfold client_url.
    match goal with
    | |- context [if endswith "appspot.com" ?u then _ else _] =>
        destruct (endswith "appspot.com" u) eqn:Hu
    end.
    + by rewrite not_endswith_appspot_after_api.
    + by rewrite Hu.
Qed.

(** Witness of X18. *)
Lemma client_url_is_normalised_witness :
  String.prefix "https://" (client_url "vtslab.appspot.com") = true
  ∧ endswith "appspot.com/_ah/api/" (client_url "vtslab.appspot.com") = true.
Proof.
  destruct (client_url_is_normalised "vtslab.appspot.com")
    as (_ & Hscheme & Hapi & _).
  split; [apply Hscheme; reflexivity | apply Hapi; reflexivity].
Defined.

Section UploadProperties.

Variable _url : string.
Variable responses : nat → outcome Response.
Variable dumps : json → string.

Lemma answered_from_S (n k : nat) :
  answered_from responses n (S k) →
  (∃ response, responses n = Return response)
  ∧ answered_from responses (S n) k.
Proof.
  intros H. split.
  - destruct (H 0%nat) as [r Hr]; [lia|]. exists r.
    by rewrite Nat.add_0_r in Hr.
  - intros i Hi. destruct (H (S i)) as [r Hr]; [lia|]. exists r.
    by replace (S n + i)%nat with (n + S i)%nat by lia.
Qed.

Lemma answered_from_app (n k1 k2 : nat) :
  answered_from responses n (k1 + k2) →
  answered_from responses n k1 ∧ answered_from responses (n + k1) k2.
Proof.
  intros H. split.
  - intros i Hi. apply H. lia.
  - intros i Hi. destruct (H (k1 + i)%nat) as [r Hr]; [lia|]. exists r.
    by replace (n + k1 + i)%nat with (n + (k1 + i))%nat by lia.
Qed.

Lemma checked_post_answered (url data : string) (n : nat) :
  (∃ response, responses n = Return response) →
  ∃ ev, checked_post responses url data n
        = (Return (answer_ok responses n), S n, ev)
        ∧ posts_of ev = [(url, data)].
Proof.
  intros [r Hr]. unfold checked_post, ubind, post, answer_ok. rewrite Hr.
  destruct (decide (status_code r ≠ codes_ok)) as [Hne|Heq]; simpl.
  - rewrite bool_decide_eq_false_2 by done. eexists. by split.
  - rewrite bool_decide_eq_true_2 by (by destruct (decide (status_code r = codes_ok))).
    eexists. by split.
Qed.

Lemma checked_post_raises (url data : string) (n : nat) (e : exception) :
  responses n = Raise e →
  checked_post responses url data n = (Raise e, S n, [Post url data]).
Proof. intros Hr. unfold checked_post, ubind, post. by rewrite Hr. Qed.

Lemma posts_of_app (ev1 ev2 : list client_event) :
  posts_of (ev1 ++ ev2) = posts_of ev1 ++ posts_of ev2.
Proof. apply omap_app. Qed.

(** The loop of [UploadBuildInfo] when every request is answered. *)
Lemma post_builds_answered (url : string) (builds : list json) (fail : bool)
    (n : nat) :
  answered_from responses n (length builds) →
  ∃ ev, post_builds responses dumps url builds fail n
        = (Return (fail || negb (forallb (answer_ok responses)
                                         (seq n (length builds)))),
           (n + length builds)%nat, ev)
        ∧ posts_of ev = map (λ build, (url, dumps build)) builds.
Proof.
  revert fail n. induction builds as [|build rest IH]; intros fail n Hans.
  - exists []. simpl. unfold uret.
    by rewrite orb_false_r, Nat.add_0_r.
  - apply answered_from_S in Hans as [Hr Hrest].
    destruct (checked_post_answered url (dumps build) n Hr)
      as (ev1 & Hpost & Hev1).
    destruct (IH (if answer_ok responses n then fail else true) (S n) Hrest)
      as (ev2 & Hloop & Hev2).
    exists (ev1 ++ ev2). split.
    + simpl. unfold ubind at 1. rewrite Hpost, Hloop.
      replace (S n + length rest)%nat with (n + S (length rest))%nat by lia.
      do 3 f_equal.
      by destruct (answer_ok responses n), fail.
    + by rewrite posts_of_app, Hev1, Hev2.
Qed.

(** The loop of [UploadBuildInfo] when the request for the [k]-th build
    gets no response. *)
Lemma post_builds_raises (url : string) (builds : list json) (fail : bool)
    (n k : nat) (e : exception) :
  answered_from responses n k →
  (k < length builds)%nat →
  responses (n + k)%nat = Raise e →
  ∃ ev, post_builds responses dumps url builds fail n
        = (Raise e, (n + S k)%nat, ev)
        ∧ posts_of ev = map (λ build, (url, dumps build)) (take (S k) builds).
Proof.
  revert fail n k.
  induction builds as [|build rest IH]; intros fail n k Hans Hk Hr;
    [simpl in Hk; lia|].
  destruct k as [|k].
  - rewrite Nat.add_0_r in Hr. exists [Post url (dumps build)]. split.
    + simpl. unfold ubind at 1.
      rewrite (checked_post_raises _ _ _ _ Hr). do 2 f_equal. lia.
    + reflexivity.
  - apply answered_from_S in Hans as [Hr0 Hrest].
    destruct (checked_post_answered url (dumps build) n Hr0)
      as (ev1 & Hpost & Hev1).
    destruct (IH (if answer_ok responses n then fail else true) (S n) k)
      as (ev2 & Hloop & Hev2); [done|simpl in Hk; lia| |].
    { by replace (S n + k)%nat with (n + S k)%nat by lia. }
    exists (ev1 ++ ev2). split.
    + simpl. unfold ubind at 1. rewrite Hpost, Hloop.
      do 2 f_equal. lia.
    + rewrite posts_of_app, Hev1, Hev2. done.
Qed.

(** X19.  When every request is answered, [UploadBuildInfo] posts every
    build, in the order of the list, to [build_info/v1/set], also after a
    request has failed; it makes no other request, and returns [True]
    exactly when every answer had the status [ok]. *)
Theorem UploadBuildInfo_posts_every_build (builds : list json) (n : nat) :
  answered_from responses n (length builds) →
  ∃ ev, UploadBuildInfo _url responses dumps builds n
        = (Return (forallb (answer_ok responses) (seq n (length builds))),
           (n + length builds)%nat, ev)
        ∧ posts_of ev
          = map (λ build, (_url +:+ "build_info/v1/set", dumps build)) builds.
Proof.
  intros Hans.
  destruct (post_builds_answered (_url +:+ "build_info/v1/set") builds false
              n Hans) as (ev & Hloop & Hev).
  exists ev. split; [|done].
  unfold UploadBuildInfo, ubind. rewrite Hloop. simpl.
  destruct (forallb _ _); simpl; unfold uret; by rewrite app_nil_r.
Qed.

(** X20.  When the request for the [k]-th build gets no response (the
    earlier ones did), [UploadBuildInfo] raises what [requests.post]
    raised: the builds after the [k]-th are not posted. *)
Theorem UploadBuildInfo_stops_at_a_raising_request (builds : list json)
    (n k : nat) (e : exception) :
  answered_from responses n k →
  (k < length builds)%nat →
  responses (n + k)%nat = Raise e →
  ∃ ev, UploadBuildInfo _url responses dumps builds n
        = (Raise e, (n + S k)%nat, ev)
        ∧ posts_of ev
          = map (λ build, (_url +:+ "build_info/v1/set", dumps build))
                (take (S k) builds).
Proof.
  intros Hans Hk Hr.
  destruct (post_builds_raises (_url +:+ "build_info/v1/set") builds false
              n k e Hans Hk Hr) as (ev & Hloop & Hev).
  exists ev. split; [|done].
  unfold UploadBuildInfo, ubind. by rewrite Hloop.
Qed.

Lemma bind_singleton {A B} (g : A → B) (l : list A) :
  l ≫= (λ x, [g x]) = map g l.
Proof. induction l as [|x l IH]; [done|]. simpl. by f_equal. Qed.

Lemma forallb_seq_app (f : nat → bool) (n k1 k2 : nat) :
  forallb f (seq n (k1 + k2))
  = forallb f (seq n k1) && forallb f (seq (n + k1) k2).
Proof. by rewrite List.seq_app, forallb_app. Qed.

(** The innermost loop of [UploadScheduleInfo]. *)
Lemma post_test_schedules_answered (url : string) (pb : schedule_message)
    (bt : build_target_schedule) (schedules : list test_schedule)
    (succ : bool) (n : nat) :
  answered_from responses n (length schedules) →
  ∃ ev, post_test_schedules responses dumps url pb bt schedules succ n
        = (Return (succ && forallb (answer_ok responses)
                                   (seq n (length schedules))),
           (n + length schedules)%nat, ev)
        ∧ posts_of ev
          = map (λ ts, (url, dumps (schedule_payload pb bt ts))) schedules.
Proof.
  revert succ n. induction schedules as [|ts rest IH]; intros succ n Hans.
  - exists []. simpl. unfold uret. by rewrite andb_true_r, Nat.add_0_r.
  - apply answered_from_S in Hans as [Hr Hrest].
    destruct (checked_post_answered url (dumps (schedule_payload pb bt ts))
                n Hr) as (ev1 & Hpost & Hev1).
    destruct (IH (if answer_ok responses n then succ else false) (S n) Hrest)
      as (ev2 & Hloop & Hev2).
    exists (ev1 ++ ev2). split.
    + simpl. unfold ubind at 1. rewrite Hpost, Hloop.
      replace (S n + length rest)%nat with (n + S (length rest))%nat by lia.
      do 3 f_equal.
      by destruct (answer_ok responses n), succ.
    + by rewrite posts_of_app, Hev1, Hev2.
Qed.

(** The loop of [UploadScheduleInfo] over the build targets of a
    message. *)
Lemma post_build_targets_answered (url : string) (pb : schedule_message)
    (targets : list build_target_schedule) (succ : bool) (n : nat) :
  answered_from responses n
    (length (targets ≫= λ bt, bt_test_schedule bt ≫= λ ts, [(pb, bt, ts)])) →
  ∃ ev, post_build_targets responses dumps url pb targets succ n
        = (Return
             (succ &&
              forallb (answer_ok responses)
                (seq n (length (targets ≫= λ bt,
                                  bt_test_schedule bt ≫= λ ts,
                                    [(pb, bt, ts)])))),
           (n + length (targets ≫= λ bt,
                          bt_test_schedule bt ≫= λ ts, [(pb, bt, ts)]))%nat,
           ev)
        ∧ posts_of ev
          = map (λ '(pb, bt, ts), (url, dumps (schedule_payload pb bt ts)))
                (targets ≫= λ bt, bt_test_schedule bt ≫= λ ts, [(pb, bt, ts)]).
Proof.
  revert succ n. induction targets as [|bt rest IH]; intros succ n Hans.
  - exists []. simpl. unfold uret. by rewrite andb_true_r, Nat.add_0_r.
  - simpl in *. rewrite bind_singleton in *.
    rewrite length_app, length_map in *.
    apply answered_from_app in Hans as [Hfirst Hrest].
    destruct (post_test_schedules_answered url pb bt (bt_test_schedule bt)
                succ n Hfirst) as (ev1 & Hinner & Hev1).
    destruct (IH (succ && forallb (answer_ok responses)
                              (seq n (length (bt_test_schedule bt))))
                 (n + length (bt_test_schedule bt))%nat Hrest)
      as (ev2 & Hloop & Hev2).
    exists (ev1 ++ ev2). split.
    + unfold ubind at 1. rewrite Hinner, Hloop.
      rewrite forallb_seq_app, andb_assoc, Nat.add_assoc. done.
    + rewrite posts_of_app, Hev1, Hev2, map_app, map_map. done.
Qed.

(** The outer loop of [UploadScheduleInfo]. *)
Lemma post_schedules_answered (url : string) (pbs : list schedule_message)
    (succ : bool) (n : nat) :
  answered_from responses n (length (all_test_schedules pbs)) →
  ∃ ev, post_schedules responses dumps url pbs succ n
        = (Return (succ && forallb (answer_ok responses)
                             (seq n (length (all_test_schedules pbs)))),
           (n + length (all_test_schedules pbs))%nat, ev)
        ∧ posts_of ev
          = map (λ '(pb, bt, ts), (url, dumps (schedule_payload pb bt ts)))
                (all_test_schedules pbs).
Proof.
  unfold all_test_schedules.
  revert succ n. induction pbs as [|pb rest IH]; intros succ n Hans.
  - exists []. simpl. unfold uret. by rewrite andb_true_r, Nat.add_0_r.
  - simpl in *. rewrite length_app in *.
    apply answered_from_app in Hans as [Hfirst Hrest].
    destruct (post_build_targets_answered url pb (sm_build_target pb)
                succ n Hfirst) as (ev1 & Hinner & Hev1).
    destruct (IH (succ && forallb (answer_ok responses)
                              (seq n (length (sm_build_target pb ≫= λ bt,
                                                bt_test_schedule bt ≫= λ ts,
                                                  [(pb, bt, ts)]))))
                 _ Hrest) as (ev2 & Hloop & Hev2).
    exists (ev1 ++ ev2). split.
    + unfold ubind at 1. rewrite Hinner, Hloop.
      rewrite forallb_seq_app, andb_assoc, Nat.add_assoc. done.
    + rewrite posts_of_app, Hev1, Hev2, map_app. done.
Qed.

(** X21.  [UploadScheduleInfo] returns [False] without any request when
    it is given [None] or an empty list; and when the answer to the
    request that clears the schedules has another status than [ok], it
    prints the error and returns [False], and that request is its only
    one: no schedule is set. *)
Theorem UploadScheduleInfo_sets_nothing_unless_cleared
    (pbs : option (list schedule_message)) (n : nat) :
  (pbs = None ∨ pbs = Some [] →
   UploadScheduleInfo _url responses dumps pbs n = (Return false, n, []))
  ∧ (∀ schedules response,
       pbs = Some schedules → schedules ≠ [] →
       responses n = Return response →
       status_code response ≠ codes_ok →
       UploadScheduleInfo _url responses dumps pbs n
       = (Return false, S n,
          [Post (_url +:+ "schedule_info/v1/clear")
                (dumps (JObj {["manifest_branch" := JStr "na"]}));
           Printed ("UploadDeviceInfo error: " +:+ response_str response)])).
Proof.
  split.
  - by intros [-> | ->].
  - intros schedules response -> Hne Hr Hstatus.
    destruct schedules as [|pb rest]; [done|].
    unfold UploadScheduleInfo, ubind at 1, checked_post, ubind, post.
    rewrite Hr. by destruct (decide (status_code response ≠ codes_ok)).
Qed.

(** X22.  When the schedules were cleared and every request is answered,
    [UploadScheduleInfo] posts one request to [schedule_info/v1/set] for
    every test schedule of every build target of every message, in the
    order of the three loops, each with the branch of its message, its
    build target alone in a list, and its own six fields; it goes on
    after a failed request, and returns [True] exactly when all the
    answers had the status [ok]. *)
Theorem UploadScheduleInfo_posts_every_test_schedule
    (schedules : list schedule_message) (n : nat) :
  schedules ≠ [] →
  answered_from responses n (S (length (all_test_schedules schedules))) →
  answer_ok responses n = true →
  ∃ ev, UploadScheduleInfo _url responses dumps (Some schedules) n
        = (Return (forallb (answer_ok responses)
                     (seq (S n) (length (all_test_schedules schedules)))),
           (S n + length (all_test_schedules schedules))%nat, ev)
        ∧ posts_of ev
          = (_url +:+ "schedule_info/v1/clear",
             dumps (JObj {["manifest_branch" := JStr "na"]}))
            :: map (λ '(pb, bt, ts),
                      (_url +:+ "schedule_info/v1/set",
                       dumps (schedule_payload pb bt ts)))
                   (all_test_schedules schedules).
Proof.
  intros Hne Hans Hok.
  apply answered_from_S in Hans as [Hr Hrest].
  destruct (checked_post_answered (_url +:+ "schedule_info/v1/clear")
              (dumps (JObj {["manifest_branch" := JStr "na"]})) n Hr)
    as (ev1 & Hpost & Hev1).
  destruct (post_schedules_answered (_url +:+ "schedule_info/v1/set")
              schedules true (S n) Hrest) as (ev2 & Hloop & Hev2).
  exists (ev1 ++ ev2). split.
  - destruct schedules as [|pb rest]; [done|].
    unfold UploadScheduleInfo, ubind at 1. rewrite Hpost, Hok.
    cbn [negb]. by rewrite Hloop.
  - by rewrite posts_of_app, Hev1, Hev2.
Qed.

(** The loop of [UploadLabInfo]. *)
Lemma post_labs_answered (url : string) (pbs : list lab_message)
    (succ : bool) (n : nat) :
  answered_from responses n (length pbs) →
  ∃ ev, post_labs responses dumps url pbs succ n
        = (Return (succ && forallb (answer_ok responses)
                             (seq n (length pbs))),
           (n + length pbs)%nat, ev)
        ∧ posts_of ev = map (λ pb, (url, dumps (lab_payload pb))) pbs.
Proof.
  revert succ n. induction pbs as [|pb rest IH]; intros succ n Hans.
  - exists []. simpl. unfold uret. by rewrite andb_true_r, Nat.add_0_r.
  - apply answered_from_S in Hans as [Hr Hrest].
    destruct (checked_post_answered url (dumps (lab_payload pb)) n Hr)
      as (ev1 & Hpost & Hev1).
    destruct (IH (if answer_ok responses n then succ else false) (S n) Hrest)
      as (ev2 & Hloop & Hev2).
    exists (ev1 ++ ev2). split.
    + simpl. unfold ubind at 1. rewrite Hpost, Hloop.
      replace (S n + length rest)%nat with (n + S (length rest))%nat by lia.
      do 3 f_equal.
      by destruct (answer_ok responses n), succ.
    + by rewrite posts_of_app, Hev1, Hev2.
Qed.

(** X23.  Given [None] or an empty list, [UploadLabInfo] makes no request
    and returns [None], not [False]; and when the answer to the request
    that clears the labs has another status than [ok], it prints the
    error and returns [False], and that request is its only one. *)
Theorem UploadLabInfo_sets_nothing_unless_cleared
    (pbs : option (list lab_message)) (n : nat) :
  (pbs = None ∨ pbs = Some [] →
   UploadLabInfo _url responses dumps pbs n = (Return None, n, []))
  ∧ (∀ labs response,
       pbs = Some labs → labs ≠ [] →
       responses n = Return response →
       status_code response ≠ codes_ok →
       UploadLabInfo _url responses dumps pbs n
       = (Return (Some false), S n,
          [Post (_url +:+ "lab_info/v1/clear")
                (dumps (JObj {["name" := JStr "na"]}));
           Printed ("UploadDeviceInfo error: " +:+ response_str response)])).
Proof.
  split.
  - by intros [-> | ->].
  - intros labs response -> Hne Hr Hstatus.
    destruct labs as [|pb rest]; [done|].
    unfold UploadLabInfo, ubind at 1, checked_post, ubind, post.
    rewrite Hr. by destruct (decide (status_code response ≠ codes_ok)).
Qed.

(** X24.  When the labs were cleared and every request is answered,
    [UploadLabInfo] posts one request to [lab_info/v1/set] for every lab,
    in the order of the list, with the name, the owner and the hosts of
    the lab; it goes on after a failed request, and returns [True]
    exactly when all the answers had the status [ok]. *)
Theorem UploadLabInfo_posts_every_lab (labs : list lab_message) (n : nat) :
  labs ≠ [] →
  answered_from responses n (S (length labs)) →
  answer_ok responses n = true →
  ∃ ev, UploadLabInfo _url responses dumps (Some labs) n
        = (Return (Some (forallb (answer_ok responses)
                           (seq (S n) (length labs)))),
           (S n + length labs)%nat, ev)
        ∧ posts_of ev
          = (_url +:+ "lab_info/v1/clear", dumps (JObj {["name" := JStr "na"]}))
            :: map (λ pb, (_url +:+ "lab_info/v1/set", dumps (lab_payload pb)))
                   labs.
Proof.
  intros Hne Hans Hok.
  apply answered_from_S in Hans as [Hr Hrest].
  destruct (checked_post_answered (_url +:+ "lab_info/v1/clear")
              (dumps (JObj {["name" := JStr "na"]})) n Hr)
    as (ev1 & Hpost & Hev1).
  destruct (post_labs_answered (_url +:+ "lab_info/v1/set")
              labs true (S n) Hrest) as (ev2 & Hloop & Hev2).
  exists (ev1 ++ (ev2 ++ [])). split.
  - destruct labs as [|pb rest]; [done|].
    unfold UploadLabInfo, ubind at 1. rewrite Hpost, Hok.
    cbn [negb]. unfold ubind. by rewrite Hloop.
  - by rewrite app_nil_r, posts_of_app, Hev1, Hev2.
Qed.

(** One round of the loop of [UploadDeviceInfo]. *)
Lemma device_entries_reported (device : gmap string json)
    (rest : list (gmap string json)) (entries : list json) (entry : json)
    (n : nat) :
  reported_device device = Some entry →
  device_entries (device :: rest) entries n
  = device_entries rest (entries ++ [entry]) n.
Proof.
  unfold reported_device. intros Hentry.
  destruct (device !! "serial") as [serial|] eqn:Hserial; [|done].
  destruct (device !! "product") as [product|] eqn:Hproduct; [|done].
  destruct (device !! "status") as [status|] eqn:Hstatus; [|done].
  injection Hentry as <-.
  simpl. unfold ubind, field. rewrite Hserial, Hproduct, Hstatus. simpl.
  by destruct (device_entries rest _ n) as [[r n'] ev].
Qed.

Lemma device_entries_missing (device : gmap string json)
    (rest : list (gmap string json)) (entries : list json) (n : nat) :
  reported_device device = None →
  ∃ key, key ∈ ["serial"; "product"; "status"]
         ∧ device_entries (device :: rest) entries n
           = (Raise (Exc KeyError (repr_key (Some key))), n, []).
Proof.
  unfold reported_device. intros Hentry.
  simpl. unfold ubind, field.
  destruct (device !! "serial") as [serial|] eqn:Hserial;
    [|exists "serial"; split; [set_solver|done]].
  destruct (device !! "product") as [product|] eqn:Hproduct;
    [|exists "product"; split; [set_solver|done]].
  destruct (device !! "status") as [status|] eqn:Hstatus;
    [done|exists "status"; split; [set_solver|done]].
Qed.

(** The loop of [UploadDeviceInfo] over devices that have the three
    fields. *)
Lemma device_entries_returns (devices : list (gmap string json))
    (reported entries : list json) (n : nat) :
  mapM reported_device devices = Some reported →
  device_entries devices entries n = (Return (entries ++ reported), n, []).
Proof.
  revert reported entries.
  induction devices as [|device rest IH]; intros reported entries Hall.
  - injection Hall as <-. simpl. unfold uret. by rewrite app_nil_r.
  - change (mapM reported_device (device :: rest))
      with (y ← reported_device device;
            k ← mapM reported_device rest; mret (y :: k)) in Hall.
    destruct (reported_device device) as [entry|] eqn:Hentry; [|done].
    simpl in Hall.
    destruct (mapM reported_device rest) as [rest'|] eqn:Hrest; [|done].
    injection Hall as <-.
    rewrite (device_entries_reported _ _ _ _ _ Hentry).
    rewrite (IH rest' _ eq_refl). by rewrite <- app_assoc.
Qed.

(** The loop of [UploadDeviceInfo] when a device lacks a field. *)
Lemma device_entries_raises (devices : list (gmap string json))
    (entries : list json) (n : nat) :
  mapM reported_device devices = None →
  ∃ key, key ∈ ["serial"; "product"; "status"]
         ∧ device_entries devices entries n
           = (Raise (Exc KeyError (repr_key (Some key))), n, []).
Proof.
  revert entries.
  induction devices as [|device rest IH]; intros entries Hall; [done|].
  change (mapM reported_device (device :: rest))
    with (y ← reported_device device;
          k ← mapM reported_device rest; mret (y :: k)) in Hall.
  destruct (reported_device device) as [entry|] eqn:Hentry.
  - simpl in Hall.
    destruct (mapM reported_device rest) as [rest'|] eqn:Hrest; [done|].
    rewrite (device_entries_reported _ _ _ _ _ Hentry).
    by apply IH.
  - by apply device_entries_missing.
Qed.

(** X25.  When one of the devices, wherever it is in the list, has no
    serial, product or status, [UploadDeviceInfo] raises a [KeyError] for
    one of these keys before it makes any request. *)
Theorem UploadDeviceInfo_needs_the_three_fields (hostname : string)
    (devices : list (gmap string json)) (n : nat) :
  mapM reported_device devices = None →
  ∃ key, key ∈ ["serial"; "product"; "status"]
         ∧ UploadDeviceInfo _url responses dumps hostname devices n
           = (Raise (Exc KeyError (repr_key (Some key))), n, []).
Proof.
  intros Hall.
  destruct (device_entries_raises devices [] n Hall) as (key & Hkey & Hraise).
  exists key. split; [done|].
  unfold UploadDeviceInfo, ubind. by rewrite Hraise.
Qed.

(** X26.  When every device has a serial, a product and a status,
    [UploadDeviceInfo] makes exactly one request, to [host_info/v1/set],
    with the host name and, for every device in order, only these three
    fields; it returns [True] exactly when the answer has the status
    [ok]. *)
Theorem UploadDeviceInfo_posts_once (hostname : string)
    (devices : list (gmap string json)) (reported : list json) (n : nat) :
  mapM reported_device devices = Some reported →
  (∃ response, responses n = Return response) →
  ∃ ev, UploadDeviceInfo _url responses dumps hostname devices n
        = (Return (answer_ok responses n), S n, ev)
        ∧ posts_of ev
          = [(_url +:+ "host_info/v1/set",
              dumps (JObj {["hostname" := JStr hostname;
                            "devices" := JArr reported]}))].
Proof.
  intros Hall Hr.
  destruct (checked_post_answered (_url +:+ "host_info/v1/set")
              (dumps (JObj {["hostname" := JStr hostname;
                             "devices" := JArr reported]})) n Hr)
    as (ev & Hpost & Hev).
  exists ev. split; [|done].
  unfold UploadDeviceInfo, ubind.
  rewrite (device_entries_returns devices reported [] n Hall).
  change ([] ++ reported) with reported. by rewrite Hpost.
Qed.

End UploadProperties.

(** Witness of X19: three builds, the answer to the second request is a
    failure. *)
Lemma UploadBuildInfo_posts_every_build_witness :
  ∃ ev, UploadBuildInfo "https://vti/" second_fails example_dumps
          [JStr "a"; JStr "b"; JStr "c"] 0%nat
        = (Return false, 3%nat, ev)
        ∧ posts_of ev = [("https://vti/build_info/v1/set", "a");
                         ("https://vti/build_info/v1/set", "b");
                         ("https://vti/build_info/v1/set", "c")].
Proof.
  apply (UploadBuildInfo_posts_every_build "https://vti/" second_fails
           example_dumps [JStr "a"; JStr "b"; JStr "c"] 0%nat).
  intros i _. eexists. reflexivity.
Defined.

(** Witness of X20: four builds, the third request gets no response. *)
Lemma UploadBuildInfo_stops_at_a_raising_request_witness :
  ∃ ev, UploadBuildInfo "https://vti/" third_raises example_dumps
          [JStr "a"; JStr "b"; JStr "c"; JStr "d"] 0%nat
        = (Raise (Exc SocketError "timed out"), 3%nat, ev)
        ∧ posts_of ev = [("https://vti/build_info/v1/set", "a");
                         ("https://vti/build_info/v1/set", "b");
                         ("https://vti/build_info/v1/set", "c")].
Proof.
  apply (UploadBuildInfo_stops_at_a_raising_request "https://vti/"
           third_raises example_dumps
           [JStr "a"; JStr "b"; JStr "c"; JStr "d"] 0%nat 2%nat
           (Exc SocketError "timed out")).
  - intros i Hi. destruct i as [|[|i]]; [eexists; reflexivity..|lia].
  - simpl. lia.
  - reflexivity.
Defined.

(** Witness of X21: no schedules; and a failed clearing. *)
Lemma UploadScheduleInfo_sets_nothing_unless_cleared_witness :
  UploadScheduleInfo "https://vti/" second_fails example_dumps (Some []) 0%nat
  = (Return false, 0%nat, [])
  ∧ UploadScheduleInfo "https://vti/" second_fails example_dumps
      (Some example_schedules) 1%nat
    = (Return false, 2%nat,
       [Post "https://vti/schedule_info/v1/clear" "dict";
        Printed ("UploadDeviceInfo error: " +:+
                 response_str {| status_code := 500; text := "" |})]).
Proof.
  split.
  - apply (UploadScheduleInfo_sets_nothing_unless_cleared "https://vti/"
             second_fails example_dumps (Some []) 0%nat). by right.
  - apply (proj2 (UploadScheduleInfo_sets_nothing_unless_cleared
                    "https://vti/" second_fails example_dumps
                    (Some example_schedules) 1%nat)
             example_schedules {| status_code := 500; text := "" |});
      [reflexivity|discriminate|reflexivity|discriminate].
Defined.

(** Witness of X22: two test schedules, the first one is refused. *)
Lemma UploadScheduleInfo_posts_every_test_schedule_witness :
  ∃ ev, UploadScheduleInfo "https://vti/" second_fails example_dumps
          (Some example_schedules) 0%nat
        = (Return false, 3%nat, ev)
        ∧ posts_of ev
          = [("https://vti/schedule_info/v1/clear", "dict");
             ("https://vti/schedule_info/v1/set", "dict");
             ("https://vti/schedule_info/v1/set", "dict")].
Proof.
  apply (UploadScheduleInfo_posts_every_test_schedule "https://vti/"
           second_fails example_dumps example_schedules 0%nat).
  - discriminate.
  - intros i _. eexists. reflexivity.
  - reflexivity.
Defined.

(** Witness of X23: no labs; and a failed clearing. *)
Lemma UploadLabInfo_sets_nothing_unless_cleared_witness :
  UploadLabInfo "https://vti/" second_fails example_dumps None 0%nat
  = (Return None, 0%nat, [])
  ∧ UploadLabInfo "https://vti/" second_fails example_dumps
      (Some example_labs) 1%nat
    = (Return (Some false), 2%nat,
       [Post "https://vti/lab_info/v1/clear" "dict";
        Printed ("UploadDeviceInfo error: " +:+
                 response_str {| status_code := 500; text := "" |})]).
Proof.
  split.
  - apply (UploadLabInfo_sets_nothing_unless_cleared "https://vti/"
             second_fails example_dumps None 0%nat). by left.
  - apply (proj2 (UploadLabInfo_sets_nothing_unless_cleared
                    "https://vti/" second_fails example_dumps
                    (Some example_labs) 1%nat)
             example_labs {| status_code := 500; text := "" |});
      [reflexivity|discriminate|reflexivity|discriminate].
Defined.

(** Witness of X24: two labs, the first one is refused. *)
Lemma UploadLabInfo_posts_every_lab_witness :
  ∃ ev, UploadLabInfo "https://vti/" second_fails example_dumps
          (Some example_labs) 0%nat
        = (Return (Some false), 3%nat, ev)
        ∧ posts_of ev
          = [("https://vti/lab_info/v1/clear", "dict");
             ("https://vti/lab_info/v1/set", "dict");
             ("https://vti/lab_info/v1/set", "dict")].
Proof.
  apply (UploadLabInfo_posts_every_lab "https://vti/" second_fails
           example_dumps example_labs 0%nat).
  - discriminate.
  - intros i _. eexists. reflexivity.
  - reflexivity.
Defined.

(** Witness of X25: the second device has no product. *)
Lemma UploadDeviceInfo_needs_the_three_fields_witness :
  ∃ key, key ∈ ["serial"; "product"; "status"]
         ∧ UploadDeviceInfo "https://vti/" second_fails example_dumps "host1"
             [{["serial" := JStr "S1"; "product" := JStr "sailfish";
                "status" := JStr "device"]};
              {["serial" := JStr "S2"; "status" := JStr "device"]}] 0%nat
           = (Raise (Exc KeyError (repr_key (Some key))), 0%nat, []).
Proof.
  apply (UploadDeviceInfo_needs_the_three_fields "https://vti/" second_fails
           example_dumps "host1"
           [{["serial" := JStr "S1"; "product" := JStr "sailfish";
              "status" := JStr "device"]};
            {["serial" := JStr "S2"; "status" := JStr "device"]}] 0%nat).
  vm_compute. reflexivity.
Defined.

(** Witness of X26: a device with a fourth field, which is not sent. *)
Lemma UploadDeviceInfo_posts_once_witness :
  ∃ ev, UploadDeviceInfo "https://vti/" second_fails example_dumps "host1"
          [{["serial" := JStr "S1"; "product" := JStr "sailfish";
             "status" := JStr "device"; "owner" := JStr "me"]}] 0%nat
        = (Return true, 1%nat, ev)
        ∧ posts_of ev
          = [("https://vti/host_info/v1/set",
              example_dumps
                (JObj {["hostname" := JStr "host1";
                        "devices" :=
                          JArr [JObj {["serial" := JStr "S1";
                                       "product" := JStr "sailfish";
                                       "status" := JStr "device"]}]]}))].
Proof.
  apply (UploadDeviceInfo_posts_once "https://vti/" second_fails
           example_dumps "host1"
           [{["serial" := JStr "S1"; "product" := JStr "sailfish";
              "status" := JStr "device"; "owner" := JStr "me"]}]
           [JObj {["serial" := JStr "S1"; "product" := JStr "sailfish";
                   "status" := JStr "device"]}] 0%nat).
  - vm_compute. reflexivity.
  - eexists. reflexivity.
Defined.

End VtiUploadsProperties.

(** ** [UpdateDevice] for the server type [vti] *)

Lemma py_split_nil (s : string) : py_split s = [] → lstrip s = "".
Proof.
  induction s as [|a s IH]; [done|]. simpl.
  destruct (is_space a); [exact IH|].
  destruct s as [|b s]; [done|].
  destruct (is_space b); [done|]. by destruct (py_split (String b s)).
Qed.

(** A line with a character that is no white space has a first word. *)
Lemma not_blank_first_word (line : string) :
  (String.length (strip line) =? 0)%nat = false →
  ∃ word rest, py_split line = word :: rest.
Proof.
  intros Hlen. destruct (py_split line) as [|word rest] eqn:Hsplit;
    [|by eexists _, _].
  apply py_split_nil in Hsplit. unfold strip in Hlen.
  by rewrite Hsplit in Hlen.
Qed.

Module DeviceUpdateProperties.
Import VtiEndpointClient VtiUploads DeviceUpdate.

Lemma reported_device_three (serial product status : json) :
  reported_device {["serial" := serial; "product" := product;
                    "status" := status]}
  = Some (JObj {["serial" := serial; "product" := product;
                 "status" := status]}).
Proof.
  unfold reported_device.
  rewrite lookup_insert_eq. simpl.
  rewrite (lookup_insert_ne _ "serial" "product") by done.
  rewrite lookup_insert_eq. simpl.
  rewrite (lookup_insert_ne _ "serial" "status") by done.
  rewrite (lookup_insert_ne _ "product" "status") by done.
  by rewrite lookup_singleton_eq.
Qed.

Section UpdateDeviceProperties.

Variable ExecuteOneShellCommand : string → string * string * Z.
Variable _url : string.
Variable responses : nat → outcome Response.
Variable dumps : json → string.

(** The loop over the lines of [adb devices]: no line raises, every line
    that is not blank gives one device with the three fields, after one
    shell command. *)
Lemma adb_lines_reported (lines : list string)
    (devices : list (gmap string json)) :
  ∃ found,
    adb_lines ExecuteOneShellCommand lines devices
    = (Return (devices ++ found),
       map (λ line, ShellCommand (getprop_command line))
           (List.filter not_blank lines))
    ∧ Forall2 (λ device entry, reported_device device = Some entry) found
        (map (adb_device ExecuteOneShellCommand)
             (List.filter not_blank lines)).
Proof.
  revert devices. induction lines as [|line rest IH]; intros devices.
  - exists []. simpl. unfold eret. by rewrite app_nil_r.
  - cbn [adb_lines List.filter].
    destruct (String.length (strip line) =? 0)%nat eqn:Hblank.
    + replace (not_blank line) with false by (unfold not_blank; by rewrite Hblank).
      apply IH.
    + replace (not_blank line) with true by (unfold not_blank; by rewrite Hblank).
      destruct (not_blank_first_word line Hblank) as (word & ws & Hsplit).
      assert (getprop_command line
              = "adb -s " +:+ word +:+ " shell getprop ro.product.board")
        as Hcommand by (unfold getprop_command; by rewrite Hsplit).
      destruct (ExecuteOneShellCommand (getprop_command line))
        as [[stdout stderr] retcode] eqn:Hshell.
      assert (adb_device ExecuteOneShellCommand line
              = JObj {["serial" := JStr word;
                       "product" := JStr (if decide (retcode = 0)
                                          then strip stdout else "error");
                       "status" := JNumber 2]}) as Hdevice
        by (unfold adb_device; by rewrite Hshell, Hsplit).
      destruct (IH (devices ++
                    [{["serial" := JStr word;
                       "product" := JStr (if decide (retcode = 0)
                                          then strip stdout else "error");
                       "status" := JNumber 2]}]))
        as (found & Hloop & Hfound).
      eexists (_ :: found). cbn [map]. rewrite Hdevice. split.
      * unfold first_word. rewrite Hsplit.
        unfold ebind at 1, eret at 1. cbv beta iota.
        unfold shell. rewrite <- Hcommand.
        unfold ebind at 2. unfold eemit, eret at 1. cbv beta iota.
        rewrite Hshell. unfold ebind at 1. cbv beta iota.
        change (device_status "online") with (eret (JNumber 2)).
        unfold ebind at 1, eret at 1. cbv beta iota.
        rewrite Hloop. by rewrite <- app_assoc.
      * constructor; [|exact Hfound].
        apply reported_device_three.
Qed.

(** The loop over the lines of [fastboot devices]. *)
Lemma fastboot_lines_reported (lines : list string)
    (devices : list (gmap string json)) :
  ∃ found,
    fastboot_lines lines devices = (Return (devices ++ found), [])
    ∧ Forall2 (λ device entry, reported_device device = Some entry) found
        (map fastboot_device (List.filter not_blank lines)).
Proof.
  revert devices. induction lines as [|line rest IH]; intros devices.
  - exists []. simpl. unfold eret. by rewrite app_nil_r.
  - cbn [fastboot_lines List.filter].
    destruct (String.length (strip line) =? 0)%nat eqn:Hblank.
    + replace (not_blank line) with false by (unfold not_blank; by rewrite Hblank).
      apply IH.
    + replace (not_blank line) with true by (unfold not_blank; by rewrite Hblank).
      destruct (not_blank_first_word line Hblank) as (word & ws & Hsplit).
      assert (fastboot_device line
              = JObj {["serial" := JStr word; "product" := JStr "unknown";
                       "status" := JNumber 1]}) as Hdevice
        by (unfold fastboot_device; by rewrite Hsplit).
      destruct (IH (devices ++
                    [{["serial" := JStr word; "product" := JStr "unknown";
                       "status" := JNumber 1]}]))
        as (found & Hloop & Hfound).
      eexists (_ :: found). cbn [map]. rewrite Hdevice. split.
      * unfold first_word. rewrite Hsplit.
        unfold ebind at 1, eret at 1. cbv beta iota.
        change (device_status "fastboot") with (eret (JNumber 1)).
        unfold ebind at 1, eret at 1. cbv beta iota.
        rewrite Hloop. by rewrite <- app_assoc.
      * constructor; [|exact Hfound].
        apply reported_device_three.
Qed.

(** The devices found: the two loops never raise. *)
Lemma detect_devices_reported :
  ∃ found,
    detect_devices ExecuteOneShellCommand
    = (Return found,
       ShellCommand "adb devices"
       :: map (λ line, ShellCommand (getprop_command line))
              (attached_lines ExecuteOneShellCommand)
       ++ [ShellCommand "fastboot devices"])
    ∧ mapM reported_device found
      = Some (map (adb_device ExecuteOneShellCommand)
                  (attached_lines ExecuteOneShellCommand)
              ++ map fastboot_device
                   (fastboot_mode_lines ExecuteOneShellCommand)).
Proof.
  destruct (adb_lines_reported
              (tail (split_on (ascii_of_nat 10)
                       (ExecuteOneShellCommand "adb devices").1.1)) [])
    as (found1 & Hadb & Hfound1).
  destruct (fastboot_lines_reported
              (split_on (ascii_of_nat 10)
                 (ExecuteOneShellCommand "fastboot devices").1.1) found1)
    as (found2 & Hfastboot & Hfound2).
  exists (found1 ++ found2). split.
  - unfold detect_devices, shell.
    unfold ebind at 2. unfold eemit, eret at 1. cbv beta iota.
    unfold ebind at 1. cbv beta iota.
    rewrite Hadb. unfold ebind at 1. cbv beta iota.
    unfold ebind at 2. unfold eret at 1. cbv beta iota.
    unfold ebind at 1. cbv beta iota.
    change ([] ++ found1) with found1. rewrite Hfastboot.
    unfold attached_lines. by rewrite !app_nil_r.
  - apply mapM_Some. by apply Forall2_app.
Qed.

(** X27.  [UpdateDevice] for the server type [vti] never fails on the
    listings themselves: whatever [adb devices] and [fastboot devices]
    print, no line raises an [IndexError], and every device that is
    built has the serial, product and status that [UploadDeviceInfo]
    reads.  It runs [adb devices], one [getprop] command for every line
    of that listing after the first that is not blank, and then
    [fastboot devices]; and when the request is answered it makes exactly
    one request, with one device for each of those lines and for each
    line of the fastboot listing that is not blank, in this order. *)
Theorem UpdateDevice_vti_reports_every_listed_device (hostname : string)
    (n : nat) :
  (∃ response, responses n = Return response) →
  ∃ ev,
    UpdateDevice_vti ExecuteOneShellCommand _url responses dumps hostname n
    = (Return tt, S n,
       ShellCommand "adb devices"
       :: map (λ line, ShellCommand (getprop_command line))
              (attached_lines ExecuteOneShellCommand)
       ++ [ShellCommand "fastboot devices"],
       ev)
    ∧ posts_of ev
      = [(_url +:+ "host_info/v1/set",
          dumps (JObj {["hostname" := JStr hostname;
                        "devices" :=
                          JArr (map (adb_device ExecuteOneShellCommand)
                                    (attached_lines ExecuteOneShellCommand)
                                ++ map fastboot_device
                                     (fastboot_mode_lines
                                        ExecuteOneShellCommand))]}))].
Proof.
  intros Hr.
  destruct detect_devices_reported as (found & Hdetect & Hfound).
  destruct (VtiUploadsProperties.checked_post_answered responses
              (_url +:+ "host_info/v1/set")
              (dumps (JObj {["hostname" := JStr hostname;
                             "devices" :=
                               JArr (map (adb_device ExecuteOneShellCommand)
                                       (attached_lines ExecuteOneShellCommand)
                                     ++ map fastboot_device
                                          (fastboot_mode_lines
                                             ExecuteOneShellCommand))]}))
              n Hr) as (ev & Hpost & Hev).
  exists ev. split; [|done].
  unfold UpdateDevice_vti. rewrite Hdetect.
  unfold UploadDeviceInfo, ubind.
  rewrite (VtiUploadsProperties.device_entries_returns found _ [] n Hfound).
  match goal with
  | |- context [[] ++ ?l] => change ([] ++ l) with l
  end.
  by rewrite Hpost.
Qed.

End UpdateDeviceProperties.

(** Witness of X27: two attached devices and one in fastboot mode. *)
Lemma UpdateDevice_vti_reports_every_listed_device_witness :
  ∃ ev,
    UpdateDevice_vti example_shell "https://vti/" second_fails example_dumps
      "host1" 0%nat
    = (Return tt, 1%nat,
       [ShellCommand "adb devices";
        ShellCommand "adb -s HT1 shell getprop ro.product.board";
        ShellCommand "adb -s HT2 shell getprop ro.product.board";
        ShellCommand "fastboot devices"],
       ev)
    ∧ posts_of ev
      = [("https://vti/host_info/v1/set",
          example_dumps
            (JObj {["hostname" := JStr "host1";
                    "devices" :=
                      JArr [JObj {["serial" := JStr "HT1";
                                   "product" := JStr "sailfish";
                                   "status" := JNumber 2]};
                            JObj {["serial" := JStr "HT2";
                                   "product" := JStr "error";
                                   "status" := JNumber 2]};
                            JObj {["serial" := JStr "FA3";
                                   "product" := JStr "unknown";
                                   "status" := JNumber 1]}]]}))].
Proof.
  destruct (UpdateDevice_vti_reports_every_listed_device example_shell
              "https://vti/" second_fails example_dumps "host1" 0%nat)
    as (ev & Hrun & Hposts); [eexists; reflexivity|].
  exists ev. split; [exact Hrun|exact Hposts].
Defined.

End DeviceUpdateProperties.

(** ** Tables *)

Lemma length_spaces (n : nat) : String.length (spaces n) = n.
Proof. induction n as [|n IH]; simpl; [done|by rewrite IH]. Qed.

Lemma length_ljust (s : string) (width : nat) :
  (String.length s ≤ width)%nat → String.length (ljust s width) = width.
Proof.
  intros Hle. unfold ljust. rewrite length_append, length_spaces. lia.
Qed.

(** The inner loop of [_PrintObjects] takes the maximum in every
    column. *)
Lemma update_widths_zip (before width : list nat) (attrs : list string) :
  length attrs = length width →
  update_widths (before ++ width) (length before) attrs
  = before ++ zip_with Nat.max width (map String.length attrs).
Proof.
  revert before width.
  induction attrs as [|attr rest IH]; intros before width Hlen.
  - by destruct width.
  - destruct width as [|w width]; [done|]. simpl.
    rewrite list_lookup_middle by done. simpl.
    replace (length before) with (length before + 0)%nat at 1 by lia.
    rewrite insert_app_r. simpl.
    replace (S (length before)) with (length (before ++ [Nat.max w (String.length attr)]))
      by (rewrite length_app; simpl; lia).
    rewrite (cons_middle _ before), app_assoc.
    rewrite IH by (simpl in Hlen; lia).
    by rewrite <- app_assoc.
Qed.

Lemma widen_keeps (row : list string) (width : list nat)
    (attrs : list string) :
  Forall2 (λ cell w, (String.length cell ≤ w)%nat) row width →
  length attrs = length width →
  Forall2 (λ cell w, (String.length cell ≤ w)%nat) row
    (zip_with Nat.max width (map String.length attrs)).
Proof.
  intros Hrow. revert attrs.
  induction Hrow as [|cell w row width Hle Hrow IH]; intros attrs Hlen.
  - constructor.
  - destruct attrs as [|attr attrs]; [done|]. simpl.
    constructor; [lia|]. apply IH. simpl in Hlen. lia.
Qed.

Lemma widen_covers (width : list nat) (attrs : list string) :
  length attrs = length width →
  Forall2 (λ cell w, (String.length cell ≤ w)%nat) attrs
    (zip_with Nat.max width (map String.length attrs)).
Proof.
  revert attrs. induction width as [|w width IH]; intros attrs Hlen.
  - destruct attrs; [constructor|done].
  - destruct attrs as [|attr attrs]; [done|]. simpl.
    constructor; [lia|]. apply IH. simpl in Hlen. lia.
Qed.

(** The first loop of [_PrintObjects]: one row per object after the
    rows so far, and widths that no cell of any row exceeds. *)
Lemma table_rows_fit (attr_names : list string)
    (objects : list (gmap string attr_value)) (rows : list (list string))
    (width : list nat) :
  length width = length attr_names →
  Forall (λ row, Forall2 (λ cell w, (String.length cell ≤ w)%nat) row width)
         rows →
  ∃ width',
    fold_left (λ '(rows, width) dev_info,
                 let attrs := row_of attr_names dev_info in
                 (rows ++ [attrs], update_widths width 0 attrs))
              objects (rows, width)
    = (rows ++ map (row_of attr_names) objects, width')
    ∧ length width' = length attr_names
    ∧ Forall (λ row,
                Forall2 (λ cell w, (String.length cell ≤ w)%nat) row width')
             (rows ++ map (row_of attr_names) objects).
Proof.
  revert rows width.
  induction objects as [|dev_info objects IH]; intros rows width Hlen Hrows.
  - exists width. simpl. by rewrite app_nil_r.
  - assert (length (row_of attr_names dev_info) = length width) as Hattrs
      by (unfold row_of; rewrite length_map; lia).
    pose proof (update_widths_zip [] width _ Hattrs) as Hzip.
    change ([] ++ width) with width in Hzip.
    change (length (@nil nat)) with 0%nat in Hzip.
    cbn [fold_left]. rewrite Hzip.
    change ([] ++ zip_with Nat.max width
                    (map String.length (row_of attr_names dev_info)))
      with (zip_with Nat.max width
              (map String.length (row_of attr_names dev_info))).
    destruct (IH (rows ++ [row_of attr_names dev_info])
                 (zip_with Nat.max width
                    (map String.length (row_of attr_names dev_info))))
      as (width' & Hfold & Hlen' & Hfit).
    + rewrite length_zip_with_l_eq; [done|]. by rewrite length_map.
    + apply Forall_app. split.
      * eapply Forall_impl; [exact Hrows|]. intros row Hrow.
        by apply widen_keeps.
      * constructor; [|constructor]. by apply widen_covers.
    + exists width'. rewrite <- app_assoc in Hfold, Hfit.
      split; [exact Hfold|]. split; [exact Hlen'|exact Hfit].
Qed.

Lemma imap_ljust (row : list string) (width : list nat) :
  length row = length width →
  imap (λ index attr, ljust attr (default O (width !! index))) row
  = zip_with ljust row width.
Proof.
  revert width. induction row as [|cell row IH]; intros width Hlen.
  - by destruct width.
  - destruct width as [|w width]; [done|].
    rewrite imap_cons. simpl. f_equal. apply IH. simpl in Hlen. lia.
Qed.

(** X28.  [_PrintObjects] writes a table: one line for the attribute
    names and one for every object, in order; and there is one width for
    every column such that every cell of the column, the name and the
    values of all the objects, is written in full and padded to exactly
    that width, so that the columns are aligned. *)
Theorem PrintObjects_aligns_the_columns
    (objects : list (gmap string attr_value)) (attr_names : list string)
    (c : Console) :
  ∃ width,
    length width = length attr_names
    ∧ _PrintObjects objects attr_names c
      = (Return tt, c,
         map (λ row, OutWrite (String.concat "  " (zip_with ljust row width)
                               +:+ newline))
             (attr_names :: map (row_of attr_names) objects))
    ∧ Forall (λ row,
                Forall2 (λ cell w, String.length (ljust cell w) = w
                                   ∧ String.prefix cell (ljust cell w) = true)
                        row width)
             (attr_names :: map (row_of attr_names) objects).
Proof.
  destruct (table_rows_fit attr_names objects [attr_names]
              (map String.length attr_names))
    as (width & Hfold & Hlen & Hfit).
  { by rewrite length_map. }
  { constructor; [|constructor].
    induction attr_names as [|name names IH]; simpl; constructor; [lia|done]. }
  exists width. split; [done|]. split.
  - assert (table_of objects attr_names
            = (attr_names :: map (row_of attr_names) objects, width))
      as Htable by exact Hfold.
    unfold _PrintObjects. rewrite Htable.
    rewrite (for_each_returns _
               (λ row, [OutWrite (String.concat "  " (zip_with ljust row width)
                                  +:+ newline)])).
    + by rewrite concat_map_singleton.
    + intros row Hrow. unfold _Print, emit.
      rewrite imap_ljust; [done|].
      rewrite Forall_forall in Hfit.
      by apply (Forall2_length _ _ _ (Hfit row Hrow)).
  - eapply Forall_impl; [exact Hfit|]. intros row Hrow.
    eapply Forall2_impl; [exact Hrow|]. intros cell w Hle. split.
    + by apply length_ljust.
    + apply prefix_self_append.
Qed.

(** The table of two devices. *)
Example PrintDevices_example :
  events_of (_PrintDevices example_devices) Console_init
  = [OutWrite ("device_serial  state      run_target  build_id  sdk_version  stub" +:+ newline);
     OutWrite ("HT6550300002   Available  sailfish                               " +:+ newline);
     OutWrite ("FA3            Gone                                          a,b " +:+ newline)].
Proof. reflexivity. Qed.

(** ** Scripts *)

Section ScriptProperties.

Variable Cmd_onecmd : string → M (option bool).
Variable script_module : Type.
Variable load_source : string → outcome script_module.
Variable EmitConsoleCommands : script_module → outcome (option (list string)).
Variable environ : gmap string string.

(** X29.  [ProcessScript] refuses a path that does not end in [.py]: it
    prints a line and returns [False], and neither loads the file nor
    runs a command.  For a path that ends in [.py], when the script
    loads and emits its commands, it returns [True] whatever the
    commands do, since no exception of a command leaves [onecmd]; and
    when the environment variable [ANDROID_SERIAL] is set and not empty,
    the first command run is [device --set_serial] with its value. *)
Theorem ProcessScript_returns_True_unless_not_py (script_file_path : string)
    (c : Console) :
  (endswith ".py" script_file_path = false →
   ProcessScript Cmd_onecmd script_module load_source EmitConsoleCommands
     environ script_file_path c
   = (Return false, c,
      [Print ("Script file is not .py file: " +:+ script_file_path)]))
  ∧ (∀ module commands,
       endswith ".py" script_file_path = true →
       load_source script_file_path = Return module →
       EmitConsoleCommands module = Return commands →
       result_of (ProcessScript Cmd_onecmd script_module load_source
                    EmitConsoleCommands environ script_file_path) c
       = Return true
       ∧ ∀ serial,
           environ !! "ANDROID_SERIAL" = Some serial →
           serial ≠ "" →
           ∃ rest,
             events_of (ProcessScript Cmd_onecmd script_module load_source
                          EmitConsoleCommands environ script_file_path) c
             = Print ("Command: device --set_serial=" +:+ serial) :: rest).
Proof.
  split.
  - intros Hpy. unfold ProcessScript. by rewrite Hpy.
  - intros module commands Hpy Hload Hemit.
    assert (∃ c2 ev1 ev2,
              ProcessScript Cmd_onecmd script_module load_source
                EmitConsoleCommands environ script_file_path c
              = (Return true, c2, ev1 ++ ev2)
              ∧ ∀ serial,
                  environ !! "ANDROID_SERIAL" = Some serial →
                  serial ≠ "" →
                  ∃ rest,
                    ev1 = Print ("Command: device --set_serial=" +:+ serial)
                          :: rest)
      as (c2 & ev1 & ev2 & Hprocess & Hecho).
    { unfold ProcessScript. rewrite Hpy. cbn [negb].
      unfold lift, bind at 1. rewrite Hload.
      set (first := if truthy (environ !! "ANDROID_SERIAL")
                    then bind (onecmd Cmd_onecmd
                                 ("device --set_serial=" +:+
                                  default "" (environ !! "ANDROID_SERIAL")))
                              (λ _, ret tt)
                    else ret tt).
      assert (∃ c1 ev1, first c = (Return tt, c1, ev1)
                        ∧ ∀ serial,
                            environ !! "ANDROID_SERIAL" = Some serial →
                            serial ≠ "" →
                            ∃ rest,
                              ev1 = Print ("Command: device --set_serial=" +:+
                                           serial) :: rest)
        as (c1 & ev1 & Hfirst & Hecho).
      { unfold first.
        destruct (environ !! "ANDROID_SERIAL") as [serial|] eqn:Hserial.
        - destruct serial as [|a serial]; simpl.
          + eexists _, _. split; [reflexivity|]. by intros ? [= <-].
          + unfold bind. rewrite onecmd_echo.
            destruct (Cmd_onecmd _ c) as [[[r|e] c'] ev];
              eexists _, _; (split; [reflexivity|]);
              intros ? [= <-] _; eexists; reflexivity.
        - eexists _, _. split; [reflexivity|]. done. }
      unfold bind at 1. rewrite Hfirst.
      unfold bind at 1. rewrite Hemit.
      set (run := match commands with
                  | Some (_ :: _) => replay Cmd_onecmd (default [] commands)
                  | _ => ret tt
                  end).
      assert ((run c1).1.1 = Return tt) as Hrun.
      { unfold run. destruct commands as [[|command rest]|]; [done| |done].
        apply (replay_returns Cmd_onecmd). }
      unfold bind. destruct (run c1) as [[r c2] ev2]. simpl in Hrun.
      rewrite Hrun. simpl. eexists _, _, _. split; [reflexivity|exact Hecho]. }
    unfold result_of, events_of. rewrite Hprocess. simpl. split; [done|].
    intros serial Hserial Hne.
    destruct (Hecho serial Hserial Hne) as [rest ->]. by eexists.
Qed.

End ScriptProperties.

(** Witness of X29: a script whose only command raises. *)
Lemma ProcessScript_returns_True_unless_not_py_witness :
  ProcessScript example_Cmd_onecmd unit (λ _, Return tt)
    (λ _, Return (Some ["fetch"])) {["ANDROID_SERIAL" := "HT1"]}
    "script.txt" Console_init
  = (Return false, Console_init,
     [Print "Script file is not .py file: script.txt"])
  ∧ result_of (ProcessScript example_Cmd_onecmd unit (λ _, Return tt)
                 (λ _, Return (Some ["fetch"])) {["ANDROID_SERIAL" := "HT1"]}
                 "script.py") Console_init
    = Return true
  ∧ ∃ rest,
      events_of (ProcessScript example_Cmd_onecmd unit (λ _, Return tt)
                   (λ _, Return (Some ["fetch"]))
                   {["ANDROID_SERIAL" := "HT1"]} "script.py") Console_init
      = Print "Command: device --set_serial=HT1" :: rest.
Proof.
  destruct (ProcessScript_returns_True_unless_not_py example_Cmd_onecmd unit
              (λ _, Return tt) (λ _, Return (Some ["fetch"]))
              {["ANDROID_SERIAL" := "HT1"]} "script.txt" Console_init)
    as [Hrefused _].
  destruct (ProcessScript_returns_True_unless_not_py example_Cmd_onecmd unit
              (λ _, Return tt) (λ _, Return (Some ["fetch"]))
              {["ANDROID_SERIAL" := "HT1"]} "script.py" Console_init)
    as [_ Hruns].
  destruct (Hruns tt (Some ["fetch"])) as [Htrue Hfirst];
    [reflexivity..|].
  split; [apply Hrefused; reflexivity|]. split; [exact Htrue|].
  apply (Hfirst "HT1"); [reflexivity|discriminate].
Defined.
